(** * GNSS SmartNav: a shallow embedding of the outage-prediction core

    The development follows the Python modules of the application:
    [location_mode.py] (seeded scenario generator, Profile A rule, location
    pipeline), [route_mode.py] (geocoding, route directions, per-vertex
    Profile B labels, route summary), [gnss_model.py] (auxiliary route
    overview, Profile C), [route_utils.py] (directions helper) and
    [app.py] (the choice between the two pages).

    Python floats are IEEE binary64 and are modelled by Rocq's primitive
    floats; Python integers are [Z].  Code that raises returns [Raise e];
    code that touches ambient state (network, the process-global [random]
    generator, the Streamlit session) runs in a state-and-exception monad
    over a [World]. *)

From Stdlib Require Import ZArith List String Ascii Bool Lia Floats.
From Stdlib Require Import DecimalString.
Import ListNotations.

Set Warnings "-inexact-float,-register-all".
Local Open Scope string_scope.
Local Open Scope list_scope.
Local Open Scope Z_scope.

(* ================================================================== *)
(** ** Exceptions and results *)

Inductive exn : Type :=
| ValueError (msg : string)
| TypeError
| KeyError
| IndexError
| AttributeError
| OverflowError
| ZeroDivisionError
| Timeout                 (* requests.exceptions.Timeout *)
| ConnectionError         (* requests.exceptions.ConnectionError *)
| HTTPError (status : Z)  (* raised by Response.raise_for_status *)
| JSONDecodeError
| GeocoderTimedOut
| GeocoderUnavailable
| GeocoderServiceError.

Inductive result (A : Type) : Type :=
| Ok (a : A)
| Raise (e : exn).
Arguments Ok {A} a.
Arguments Raise {A} e.

Definition is_ok {A} (r : result A) : bool :=
  match r with Ok _ => true | Raise _ => false end.

(** Sequencing, shared by pure fallible code ([result]) and by code that
    also threads the world (the monad [M] below). *)
Class Monad (T : Type -> Type) : Type := {
  ret : forall {A}, A -> T A;
  bind : forall {A B}, T A -> (A -> T B) -> T B
}.

Declare Scope monad_scope.
Delimit Scope monad_scope with monad.
Notation "x <- c1 ;; c2" := (bind c1 (fun x => c2))
  (at level 61, c1 at next level, right associativity) : monad_scope.
Notation "' pat <- c1 ;; c2" := (bind c1 (fun x => match x with pat => c2 end))
  (at level 61, pat pattern, c1 at next level, right associativity) : monad_scope.
Notation "c1 ;; c2" := (bind c1 (fun _ => c2))
  (at level 61, right associativity) : monad_scope.
Local Open Scope monad_scope.

#[export] Instance result_monad : Monad result := {
  ret := @Ok;
  bind := fun A B r k => match r with Ok a => k a | Raise e => Raise e end
}.

(* ================================================================== *)
(** ** Python numbers *)

(** A Python number as the code meets it: an [int] or a [float]. *)
Inductive pynum : Type :=
| PInt (z : Z)
| PFloat (f : float).

(** [float(z)]: the nearest binary64 (ties to even); OverflowError when
    the integer is too large ("int too large to convert to float"). *)
Definition Z_to_SF (z : Z) : spec_float := binary_normalize prec emax z 0 false.

Definition int_to_float (z : Z) : result float :=
  match Z_to_SF z with
  | S754_infinity _ => Raise OverflowError
  | sf => Ok (SF2Prim sf)
  end.

(** [int(f)]: truncation toward zero; [int(nan)] raises ValueError and
    [int(inf)] raises OverflowError. *)
Definition py_int (f : float) : result Z :=
  match Prim2SF f with
  | S754_zero _ => Ok 0
  | S754_finite s m e =>
      let a := if 0 <=? e then Z.pos m * 2 ^ e else Z.pos m / 2 ^ (- e) in
      Ok (if s then - a else a)
  | S754_infinity _ => Raise OverflowError
  | S754_nan => Raise (ValueError "cannot convert float NaN to integer")
  end.

Definition num_int (a : pynum) : result Z :=
  match a with
  | PInt z => Ok z
  | PFloat f => py_int f
  end.

Definition num_to_float (a : pynum) : result float :=
  match a with
  | PInt z => int_to_float z
  | PFloat f => Ok f
  end.

(** [a * b] and [a + b]: integer arithmetic on two ints, otherwise both
    operands are taken to binary64 first. *)
Definition num_mul (a b : pynum) : result pynum :=
  match a, b with
  | PInt x, PInt y => Ok (PInt (x * y))
  | _, _ =>
      x <- num_to_float a ;;
      y <- num_to_float b ;;
      Ok (PFloat (x * y)%float)
  end.

Definition num_add (a b : pynum) : result pynum :=
  match a, b with
  | PInt x, PInt y => Ok (PInt (x + y))
  | _, _ =>
      x <- num_to_float a ;;
      y <- num_to_float b ;;
      Ok (PFloat (x + y)%float)
  end.

(** Comparisons of a number with an int literal of the source.  Python
    compares an int with a float exactly; every literal of the program is
    a small integer, exactly a binary64, so the float comparison is it. *)
Definition num_gt (a : pynum) (k : Z) : bool :=
  match a with
  | PInt z => k <? z
  | PFloat f => (SF2Prim (Z_to_SF k) <? f)%float
  end.

Definition num_ge (a : pynum) (k : Z) : bool :=
  match a with
  | PInt z => k <=? z
  | PFloat f => (SF2Prim (Z_to_SF k) <=? f)%float
  end.

(** The mathematical order between a number and an integer, for stating
    claims.  A finite binary64 is [(-1)^s * m * 2^e]; comparing it with
    the integer [k] is an integer comparison once the power of two is
    moved to the side where its exponent is nonnegative.  NaN is above and
    below nothing. *)
Definition SF_signed (s : bool) (m : positive) : Z :=
  if s then Z.neg m else Z.pos m.

Definition SF_exceeds (x : spec_float) (k : Z) : Prop :=
  match x with
  | S754_zero _ => k < 0
  | S754_infinity s => s = false
  | S754_nan => False
  | S754_finite s m e =>
      if 0 <=? e then k < SF_signed s m * 2 ^ e
      else k * 2 ^ (- e) < SF_signed s m
  end.

Definition SF_at_least (x : spec_float) (k : Z) : Prop :=
  match x with
  | S754_zero _ => k <= 0
  | S754_infinity s => s = false
  | S754_nan => False
  | S754_finite s m e =>
      if 0 <=? e then k <= SF_signed s m * 2 ^ e
      else k * 2 ^ (- e) <= SF_signed s m
  end.

Definition exceeds (a : pynum) (k : Z) : Prop :=
  match a with
  | PInt z => k < z
  | PFloat f => SF_exceeds (Prim2SF f) k
  end.

Definition at_least (a : pynum) (k : Z) : Prop :=
  match a with
  | PInt z => k <= z
  | PFloat f => SF_at_least (Prim2SF f) k
  end.

(** *** Decimal rendering and rounding of floats *)

(** [n / d] rounded to the nearest integer, ties to even ([0 <= n], [0 < d]). *)
Definition round_half_even (n d : Z) : Z :=
  let q := n / d in
  let r := n mod d in
  if 2 * r <? d then q
  else if d <? 2 * r then q + 1
  else if Z.even q then q else q + 1.

(** [|m * 2^e| * 10^digits], correctly rounded to an integer. *)
Definition scaled (digits : nat) (m : positive) (e : Z) : Z :=
  if 0 <=? e then Z.pos m * 2 ^ e * 10 ^ Z.of_nat digits
  else round_half_even (Z.pos m * 10 ^ Z.of_nat digits) (2 ^ (- e)).

Definition decimal (n : Z) : string := NilZero.string_of_uint (N.to_uint (Z.to_N n)).

Fixpoint zeros (k : nat) : string :=
  match k with O => "" | S k' => String "0" (zeros k') end.

(** The [digits] fractional digits of [n / 10^digits], zero-padded. *)
Definition fraction (digits : nat) (n : Z) : string :=
  let f := decimal (n mod 10 ^ Z.of_nat digits) in
  zeros (digits - String.length f) ++ f.

(** [f"{x:.Nf}"] for [N >= 1]: the exact binary value rounded half-even
    to [N] decimals, as CPython's correctly rounded conversion prints it. *)
Definition format_f (digits : nat) (x : float) : string :=
  match Prim2SF x with
  | S754_nan => "nan"
  | S754_infinity s => if s then "-inf" else "inf"
  | S754_zero s => (if s then "-" else "") ++ "0." ++ zeros digits
  | S754_finite s m e =>
      let n := scaled digits m e in
      (if s then "-" else "") ++ decimal (n / 10 ^ Z.of_nat digits)
        ++ "." ++ fraction digits n
  end.

Definition num_format_f (digits : nat) (a : pynum) : result string :=
  x <- num_to_float a ;; Ok (format_f digits x).

(** [round(x, 2)]: the binary64 nearest to the half-even rounding of [x] to
    two decimals.  When the scaled integer no longer fits 53 bits the
    spacing of floats around [x] exceeds 0.01 and [x] is its own rounding. *)
Definition py_round2 (x : float) : float :=
  match Prim2SF x with
  | S754_finite s m e =>
      if 0 <=? e then x
      else
        let n := scaled 2 m e in
        if n <? 2 ^ 53 then
          let q := (SF2Prim (Z_to_SF n) / 100)%float in
          if s then (- q)%float else q
        else x
  | _ => x
  end.

(** [a / b] for an int [a] and a positive int literal [b]: the quotient
    correctly rounded to binary64.  The quotient is computed with 64 extra
    bits and a sticky bit, then rounded once. *)
Definition int_truediv (a b : Z) : result float :=
  let k := 64 + Z.log2 b + 1 in
  let q := (Z.abs a * 2 ^ k) / b in
  let sticky := if (Z.abs a * 2 ^ k) mod b =? 0 then 0 else 1 in
  let n := 2 * q + sticky in
  match binary_normalize prec emax (if a <? 0 then - n else n) (- (k + 1)) (a <? 0) with
  | S754_infinity _ => Raise OverflowError
  | sf => Ok (SF2Prim sf)
  end.

(** [a / b] where [b] is a positive int literal of the source. *)
Definition num_truediv (a : pynum) (b : Z) : result float :=
  match a with
  | PInt z => int_truediv z b
  | PFloat f => Ok (f / SF2Prim (Z_to_SF b))%float
  end.

(* ================================================================== *)
(** ** JSON values, as [json.loads] and [Response.json()] return them *)

Inductive json : Type :=
| JNull
| JBool (b : bool)
| JNum (n : pynum)
| JStr (s : string)
| JList (l : list json)
| JDict (d : list (string * json)).   (* the items of the dict, keys distinct *)

Fixpoint assoc {A} (k : string) (d : list (string * A)) : option A :=
  match d with
  | [] => None
  | (k', v) :: d' => if String.eqb k k' then Some v else assoc k d'
  end.

(** [j.get(k, default)] *)
Definition dict_get (j : json) (k : string) (default : json) : result json :=
  match j with
  | JDict d => Ok (match assoc k d with Some v => v | None => default end)
  | _ => Raise AttributeError
  end.

(** [j[k]] for a string key [k] *)
Definition getitem (j : json) (k : string) : result json :=
  match j with
  | JDict d => match assoc k d with Some v => Ok v | None => Raise KeyError end
  | _ => Raise TypeError
  end.

(** [j[i]] for one of the index literals [0], [1] of the source *)
Definition getidx (j : json) (i : nat) : result json :=
  match j with
  | JList l => match nth_error l i with Some v => Ok v | None => Raise IndexError end
  | JStr s =>
      match String.get i s with
      | Some c => Ok (JStr (String c EmptyString))
      | None => Raise IndexError
      end
  | JDict _ => Raise KeyError      (* the keys of a JSON object are strings *)
  | _ => Raise TypeError
  end.

(** Truth value of a JSON value, as [if not feats] tests it. *)
Definition truthy (j : json) : bool :=
  match j with
  | JNull => false
  | JBool b => b
  | JNum (PInt z) => negb (z =? 0)
  | JNum (PFloat f) => negb (f =? 0)%float
  | JStr s => negb (String.eqb s "")
  | JList l => match l with [] => false | _ => true end
  | JDict d => match d with [] => false | _ => true end
  end.

(** [for x in j]: the elements of a list, the characters of a string, the
    keys of a dict. *)
Definition py_iter (j : json) : result (list json) :=
  match j with
  | JList l => Ok l
  | JStr s => Ok (map (fun c => JStr (String c EmptyString)) (list_ascii_of_string s))
  | JDict d => Ok (map (fun kv => JStr (fst kv)) d)
  | _ => Raise TypeError
  end.

(** A JSON value used as a number: [bool] is a subclass of [int]. *)
Definition as_num (j : json) : result pynum :=
  match j with
  | JNum n => Ok n
  | JBool b => Ok (PInt (if b then 1 else 0))
  | _ => Raise TypeError
  end.

(** [j > k] against an int literal; a non-number raises TypeError
    ("'>' not supported between instances of ..."). *)
Definition json_gt (j : json) (k : Z) : result bool :=
  n <- as_num j ;; Ok (num_gt n k).

(* ================================================================== *)
(** ** The world outside the program *)

(** *** HTTP, as the [requests] library presents it *)

Inductive request : Type :=
| GET (url : string) (params : list (string * json)) (timeout : Z)
| POST (url : string) (body : json) (headers : list (string * json)) (timeout : Z).

Record response : Type := {
  status_code : Z;
  body : option json        (* [None]: the body does not parse as JSON *)
}.

Inductive http_outcome : Type :=
| HttpRaise (e : exn)       (* Timeout, ConnectionError, ... *)
| HttpResponse (r : response).

(** [resp.raise_for_status()] *)
Definition raise_for_status (r : response) : result unit :=
  if (400 <=? status_code r) && (status_code r <? 600)
  then Raise (HTTPError (status_code r))
  else Ok tt.

(** [resp.json()] *)
Definition response_json (r : response) : result json :=
  match body r with
  | Some j => Ok j
  | None => Raise JSONDecodeError
  end.

(** *** Nominatim, as [geopy] presents it *)

Record Location : Type := {
  latitude : float;
  longitude : float;
  address : string;
  raw : json
}.

Inductive nominatim_call : Type :=
| Geocode (query : string) (timeout : Z)
| Reverse (lat lon : json) (timeout : Z).

Inductive nominatim_outcome : Type :=
| GeoRaise (e : exn)
| GeoResult (l : option Location).

(** *** Random sources and the classifier library *)

(** A NumPy [Generator] ([np.random.default_rng]).  Each draw returns the
    value and the advanced generator; a draw may raise (e.g. a range that
    is not finite). *)
Class NumpyRandom : Type := {
  Generator : Type;
  rng_of_seed : Z -> Generator;
  rng_uniform : float -> float -> Generator -> result float * Generator;
  rng_exponential : float -> Generator -> result float * Generator;
  rng_integers : Z -> Z -> Generator -> result Z * Generator
}.

(** Python's [random] module: one hidden generator per process.  The
    program calls it with constant, ordered bounds only. *)
Class PyRandom : Type := {
  RandomState : Type;
  random_uniform : float -> float -> RandomState -> float * RandomState;
  random_randint : Z -> Z -> RandomState -> Z * RandomState
}.

(** [sklearn.ensemble.RandomForestClassifier(n_estimators=100,
    random_state=42)] and [classification_report]. *)
Class Forest : Type := {
  Model : Type;
  forest_fit : list (list pynum) -> list bool -> Model;
  forest_predict : Model -> list (list pynum) -> list bool;
  classification_report : list bool -> list bool -> string
}.

(** folium checks every location it is given
    ([folium.utilities.validate_location]), and raises when one is not a
    pair of numbers or holds a NaN.  The check it runs on the points of a
    line, and what it makes of strings, vary with its version: the page is
    modelled over the verdict of the three constructors it calls. *)
Class Folium : Type := {
  folium_map : json * json -> result unit;               (* folium.Map(location=p) *)
  folium_polyline : list (json * json) -> result unit;   (* folium.PolyLine(locations) *)
  folium_marker : json * json -> result unit             (* folium.Marker(location) *)
}.

(* ================================================================== *)
(** ** Data of the application *)

(** [pandas.Timestamp], through the one thing the program asks of it:
    [dt.timestamp()], seconds since the epoch as a float. *)
Record Timestamp : Type := { timestamp : float }.

(** The date handling of pandas the location pipeline goes through. *)
Class Pandas : Type := {
  to_datetime_s : json -> result Timestamp;     (* pd.to_datetime(x, unit="s") *)
  strftime_minutes : Timestamp -> string;       (* .dt.strftime('%Y-%m-%d %H:%M') *)
  to_datetime : string -> result Timestamp;     (* pd.to_datetime(text) *)
  KpFrame : Type;
  kp_frame : json -> result KpFrame             (* pd.DataFrame(j), time_tag parsed *)
}.

(** A [pandas.DataFrame] built from a dict of equally long columns. *)
Definition DataFrame : Type := list (string * list pynum).

Definition column (df : DataFrame) (name : string) : list pynum :=
  match assoc name df with Some c => c | None => [] end.

Definition n_rows (df : DataFrame) : nat :=
  match df with [] => O | (_, c) :: _ => List.length c end.

(** Row [i] of the frame: each column name with the value it holds there. *)
Definition row (df : DataFrame) (i : nat) : list (string * option pynum) :=
  map (fun kc => (fst kc, nth_error (snd kc) i)) df.

(** One entry of the forecast table built by [fetch_openweather]. *)
Record ForecastRec : Type := {
  fc_time : Timestamp;
  fc_cloud : json;
  fc_rain : json
}.

(** The dict stored under [st.session_state.prediction]. *)
Record Prediction `{Forest} : Type := {
  p_lat : float; p_lon : float; p_place : string; p_dt : Timestamp;
  p_cloud : float; p_rain : float; p_tec : float; p_kp : Z;
  p_outage : bool;
  p_sim : DataFrame;
  p_out_ml : list bool;            (* the column sim["out_ml"] *)
  p_model_report : string
}.

(** What [get_route] returns: the route as (lat, lon) vertices, the two
    geocoded endpoints and the provider's summary. *)
Definition GeoInfo : Type := (json * json * json)%type.

Record RouteData : Type := {
  rd_route : list (json * json);
  rd_start : GeoInfo;
  rd_end : GeoInfo;
  rd_summary : json
}.

(** [st.session_state]: each key is absent ([None]) or holds a value. *)
Record Session `{Forest} `{Pandas} : Type := {
  ss_trigger : option bool;
  ss_loc : option (float * float * string);
  ss_weather_df : option (list ForecastRec);
  ss_kp_df : option KpFrame;
  ss_prediction_done : option bool;
  ss_prediction : option Prediction;
  ss_route_data : option (option RouteData)
}.

(** Everything a run can observe or change besides its arguments. *)
Record World `{PyRandom} `{Forest} `{Pandas} : Type := {
  env : string -> option string;            (* os.getenv *)
  calls : nat;                              (* external calls made so far *)
  http : nat -> request -> http_outcome;    (* the answer to the n-th call *)
  nominatim : nat -> nominatim_call -> nominatim_outcome;
  entropy : nat -> Z;                       (* OS entropy, for an unseeded generator *)
  global_random : RandomState;              (* the generator of module random *)
  session : Session;
  fit_calls : list (list (list pynum) * list bool);   (* arguments of each model.fit *)
  stdout : list (string * exn)              (* print("Route error:", e) *)
}.

(** State and exceptions: a computation takes the state, returns a value
    or raises, and leaves a state. *)
Definition SE (S A : Type) : Type := S -> result A * S.

#[export] Instance SE_monad (S : Type) : Monad (SE S) := {
  ret := fun A a s => (Ok a, s);
  bind := fun A B m k s =>
    match m s with
    | (Ok a, s') => k a s'
    | (Raise e, s') => (Raise e, s')
    end
}.

Definition raise {S A} (e : exn) : SE S A := fun s => (Raise e, s).

Definition lift {S A} (r : result A) : SE S A := fun s => (r, s).

(** [try: body  except: handler] with a bare [except] (or
    [except Exception]: every exception of the model is one). *)
Definition try_except {S A} (body : SE S A) (handler : exn -> SE S A) : SE S A :=
  fun s =>
    match body s with
    | (Ok a, s') => (Ok a, s')
    | (Raise e, s') => handler e s'
    end.

(** [try: body  except (E1, E2): handler]: other exceptions pass through. *)
Definition try_except_only {S A} (caught : exn -> bool)
    (body : SE S A) (handler : SE S A) : SE S A :=
  fun s =>
    match body s with
    | (Ok a, s') => (Ok a, s')
    | (Raise e, s') => if caught e then handler s' else (Raise e, s')
    end.

Section Program.

Context `{NR : NumpyRandom} `{PR : PyRandom} `{FO : Forest} `{PD : Pandas}
        `{FM : Folium}.

(** Computations over the world, and over a local NumPy generator. *)
Definition M : Type -> Type := SE World.
Definition Gen : Type -> Type := SE Generator.

Definition get_world : M World := fun w => (Ok w, w).

Definition set_session (f : Session -> Session) : M unit :=
  fun w => (Ok tt,
    {| env := env w; calls := calls w; http := http w; nominatim := nominatim w;
       entropy := entropy w; global_random := global_random w;
       session := f (session w); fit_calls := fit_calls w; stdout := stdout w |}).

Definition next_call (w : World) : World :=
  {| env := env w; calls := S (calls w); http := http w; nominatim := nominatim w;
     entropy := entropy w; global_random := global_random w;
     session := session w; fit_calls := fit_calls w; stdout := stdout w |}.

(** [requests.get] / [requests.post] *)
Definition requests_send (r : request) : M response :=
  fun w =>
    match http w (calls w) r with
    | HttpRaise e => (Raise e, next_call w)
    | HttpResponse resp => (Ok resp, next_call w)
    end.

(** [geolocator.geocode] / [geolocator.reverse] *)
Definition nominatim_send (c : nominatim_call) : M (option Location) :=
  fun w =>
    match nominatim w (calls w) c with
    | GeoRaise e => (Raise e, next_call w)
    | GeoResult l => (Ok l, next_call w)
    end.

(** A draw from the process-global generator of module [random]. *)
Definition with_global_random {A} (draw : RandomState -> A * RandomState) : M A :=
  fun w =>
    let '(a, g) := draw (global_random w) in
    (Ok a,
     {| env := env w; calls := calls w; http := http w; nominatim := nominatim w;
        entropy := entropy w; global_random := g;
        session := session w; fit_calls := fit_calls w; stdout := stdout w |}).

(** [np.random.default_rng(seed)]: with a seed the generator is a function
    of the seed; without one it is seeded from the OS. *)
Definition default_rng (seed : option Z) : M Generator :=
  match seed with
  | Some s => ret (rng_of_seed s)
  | None => fun w => (Ok (rng_of_seed (entropy w (calls w))), next_call w)
  end.

(** Draws on a generator object held in a local variable. *)
Definition with_rng {A} (rng : Generator) (draws : Gen A) : M A :=
  lift (fst (draws rng)).

(** [rng.f(..., size=n)]: [n] samples in sequence. *)
Fixpoint samples {A} (n : nat) (draw : Gen A) : Gen (list A) :=
  match n with
  | O => ret []
  | S n' => x <- draw ;; xs <- samples n' draw ;; ret (x :: xs)
  end.

Definition sized {A} (n : Z) (draw : Gen A) : Gen (list A) :=
  if n <? 0 then raise (ValueError "negative dimensions are not allowed")
  else samples (Z.to_nat n) draw.

(* ------------------------------------------------------------------ *)
(** ** location_mode.py *)

(** The seed of [seeded_rng]:
    [int(lat * 1000 + lon * 1000 + dt.timestamp()) % 100000]. *)
Definition location_seed (lat lon : float) (dt : Timestamp) : result Z :=
  n <- py_int (lat * 1000 + lon * 1000 + timestamp dt)%float ;;
  Ok (n mod 100000).

Definition seeded_rng (lat lon : float) (dt : Timestamp) : M Generator :=
  seed <- lift (location_seed lat lon dt) ;;
  default_rng (Some seed).

(** The four draws of [get_fixed_values], in the order the code makes
    them on its generator. *)
Definition feature_draws : Gen (float * float * float * Z) :=
  cloud <- rng_uniform 0 100 ;;
  rain <- rng_exponential 2 ;;
  tec <- rng_uniform 20 80 ;;
  kp <- rng_integers 0 10 ;;
  ret (cloud, rain, tec, kp).

Definition get_fixed_values (lat lon : float) (dt : Timestamp)
  : M (float * float * float * Z) :=
  rng <- seeded_rng lat lon dt ;;
  with_rng rng feature_draws.

(** The frame [simulate_points] builds: the dict's values are evaluated
    in order, each drawing [n] samples from the same generator. *)
Definition population_draws (n : Z) (lat lon : float) : Gen DataFrame :=
  c_lat <- sized n (rng_uniform (lat - 5) (lat + 5)) ;;
  c_lon <- sized n (rng_uniform (lon - 5) (lon + 5)) ;;
  c_cloud <- sized n (rng_uniform 0 100) ;;
  c_rain <- sized n (rng_exponential 2) ;;
  c_tec <- sized n (rng_uniform 20 80) ;;
  c_kp <- sized n (rng_integers 0 10) ;;
  ret [ ("lat", map PFloat c_lat); ("lon", map PFloat c_lon);
        ("cloud", map PFloat c_cloud); ("rain", map PFloat c_rain);
        ("tec", map PFloat c_tec); ("kp", map PInt c_kp) ].

Definition simulate_points (n : Z) (lat lon : float) (dt : Timestamp) : M DataFrame :=
  rng <- seeded_rng lat lon dt ;;
  with_rng rng (population_draws n lat lon).

(** Profile A. *)
Definition predict_outage (cloud rain tec kp : pynum) : bool :=
  num_gt cloud 70 && num_gt rain 1 && num_gt tec 25 && num_ge kp 5.

(** [@st.cache_data] memoises the value a call returns; the definitions of
    [fetch_openweather], [fetch_kp] and [geocode_place] are the bodies, that
    is a call that is not answered from the cache. *)

Definition openweather_key (w : World) : json :=
  match env w "OPENWEATHER_API_KEY" with Some k => JStr k | None => JNull end.

Definition forecast_rec (e : json) : result ForecastRec :=
  dt <- getitem e "dt" ;;
  time <- to_datetime_s dt ;;
  clouds <- getitem e "clouds" ;;
  cloud <- getitem clouds "all" ;;
  rain <- dict_get e "rain" (JDict []) ;;
  rain3h <- dict_get rain "3h" (JNum (PFloat 0)) ;;
  Ok {| fc_time := time; fc_cloud := cloud; fc_rain := rain3h |}.

Fixpoint forecast_recs (es : list json) : result (list ForecastRec) :=
  match es with
  | [] => Ok []
  | e :: es' => r <- forecast_rec e ;; rs <- forecast_recs es' ;; Ok (r :: rs)
  end.

Definition fetch_openweather (lat lon : float) : M (list ForecastRec) :=
  w <- get_world ;;
  r <- requests_send
         (GET "https://api.openweathermap.org/data/2.5/forecast"
              [ ("lat", JNum (PFloat lat)); ("lon", JNum (PFloat lon));
                ("appid", openweather_key w); ("units", JStr "metric") ] 10) ;;
  lift (raise_for_status r) ;;
  lift (j <- response_json r ;;
        l <- getitem j "list" ;;
        es <- py_iter l ;;
        forecast_recs es).

Definition fetch_kp : M KpFrame :=
  r <- requests_send
         (GET "https://services.swpc.noaa.gov/json/planetary_k_index_1m.json" [] 5) ;;
  lift (raise_for_status r) ;;
  lift (j <- response_json r ;; kp_frame j).

(** [s.split(",")[0]] *)
Fixpoint before_comma (s : string) : string :=
  match s with
  | EmptyString => EmptyString
  | String c s' => if Ascii.eqb c "," then EmptyString else String c (before_comma s')
  end.

Definition caught_by_geocode_place (e : exn) : bool :=
  match e with
  | GeocoderTimedOut | GeocoderUnavailable => true
  | _ => false
  end.

(** The body of the loop of [geocode_place]: [Some] is the [return] inside
    the loop, [None] falls through to the next attempt.  (The geolocator
    object and its SSL context are built before the loop; building them
    asks nothing of the network.) *)
Definition geocode_attempt (query : string) : M (option (float * float * string)) :=
  try_except_only caught_by_geocode_place
    (location <- nominatim_send (Geocode query 10) ;;
     match location with
     | Some loc =>
         name <- lift (dict_get (raw loc) "display_name" (JStr "")) ;;
         match name with
         | JStr s => ret (Some (latitude loc, longitude loc, before_comma s))
         | _ => raise AttributeError
         end
     | None => ret None
     end)
    (ret None).

Fixpoint geocode_attempts (attempts : list string) : M (option (float * float * string)) :=
  match attempts with
  | [] => ret None
  | query :: rest =>
      found <- geocode_attempt query ;;
      match found with
      | Some geo => ret (Some geo)
      | None => geocode_attempts rest
      end
  end.

Definition geocode_place (place : string) : M (option (float * float * string)) :=
  geocode_attempts [place; (place ++ ", India")%string].

(** The widgets of the location page, as one run of the script reads them. *)
Record LocationInputs : Type := {
  location_input : string;
  n_pts : Z;
  fetch_clicked : bool;
  selected_time : nat;         (* the index chosen in the time select box *)
  predict_clicked : bool
}.

Inductive LocationView : Type :=
| AskForLocation               (* "Enter a location and click 'Fetch Available Times'" *)
| AskForPrediction             (* "Select a time and click 'Predict GNSS Outage'" *)
| ShowPrediction (p : Prediction).

Definition record_fit (X : list (list pynum)) (y : list bool) : M unit :=
  fun w => (Ok tt,
    {| env := env w; calls := calls w; http := http w; nominatim := nominatim w;
       entropy := entropy w; global_random := global_random w;
       session := session w; fit_calls := fit_calls w ++ [(X, y)];
       stdout := stdout w |}).

(** [df[["cloud", "rain", "tec", "kp"]]], row by row. *)
Fixpoint features_of (cloud rain tec kp : list pynum) : list (list pynum) :=
  match cloud, rain, tec, kp with
  | c :: cs, r :: rs, t :: ts, k :: ks => [c; r; t; k] :: features_of cs rs ts ks
  | _, _, _, _ => []
  end.

Definition features (df : DataFrame) : list (list pynum) :=
  features_of (column df "cloud") (column df "rain") (column df "tec") (column df "kp").

(** A row handed to [apply(..., axis=1)] is a float64 Series: the int
    column [kp] reaches the lambda as a float. *)
Definition upcast (a : pynum) : pynum :=
  match a with
  | PInt z => PFloat (SF2Prim (Z_to_SF z))
  | PFloat f => PFloat f
  end.

Definition label_rows (df : DataFrame) : list bool :=
  map (fun r =>
         match r with
         | [c; r; t; k] => predict_outage (upcast c) (upcast r) (upcast t) (upcast k)
         | _ => false
         end)
      (features df).

Definition set_loc (v : float * float * string) (s : Session) : Session :=
  {| ss_trigger := ss_trigger s; ss_loc := Some v; ss_weather_df := ss_weather_df s;
     ss_kp_df := ss_kp_df s; ss_prediction_done := ss_prediction_done s;
     ss_prediction := ss_prediction s; ss_route_data := ss_route_data s |}.

Definition set_weather_df (v : list ForecastRec) (s : Session) : Session :=
  {| ss_trigger := ss_trigger s; ss_loc := ss_loc s; ss_weather_df := Some v;
     ss_kp_df := ss_kp_df s; ss_prediction_done := ss_prediction_done s;
     ss_prediction := ss_prediction s; ss_route_data := ss_route_data s |}.

Definition set_kp_df (v : KpFrame) (s : Session) : Session :=
  {| ss_trigger := ss_trigger s; ss_loc := ss_loc s; ss_weather_df := ss_weather_df s;
     ss_kp_df := Some v; ss_prediction_done := ss_prediction_done s;
     ss_prediction := ss_prediction s; ss_route_data := ss_route_data s |}.

Definition set_prediction_done (v : bool) (s : Session) : Session :=
  {| ss_trigger := ss_trigger s; ss_loc := ss_loc s; ss_weather_df := ss_weather_df s;
     ss_kp_df := ss_kp_df s; ss_prediction_done := Some v;
     ss_prediction := ss_prediction s; ss_route_data := ss_route_data s |}.

Definition set_prediction (v : Prediction) (s : Session) : Session :=
  {| ss_trigger := ss_trigger s; ss_loc := ss_loc s; ss_weather_df := ss_weather_df s;
     ss_kp_df := ss_kp_df s; ss_prediction_done := ss_prediction_done s;
     ss_prediction := Some v; ss_route_data := ss_route_data s |}.

Definition init_trigger (s : Session) : Session :=
  {| ss_trigger := match ss_trigger s with Some b => Some b | None => Some false end;
     ss_loc := ss_loc s; ss_weather_df := ss_weather_df s;
     ss_kp_df := ss_kp_df s; ss_prediction_done := ss_prediction_done s;
     ss_prediction := ss_prediction s; ss_route_data := ss_route_data s |}.

(** The block under the "Fetch Available Times" button. *)
Definition fetch_available_times (inp : LocationInputs) : M unit :=
  if negb (String.eqb (location_input inp) "") && fetch_clicked inp then
    geo <- geocode_place (location_input inp) ;;
    match geo with
    | Some (lat, lon, place_name) =>
        set_session (set_loc (lat, lon, place_name)) ;;
        df <- fetch_openweather lat lon ;;
        set_session (set_weather_df df) ;;
        kp <- fetch_kp ;;
        set_session (set_kp_df kp) ;;
        set_session (set_prediction_done false)
    | None => ret tt
    end
  else ret tt.

(** The block under the "Predict GNSS Outage" button. *)
Definition predict_gnss_outage (inp : LocationInputs) (dt_sel : option Timestamp) : M unit :=
  w <- get_world ;;
  match ss_loc (session w) with
  | None => raise KeyError
  | Some (lat, lon, place_name) =>
      match dt_sel with
      | None => raise AttributeError
      | Some dt =>
          '(cloud, rain, tec_now, kp_now) <- get_fixed_values lat lon dt ;;
          let outage :=
            predict_outage (PFloat cloud) (PFloat rain) (PFloat tec_now) (PInt kp_now) in
          train <- simulate_points 3000 lat lon dt ;;
          let train_outage := label_rows train in
          record_fit (features train) train_outage ;;
          let model := forest_fit (features train) train_outage in
          sim <- simulate_points (n_pts inp) lat lon dt ;;
          let out_ml := forest_predict model (features sim) in
          set_session (set_prediction
            {| p_lat := lat; p_lon := lon; p_place := place_name; p_dt := dt;
               p_cloud := cloud; p_rain := rain; p_tec := tec_now; p_kp := kp_now;
               p_outage := outage; p_sim := sim; p_out_ml := out_ml;
               p_model_report :=
                 classification_report train_outage
                   (forest_predict model (features train)) |}) ;;
          set_session (set_prediction_done true)
      end
  end.

(** One run of [show_location_mode], up to the choice of what is drawn;
    the drawing itself (map, popup, table, download) is presentation. *)
Definition show_location_mode (inp : LocationInputs) : M LocationView :=
  set_session init_trigger ;;
  fetch_available_times inp ;;
  w <- get_world ;;
  match ss_weather_df (session w) with
  | None => ret AskForLocation
  | Some weather_df =>
      times <- lift (match weather_df with
                     | [] => Raise KeyError       (* an empty frame has no "time" column *)
                     | _ => Ok (map (fun r => strftime_minutes (fc_time r)) weather_df)
                     end) ;;
      dt_sel <- lift (match nth_error times (selected_time inp) with
                      | Some text => t <- to_datetime text ;; Ok (Some t)
                      | None => Ok None
                      end) ;;
      (if predict_clicked inp then predict_gnss_outage inp dt_sel else ret tt) ;;
      w' <- get_world ;;
      match ss_prediction_done (session w') with
      | Some true =>
          match ss_prediction (session w') with
          | Some p => ret (ShowPrediction p)
          | None => raise AttributeError
          end
      | _ => ret AskForPrediction
      end
  end.

(* ------------------------------------------------------------------ *)
(** ** route_mode.py *)

(** [ORS_API_KEY = os.getenv("ORS_API_KEY")]; [not ORS_API_KEY] holds for
    an unset and for an empty key. *)
Definition no_ors_key (w : World) : bool :=
  match env w "ORS_API_KEY" with
  | Some k => String.eqb k ""
  | None => true
  end.

Definition ors_key (w : World) : json :=
  match env w "ORS_API_KEY" with Some k => JStr k | None => JNull end.

Fixpoint labels_of (feats : list json) : result (list json) :=
  match feats with
  | [] => Ok []
  | f :: fs =>
      props <- getitem f "properties" ;;
      label <- getitem props "label" ;;
      rest <- labels_of fs ;;
      Ok (label :: rest)
  end.

Definition fetch_location_suggestions (query : string) : M (list json) :=
  w <- get_world ;;
  if String.eqb query "" || no_ors_key w then ret []
  else
    try_except
      (resp <- requests_send
                 (GET "https://api.openrouteservice.org/geocode/autocomplete"
                      [ ("api_key", ors_key w); ("text", JStr query);
                        ("boundary.country", JStr "IN"); ("size", JNum (PInt 5)) ] 5) ;;
       lift (raise_for_status resp) ;;
       lift (j <- response_json resp ;;
             feats <- dict_get j "features" (JList []) ;;
             fs <- py_iter feats ;;
             labels_of fs))
      (fun _ => ret []).

Definition ors_geocode (place : json) : M (option GeoInfo) :=
  w <- get_world ;;
  if no_ors_key w then ret None
  else
    try_except
      (resp <- requests_send
                 (GET "https://api.openrouteservice.org/geocode/search"
                      [ ("api_key", ors_key w); ("text", place);
                        ("size", JNum (PInt 1)) ] 10) ;;
       lift (raise_for_status resp) ;;
       lift (j <- response_json resp ;;
             feats <- dict_get j "features" (JList []) ;;
             if negb (truthy feats) then Ok None
             else
               f0 <- getidx feats 0 ;;
               geometry <- getitem f0 "geometry" ;;
               coords <- getitem geometry "coordinates" ;;
               f0' <- getidx feats 0 ;;
               properties <- getitem f0' "properties" ;;
               label <- getitem properties "label" ;;
               c1 <- getidx coords 1 ;;
               c0 <- getidx coords 0 ;;
               Ok (Some (c1, c0, label))))
      (fun _ => ret None).

(** The seed of [get_outage_prediction]:
    [int(lat * 10000 + lon * 10000 + i) % 100000].  A coordinate that is
    not a number makes the sum raise TypeError. *)
Definition vertex_seed (lat lon : json) (i : Z) : result Z :=
  a <- as_num lat ;;
  b <- as_num lon ;;
  x <- num_mul a (PInt 10000) ;;
  y <- num_mul b (PInt 10000) ;;
  xy <- num_add x y ;;
  t <- num_add xy (PInt i) ;;
  n <- num_int t ;;
  Ok (n mod 100000).

(** Profile B, on the vertex's own seeded draws: the expression returned
    by [get_outage_prediction].  [and] stops at the first false operand:
    the later draws are then not made. *)
Definition profile_b_draws : Gen bool :=
  cloud <- rng_uniform 0 100 ;;
  if negb (70 <? cloud)%float then ret false else
  rain <- rng_exponential 2 ;;
  if negb (1 <? rain)%float then ret false else
  tec <- rng_uniform 20 80 ;;
  if negb (25 <? tec)%float then ret false else
  kp <- rng_integers 0 10 ;;
  ret (5 <=? kp).

Definition get_outage_prediction (lat lon : json) (i : Z) : M bool :=
  seed <- lift (vertex_seed lat lon i) ;;
  rng <- default_rng (Some seed) ;;
  with_rng rng profile_b_draws.

(** [[(pt[1], pt[0]) for pt in geom]] *)
Fixpoint swap_points (geom : list json) : result (list (json * json)) :=
  match geom with
  | [] => Ok []
  | pt :: rest =>
      p1 <- getidx pt 1 ;;
      p0 <- getidx pt 0 ;;
      ps <- swap_points rest ;;
      Ok ((p1, p0) :: ps)
  end.

Definition get_route (start end_ : json) : M RouteData :=
  start_info <- ors_geocode start ;;
  end_info <- ors_geocode end_ ;;
  match start_info, end_info with
  | Some (s_lat, s_lon, s_label), Some (e_lat, e_lon, e_label) =>
      w <- get_world ;;
      let coords := JList [JList [s_lon; s_lat]; JList [e_lon; e_lat]] in
      resp <- requests_send
                (POST "https://api.openrouteservice.org/v2/directions/driving-car/geojson"
                      (JDict [("coordinates", coords); ("instructions", JBool false)])
                      [ ("Authorization", ors_key w);
                        ("Content-Type", JStr "application/json") ] 10) ;;
      lift (raise_for_status resp) ;;
      data <- lift (response_json resp) ;;
      feats <- lift (dict_get data "features" (JList [])) ;;
      if negb (truthy feats) then raise (ValueError "No route found")
      else
        lift (f0 <- getidx feats 0 ;;
              geometry <- getitem f0 "geometry" ;;
              geom <- getitem geometry "coordinates" ;;
              pts <- py_iter geom ;;
              route <- swap_points pts ;;
              f0' <- getidx feats 0 ;;
              properties <- getitem f0' "properties" ;;
              summary <- getitem properties "summary" ;;
              Ok {| rd_route := route; rd_start := (s_lat, s_lon, s_label);
                    rd_end := (e_lat, e_lon, e_label); rd_summary := summary |})
  | _, _ => raise (ValueError "Geocoding failed for start or end")
  end.

(** What the route page draws. *)
Inductive Color : Type := red | green.

Record PolyLine : Type := {
  line_from : json * json;
  line_to : json * json;
  line_color : Color
}.

Record RouteSummary : Type := {
  distance_km : string;          (* "Distance (km)" *)
  duration_min : string;         (* "Duration (min)" *)
  outage_segments : Z;           (* "Outage Segments" *)
  normal_segments : Z            (* "Normal Segments" *)
}.

Inductive SidebarError : Type :=
| NotSelected       (* "Both start and end must be selected from suggestions." *)
| RouteError (e : exn).   (* f"Error: {e}" *)

Inductive RouteView : Type :=
| KeyMissing        (* "ORS_API_KEY not set. ..." *)
| RouteHint (err : option SidebarError)
| RouteMap (err : option SidebarError) (center : json * json)
    (lines : list PolyLine) (start_marker end_marker : GeoInfo)
    (summary : RouteSummary).

(** The widgets of the route page: the typed texts, the index chosen in
    each select box (option 0 is the empty string) and the button. *)
Record RouteInputs : Type := {
  start_q : string;
  end_q : string;
  sel_start : nat;
  sel_end : nat;
  show_clicked : bool
}.

Definition set_route_data (v : option RouteData) (s : Session) : Session :=
  {| ss_trigger := ss_trigger s; ss_loc := ss_loc s; ss_weather_df := ss_weather_df s;
     ss_kp_df := ss_kp_df s; ss_prediction_done := ss_prediction_done s;
     ss_prediction := ss_prediction s; ss_route_data := Some v |}.

Definition init_route_data (s : Session) : Session :=
  match ss_route_data s with
  | Some _ => s
  | None => set_route_data None s
  end.

(** [st.selectbox(label, options)]: the chosen option. *)
Definition selectbox (options : list json) (chosen : nat) : json :=
  nth chosen options (JStr "").

(** The loop over [enumerate(route[1:], 1)]: labels each vertex, counts
    the outages and draws the segment from the previous vertex, which
    folium checks. *)
Fixpoint label_segments (prev : json * json) (rest : list (json * json)) (i : Z)
  : M (Z * list PolyLine) :=
  match rest with
  | [] => ret (0, [])
  | pt :: rest' =>
      out <- get_outage_prediction (fst pt) (snd pt) i ;;
      lift (folium_polyline [prev; pt]) ;;       (* folium.PolyLine([prev, pt]) *)
      '(outages, lines) <- label_segments pt rest' (i + 1) ;;
      ret ((if out then 1 else 0) + outages,
           {| line_from := prev; line_to := pt;
              line_color := if out then red else green |} :: lines)
  end.

Definition route_metric (summary : json) (key : string) (unit : Z) : result string :=
  v <- getitem summary key ;;
  n <- as_num v ;;
  x <- num_truediv n unit ;;
  Ok (format_f 1 x).

(** [info[:2]], the location of an endpoint's marker *)
Definition marker_location (info : GeoInfo) : json * json :=
  let '(lat, lon, _) := info in (lat, lon).

(** The block that draws a stored route: the map centred on the first
    vertex, the segments, the two markers, then the metrics. *)
Definition draw_route (err : option SidebarError) (rd : RouteData) : M RouteView :=
  match rd_route rd with
  | [] => raise IndexError                     (* route[0] *)
  | first :: rest =>
      lift (folium_map first) ;;               (* folium.Map(location=route[0]) *)
      '(outages, lines) <- label_segments first rest 1 ;;
      lift (folium_marker (marker_location (rd_start rd))) ;;
      lift (folium_marker (marker_location (rd_end rd))) ;;
      distance <- lift (route_metric (rd_summary rd) "distance" 1000) ;;
      duration <- lift (route_metric (rd_summary rd) "duration" 60) ;;
      ret (RouteMap err first lines (rd_start rd) (rd_end rd)
             {| distance_km := distance; duration_min := duration;
                outage_segments := outages;
                normal_segments := Z.of_nat (List.length (rd_route rd)) - outages |})
  end.

Definition show_route_mode (inp : RouteInputs) : M RouteView :=
  w <- get_world ;;
  if no_ors_key w then ret KeyMissing
  else
    set_session init_route_data ;;
    start_opts <- fetch_location_suggestions (start_q inp) ;;
    let start := selectbox (JStr "" :: start_opts) (sel_start inp) in
    end_opts <- fetch_location_suggestions (end_q inp) ;;
    let end_ := selectbox (JStr "" :: end_opts) (sel_end inp) in
    err <- (if show_clicked inp then
              if negb (truthy start) || negb (truthy end_) then ret (Some NotSelected)
              else
                try_except
                  (rd <- get_route start end_ ;;
                   set_session (set_route_data (Some rd)) ;;
                   ret None)
                  (fun e => ret (Some (RouteError e)))
            else ret None) ;;
    w' <- get_world ;;
    match ss_route_data (session w') with
    | Some (Some rd) => draw_route err rd
    | _ => ret (RouteHint err)
    end.

(* ------------------------------------------------------------------ *)
(** ** gnss_model.py *)

(** The URL is an f-string: its query is kept here as the (name, value)
    pairs it spells out.  No [raise_for_status]: an error answer is read
    like any other. *)
Definition get_weather_data (lat lon : pynum) : M json :=
  w <- get_world ;;
  try_except
    (resp <- requests_send
               (GET "https://api.openweathermap.org/data/2.5/weather"
                    [ ("lat", JNum lat); ("lon", JNum lon);
                      ("appid", openweather_key w); ("units", JStr "metric") ] 5) ;;
     lift (res <- response_json resp ;;
           clouds <- dict_get res "clouds" (JDict []) ;;
           dict_get clouds "all" (JNum (PInt 0))))
    (fun _ => k <- with_global_random (random_randint 0 100) ;; ret (JNum (PInt k))).

Definition get_place_name (lat lon : pynum) : M string :=
  found <- try_except
             (location <- nominatim_send (Reverse (JNum lat) (JNum lon) 5) ;;
              match location with
              | Some loc => ret (Some (address loc))
              | None => ret None
              end)
             (fun _ => ret None) ;;
  match found with
  | Some name => ret name
  | None =>
      lift (a <- num_format_f 4 lat ;;
            b <- num_format_f 4 lon ;;
            Ok (a ++ ", " ++ b)%string)
  end.

(** [l[::3]] *)
Fixpoint every_third {A} (l : list A) : list A :=
  match l with
  | x :: _ :: _ :: rest => x :: every_third rest
  | x :: _ => [x]
  | [] => []
  end.

Record RoutePointResult : Type := {
  r_lat : pynum;
  r_lon : pynum;
  r_place : string;
  r_cloud_cover : json;
  r_tec : float;
  r_geomagnetic : Z;
  r_outage : bool
}.

(** Profile C; [and] stops at the first false operand. *)
Definition outage_rule_c (cloud : json) (tec : float) (kp : Z) : result bool :=
  c <- json_gt cloud 70 ;;
  Ok (c && (20 <? tec)%float && (6 <=? kp)).

Definition predict_point (pt : pynum * pynum) : M RoutePointResult :=
  let '(lat, lon) := pt in
  cloud <- get_weather_data lat lon ;;
  u <- with_global_random (random_uniform 1 35) ;;
  let tec := py_round2 u in
  kp <- with_global_random (random_randint 1 9) ;;
  outage <- lift (outage_rule_c cloud tec kp) ;;
  place <- get_place_name lat lon ;;
  ret {| r_lat := lat; r_lon := lon; r_place := place; r_cloud_cover := cloud;
         r_tec := tec; r_geomagnetic := kp; r_outage := outage |}.

Fixpoint predict_points (pts : list (pynum * pynum)) : M (list RoutePointResult) :=
  match pts with
  | [] => ret []
  | pt :: rest =>
      r <- predict_point pt ;;
      rs <- predict_points rest ;;
      ret (r :: rs)
  end.

Definition predict_outage_along_route (route_points : list (pynum * pynum))
  : M (list RoutePointResult) :=
  predict_points (every_third route_points).

(* ------------------------------------------------------------------ *)
(** ** route_utils.py *)

(** [[[lat, lon] for lon, lat in coords]] *)
Fixpoint latlon_points (coords : list json) : result (list (json * json)) :=
  match coords with
  | [] => Ok []
  | c :: rest =>
      pair <- py_iter c ;;
      match pair with
      | [lon; lat] => ps <- latlon_points rest ;; Ok ((lat, lon) :: ps)
      | _ => Raise (ValueError "wrong number of values to unpack")
      end
  end.

Definition print_route_error (e : exn) : M unit :=
  fun w => (Ok tt,
    {| env := env w; calls := calls w; http := http w; nominatim := nominatim w;
       entropy := entropy w; global_random := global_random w;
       session := session w; fit_calls := fit_calls w;
       stdout := stdout w ++ [("Route error:", e)] |}).

Definition summary_value (data : json) (key : string) (unit : Z) : result float :=
  features <- getitem data "features" ;;
  f0 <- getidx features 0 ;;
  properties <- getitem f0 "properties" ;;
  summary <- getitem properties "summary" ;;
  v <- getitem summary key ;;
  n <- as_num v ;;
  num_truediv n unit.

Definition get_route_coords (start_coords end_coords : json)
  : M (list (json * json) * pynum * pynum) :=
  w <- get_world ;;
  try_except
    (res <- requests_send
              (POST "https://api.openrouteservice.org/v2/directions/driving-car/geojson"
                    (JDict [("coordinates", JList [start_coords; end_coords])])
                    [ ("Authorization", ors_key w) ] 10) ;;
     lift (raise_for_status res) ;;
     lift (data <- response_json res ;;
           features <- getitem data "features" ;;
           f0 <- getidx features 0 ;;
           geometry <- getitem f0 "geometry" ;;
           coords <- getitem geometry "coordinates" ;;
           dist <- summary_value data "distance" 1000 ;;
           dur <- summary_value data "duration" 60 ;;
           cs <- py_iter coords ;;
           route_points <- latlon_points cs ;;
           Ok (route_points, PFloat (py_round2 dist), PFloat (py_round2 dur))))
    (fun e => print_route_error e ;; ret ([], PInt 0, PInt 0)).

End Program.

(* ================================================================== *)
(** ** app.py *)

Section Application.

Context `{NR : NumpyRandom} `{PR : PyRandom} `{FO : Forest} `{PD : Pandas}
        `{FM : Folium}.

(** The radio of the front page: one of its two options is always
    chosen, the first by default. *)
Inductive Mode : Type :=
| LocationOutage
| RouteOutage.

Inductive Page : Type :=
| LocationPage (v : LocationView)
| RoutePage (v : RouteView).

(** One run of the script: it draws the page of the chosen mode, and
    reads the widgets of that page only. *)
Definition app (mode : Mode) (loc : LocationInputs) (route : RouteInputs) : M Page :=
  match mode with
  | LocationOutage => v <- show_location_mode loc ;; ret (LocationPage v)
  | RouteOutage => v <- show_route_mode route ;; ret (RoutePage v)
  end.

End Application.

(* ================================================================== *)
(** ** What the program relies on from its libraries *)

Definition in_range (low high x : float) : Prop :=
  (low <=? x)%float = true /\ (x <=? high)%float = true.

(** NumPy: [uniform(low, high)] lies between its bounds when they are
    ordered and their distance is finite; [exponential(scale)] is
    nonnegative; [integers(low, high)] lies in [low, high). *)
Class NumpyRandomLaws `{NumpyRandom} : Prop := {
  uniform_in_range : forall low high g,
    PrimFloat.is_finite (high - low) = true -> (low <=? high)%float = true ->
    exists x, fst (rng_uniform low high g) = Ok x /\ in_range low high x;
  exponential_nonneg : forall scale g,
    (0 <=? scale)%float = true ->
    exists x, fst (rng_exponential scale g) = Ok x /\ (0 <=? x)%float = true;
  integers_in_range : forall low high g,
    - 2 ^ 63 <= low -> low < high -> high <= 2 ^ 63 ->
    exists k, fst (rng_integers low high g) = Ok k /\ low <= k < high
}.

(** Python: [random.uniform(a, b)] and [random.randint(a, b)] lie between
    their bounds, both included. *)
Class PyRandomLaws `{PyRandom} : Prop := {
  random_uniform_in_range : forall a b g,
    (a <=? b)%float = true -> in_range a b (fst (random_uniform a b g));
  random_randint_in_range : forall a b g,
    a <= b -> a <= fst (random_randint a b g) <= b
}.

(** folium: a JSON number whose float is not NaN is a coordinate, and a
    pair of coordinates is a location [Map], [PolyLine] and [Marker]
    take.  [Map] raises ValueError on a location whose first coordinate
    is None or NaN, or whose first is a coordinate and whose second is
    None or NaN. *)
Definition is_coordinate (j : json) : bool :=
  match j with
  | JNum (PFloat f) => negb (PrimFloat.is_nan f)
  | JNum (PInt z) => is_ok (int_to_float z)
  | _ => false
  end.

Definition is_location (p : json * json) : bool :=
  is_coordinate (fst p) && is_coordinate (snd p).

Definition no_coordinate (j : json) : bool :=
  match j with
  | JNull => true
  | JNum (PFloat f) => PrimFloat.is_nan f
  | _ => false
  end.

Class FoliumLaws `{Folium} : Prop := {
  map_accepts : forall p, is_location p = true -> folium_map p = Ok tt;
  polyline_accepts : forall p q,
    is_location p = true -> is_location q = true -> folium_polyline [p; q] = Ok tt;
  marker_accepts : forall p, is_location p = true -> folium_marker p = Ok tt;
  map_refuses : forall p,
    no_coordinate (fst p) = true \/
    (is_coordinate (fst p) = true /\ no_coordinate (snd p) = true) ->
    exists msg, folium_map p = Raise (ValueError msg)
}.

(* ================================================================== *)
(** ** A reference runtime

    Small concrete stand-ins for the libraries, on which the program can
    be run: generators whose state is a counter, a classifier that learns
    nothing, timestamps printed as their seconds. *)

Definition ref_uniform (low high : float) (g : Z) : result float * Z :=
  if PrimFloat.is_finite (high - low)
  then (Ok (if Z.even g then high else low), g + 1)
  else (Raise OverflowError, g).

Definition ref_exponential (scale : float) (g : Z) : result float * Z :=
  (Ok (if g mod 3 =? 0 then 0%float else scale), g + 1).

Definition ref_integers (low high : Z) (g : Z) : result Z * Z :=
  (Ok (low + g mod (high - low)), g + 1).

Definition ref_numpy : NumpyRandom := {|
  Generator := Z;
  rng_of_seed := fun seed => seed;
  rng_uniform := ref_uniform;
  rng_exponential := ref_exponential;
  rng_integers := ref_integers
|}.

Definition ref_random : PyRandom := {|
  RandomState := Z;
  random_uniform := fun a b g => (if g mod 4 <? 2 then a else b, g + 1);
  random_randint := fun a b g => (a + g mod (b - a + 1), g + 1)
|}.

Definition ref_forest : Forest := {|
  Model := unit;
  forest_fit := fun _ _ => tt;
  forest_predict := fun _ X => map (fun _ => false) X;
  classification_report := fun _ _ => ""
|}.

Definition ref_pandas : Pandas := {|
  to_datetime_s := fun j => n <- as_num j ;; f <- num_to_float n ;; Ok {| timestamp := f |};
  strftime_minutes := fun t => format_f 1 (timestamp t);
  to_datetime := fun _ => Ok {| timestamp := 1700000000 |};
  KpFrame := json;
  kp_frame := fun j => Ok j
|}.

(** folium's check of one location, on JSON numbers and booleans (the
    float of an int is not NaN); the stand-in takes no string for a
    number. *)
Definition ref_coordinate (j : json) : result unit :=
  match j with
  | JNum (PInt z) => int_to_float z ;; Ok tt
  | JNum (PFloat f) =>
      if PrimFloat.is_nan f then Raise (ValueError "Location values cannot contain NaNs.")
      else Ok tt
  | JBool _ => Ok tt
  | _ => Raise (ValueError "Location should consist of two numerical values.")
  end.

Definition ref_location (p : json * json) : result unit :=
  ref_coordinate (fst p) ;; ref_coordinate (snd p).

Fixpoint ref_locations (ps : list (json * json)) : result unit :=
  match ps with
  | [] => Ok tt
  | p :: ps' => ref_location p ;; ref_locations ps'
  end.

Definition ref_folium : Folium := {|
  folium_map := ref_location;
  folium_polyline := fun ps =>
    match ps with
    | [] => Raise (ValueError "Locations is empty.")
    | _ => ref_locations ps
    end;
  folium_marker := ref_location
|}.

Section ReferenceWorld.

#[local] Existing Instance ref_numpy.
#[local] Existing Instance ref_random.
#[local] Existing Instance ref_forest.
#[local] Existing Instance ref_pandas.
#[local] Existing Instance ref_folium.

Definition empty_session : Session :=
  {| ss_trigger := None; ss_loc := None; ss_weather_df := None; ss_kp_df := None;
     ss_prediction_done := None; ss_prediction := None; ss_route_data := None |}.

(** A world with both API keys set, whose services answer every call the
    same way, given by [web] and [geocoder]. *)
Definition ref_world (web : request -> http_outcome)
    (geocoder : nominatim_call -> nominatim_outcome) (g : Z) : World :=
  {| env := fun name =>
       if String.eqb name "ORS_API_KEY" then Some "ors-key"
       else if String.eqb name "OPENWEATHER_API_KEY" then Some "owm-key"
       else None;
     calls := 0;
     http := fun _ => web;
     nominatim := fun _ => geocoder;
     entropy := fun n => Z.of_nat n;
     global_random := g;
     session := empty_session;
     fit_calls := [];
     stdout := [] |}.

Definition offline (_ : request) : http_outcome := HttpRaise Timeout.
Definition no_geocoder (_ : nominatim_call) : nominatim_outcome := GeoRaise GeocoderTimedOut.

Definition bangalore : float * float := (12.9716%float, 77.5946%float).
Definition forecast_time : Timestamp := {| timestamp := 1700000000 |}.

(** Services that answer, but find nothing. *)
Definition empty_features_web (_ : request) : http_outcome :=
  HttpResponse {| status_code := 200; body := Some (JDict [("features", JList [])]) |}.

(** Services that find Bengaluru for every search and suggestion, and
    answer every directions request with [directions]. *)
Definition bengaluru_features : json :=
  JDict [("features", JList [
    JDict [ ("geometry", JDict [("coordinates",
               JList [JNum (PFloat 77.5946); JNum (PFloat 12.9716)])]);
            ("properties", JDict [("label", JStr "Bengaluru, KA, India")]) ]])].

Definition route_web (directions : json) (r : request) : http_outcome :=
  match r with
  | GET _ _ _ => HttpResponse {| status_code := 200; body := Some bengaluru_features |}
  | POST _ _ _ _ => HttpResponse {| status_code := 200; body := Some directions |}
  end.

Definition lonlat (p : float * float) : json :=
  JList [JNum (PFloat (fst p)); JNum (PFloat (snd p))].

(** A GeoJSON answer: one feature with the polyline and the summary. *)
Definition directions_answer (polyline : list (float * float)) (distance duration : Z)
  : json :=
  JDict [("features", JList [
    JDict [ ("geometry", JDict [("coordinates", JList (map lonlat polyline))]);
            ("properties", JDict [("summary",
               JDict [ ("distance", JNum (PInt distance));
                       ("duration", JNum (PInt duration)) ])]) ]])].

Definition no_route_answer : json := JDict [("features", JList [])].

(** A geocoder that finds Bengaluru for every query. *)
Definition bengaluru_geocoder (_ : nominatim_call) : nominatim_outcome :=
  GeoResult (Some {| latitude := 12.9716; longitude := 77.5946;
                     address := "Bengaluru, Karnataka, India";
                     raw := JDict [("display_name",
                                    JStr "Bengaluru, Karnataka, India")] |}).

Definition fetch_bengaluru : LocationInputs :=
  {| location_input := "Bengaluru"; n_pts := 500; fetch_clicked := true;
     selected_time := 0; predict_clicked := false |}.

(** A drive whose directions come back as a three-point polyline. *)
Definition three_points : list (float * float) :=
  [ (77.5946, 12.9716); (77.4375, 13.5); (77.1025, 28.7041) ]%float.

Definition four_points : list (float * float) :=
  [ (77.5946, 12.9716); (77.4375, 13.5); (77.25, 20.5); (77.1025, 28.7041) ]%float.

Definition drive : RouteInputs :=
  {| start_q := "Ben"; end_q := "Ben"; sel_start := 1; sel_end := 1;
     show_clicked := true |}.

Definition bengaluru_info : GeoInfo :=
  (JNum (PFloat 12.9716), JNum (PFloat 77.5946), JStr "Bengaluru, KA, India").

Definition vertex (p : float * float) : json * json :=
  (JNum (PFloat (snd p)), JNum (PFloat (fst p))).

(** A weather service that reports 90% cloud cover everywhere. *)
Definition cloudy_web (_ : request) : http_outcome :=
  HttpResponse {| status_code := 200;
                  body := Some (JDict [("clouds", JDict [("all", JNum (PInt 90))])]) |}.

(** The list a call returned, empty when it raised. *)
Definition returned {A} (r : result (list A)) : list A :=
  match r with Ok l => l | Raise _ => [] end.

Definition waypoint (lat lon : float) : pynum * pynum := (PFloat lat, PFloat lon).

Definition seven_points : list (pynum * pynum) :=
  [ waypoint 12.9716 77.5946; waypoint 13.0 77.5; waypoint 13.5 77.4375;
    waypoint 15.25 77.375; waypoint 17.5 77.3125; waypoint 20.5 77.25;
    waypoint 28.7041 77.1025 ].

End ReferenceWorld.

Section MoreReferenceWorld.

#[local] Existing Instance ref_numpy.
#[local] Existing Instance ref_random.
#[local] Existing Instance ref_forest.
#[local] Existing Instance ref_pandas.
#[local] Existing Instance ref_folium.

(** A world in which no API key is set. *)
Definition keyless_world : World :=
  {| env := fun _ => None;
     calls := 0;
     http := fun _ => offline;
     nominatim := fun _ => no_geocoder;
     entropy := fun n => Z.of_nat n;
     global_random := 0;
     session := empty_session;
     fit_calls := [];
     stdout := [] |}.

(** The page of [drive] drawn again without a click on the button. *)
Definition look : RouteInputs :=
  {| start_q := "Ben"; end_q := "Ben"; sel_start := 1; sel_end := 1;
     show_clicked := false |}.

(** A route whose polyline came back empty. *)
Definition empty_route : RouteData :=
  {| rd_route := []; rd_start := bengaluru_info; rd_end := bengaluru_info;
     rd_summary := JDict [ ("distance", JNum (PInt 0)); ("duration", JNum (PInt 0)) ] |}.

(** A polyline whose second point carries an elevation. *)
Definition elevated_answer : json :=
  JDict [("features", JList [
    JDict [ ("geometry", JDict [("coordinates",
               JList [ lonlat (77.5946, 12.9716)%float;
                       JList [ JNum (PFloat 77.4375); JNum (PFloat 13.5);
                               JNum (PFloat 920) ] ])]);
            ("properties", JDict [("summary",
               JDict [ ("distance", JNum (PInt 12000));
                       ("duration", JNum (PInt 900)) ])]) ]])].

(** What [bengaluru_geocoder] finds. *)
Definition bengaluru_location : Location :=
  {| latitude := 12.9716; longitude := 77.5946;
     address := "Bengaluru, Karnataka, India";
     raw := JDict [("display_name", JStr "Bengaluru, Karnataka, India")] |}.


Definition broken_geocoder (_ : nominatim_call) : nominatim_outcome :=
  GeoRaise GeocoderServiceError.


(** A forecast of two entries, the second without rain. *)
Definition forecast_entries : list json :=
  [ JDict [ ("dt", JNum (PInt 1700000000));
            ("clouds", JDict [("all", JNum (PInt 90))]);
            ("rain", JDict [("3h", JNum (PFloat 1.5))]) ];
    JDict [ ("dt", JNum (PInt 1700010800));
            ("clouds", JDict [("all", JNum (PInt 40))]) ] ].

Definition forecast_answer : response :=
  {| status_code := 200; body := Some (JDict [("list", JList forecast_entries)]) |}.

Definition forecast_web (_ : request) : http_outcome := HttpResponse forecast_answer.

(** The forecast service answers, the Kp service is down. *)
Definition kp_down_web (r : request) : http_outcome :=
  match r with
  | GET url _ _ =>
      if String.eqb url "https://services.swpc.noaa.gov/json/planetary_k_index_1m.json"
      then HttpRaise Timeout
      else HttpResponse forecast_answer
  | POST _ _ _ _ => HttpRaise Timeout
  end.

Definition forecast_table : list ForecastRec :=
  [ {| fc_time := forecast_time; fc_cloud := JNum (PInt 90);
       fc_rain := JNum (PFloat 1.5) |};
    {| fc_time := {| timestamp := 1700010800 |}; fc_cloud := JNum (PInt 40);
       fc_rain := JNum (PFloat 0) |} ].

(** A session in which Bengaluru and its forecast are stored, no
    prediction made yet. *)
Definition located_session : Session :=
  {| ss_trigger := Some false;
     ss_loc := Some (12.9716%float, 77.5946%float, "Bengaluru");
     ss_weather_df := Some forecast_table;
     ss_kp_df := Some (JList []);
     ss_prediction_done := Some false;
     ss_prediction := None;
     ss_route_data := None |}.

Definition located_world : World :=
  snd (set_session (fun _ => located_session) (ref_world offline no_geocoder 0)).

(** The location page read with no text typed: Predict clicked, or not. *)
Definition predict_now : LocationInputs :=
  {| location_input := ""; n_pts := 500; fetch_clicked := false;
     selected_time := 0; predict_clicked := true |}.

Definition look_at_location : LocationInputs :=
  {| location_input := ""; n_pts := 500; fetch_clicked := false;
     selected_time := 0; predict_clicked := false |}.

(** The frame a call returned, empty when it raised. *)
Definition returned_frame (r : result DataFrame) : DataFrame :=
  match r with Ok df => df | Raise _ => [] end.

(** A route whose first point came back without a latitude. *)
Definition headless_route : RouteData :=
  {| rd_route := [ (JNull, JNum (PFloat 77.5946)); vertex (77.4375, 13.5)%float ];
     rd_start := bengaluru_info; rd_end := bengaluru_info;
     rd_summary := JDict [ ("distance", JNum (PInt 12000));
                           ("duration", JNum (PInt 900)) ] |}.

(** A session that holds the empty route. *)
Definition stranded_world : World :=
  snd (set_session (set_route_data (Some empty_route))
         (ref_world (route_web (directions_answer [] 0 0)) no_geocoder 0)).

(** The rejection OpenWeather sends for an unknown key. *)
Definition invalid_key_web (_ : request) : http_outcome :=
  HttpResponse {| status_code := 401;
                  body := Some (JDict [ ("cod", JNum (PInt 401));
                                        ("message", JStr "Invalid API key") ]) |}.

(** Bengaluru stored with another forecast for the same times, clear and
    dry, another Kp table, and a prediction marked as done. *)
Definition clear_table : list ForecastRec :=
  [ {| fc_time := forecast_time; fc_cloud := JNum (PInt 5);
       fc_rain := JNum (PFloat 0) |};
    {| fc_time := {| timestamp := 1700010800 |}; fc_cloud := JNum (PInt 0);
       fc_rain := JNum (PFloat 0) |} ].

Definition clear_session : Session :=
  {| ss_trigger := Some false;
     ss_loc := Some (12.9716%float, 77.5946%float, "Bengaluru");
     ss_weather_df := Some clear_table;
     ss_kp_df := Some (JList [JDict [("kp_index", JNum (PInt 7))]]);
     ss_prediction_done := Some true;
     ss_prediction := None;
     ss_route_data := Some (Some empty_route) |}.

Definition clear_world : World :=
  snd (set_session (fun _ => clear_session) (ref_world cloudy_web bengaluru_geocoder 5)).

End MoreReferenceWorld.

(* ================================================================== *)
(** ** Vocabulary of the properties *)

Section Vocabulary.

Context `{NR : NumpyRandom} `{PR : PyRandom} `{FO : Forest} `{PD : Pandas}
        `{FM : Folium}.

(** A computation that neither reads nor changes the world: it returns
    the same result in every world and leaves the world as it was. *)
Definition world_independent {A} (m : M A) : Prop :=
  exists r : result A, forall w : World, m w = (r, w).

(** A draw that succeeds from every generator state, with a value in [P]. *)
Definition draws_in {A} (draw : Gen A) (P : A -> Prop) : Prop :=
  forall g, exists x, fst (draw g) = Ok x /\ P x.

(** The scatter window around a coordinate is well formed: its bounds are
    ordered and their distance is finite (so it is for every coordinate
    in degrees). *)
Definition scatter_window_ok (c : float) : Prop :=
  PrimFloat.is_finite ((c + 5) - (c - 5)) = true /\ (c - 5 <=? c + 5)%float = true.

(** A row of the simulated population: the six columns, each in its range. *)
Definition row_in_range (lat lon : float) (r : list (string * option pynum)) : Prop :=
  exists la lo cloud rain tec kp,
    r = [ ("lat", Some (PFloat la)); ("lon", Some (PFloat lo));
          ("cloud", Some (PFloat cloud)); ("rain", Some (PFloat rain));
          ("tec", Some (PFloat tec)); ("kp", Some (PInt kp)) ] /\
    in_range (lat - 5) (lat + 5) la /\
    in_range (lon - 5) (lon + 5) lo /\
    in_range 0 100 cloud /\
    (0 <=? rain)%float = true /\
    in_range 20 80 tec /\
    0 <= kp <= 9.

Definition population_of (n : Z) (lat lon : float) (df : DataFrame) : Prop :=
  map fst df = ["lat"; "lon"; "cloud"; "rain"; "tec"; "kp"] /\
  n_rows df = Z.to_nat n /\
  forall i, (i < Z.to_nat n)%nat -> row_in_range lat lon (row df i).

(** The provider found nothing: the request failed or timed out, or the
    answer carries no features. *)
Definition no_features (o : http_outcome) : Prop :=
  match o with
  | HttpRaise _ => True
  | HttpResponse r =>
      exists j feats, response_json r = Ok j /\
        dict_get j "features" (JList []) = Ok feats /\ truthy feats = false
  end.

(** Nominatim found nothing, or timed out, or was unavailable. *)
Definition nominatim_not_found (o : nominatim_outcome) : Prop :=
  o = GeoResult None \/ o = GeoRaise GeocoderTimedOut \/ o = GeoRaise GeocoderUnavailable.

(** The request [ors_geocode] sends. *)
Definition ors_search (w : World) (place : json) : request :=
  GET "https://api.openrouteservice.org/geocode/search"
      [ ("api_key", ors_key w); ("text", place); ("size", JNum (PInt 1)) ] 10.

(** The request [get_route] sends for two geocoded endpoints. *)
Definition ors_directions (w : World) (s_info e_info : GeoInfo) : request :=
  let '(s_lat, s_lon, _) := s_info in
  let '(e_lat, e_lon, _) := e_info in
  POST "https://api.openrouteservice.org/v2/directions/driving-car/geojson"
       (JDict [ ("coordinates", JList [JList [s_lon; s_lat]; JList [e_lon; e_lat]]);
                ("instructions", JBool false) ])
       [ ("Authorization", ors_key w); ("Content-Type", JStr "application/json") ] 10.

(** The request [get_route_coords] sends. *)
Definition ors_directions_coords (w : World) (start_coords end_coords : json) : request :=
  POST "https://api.openrouteservice.org/v2/directions/driving-car/geojson"
       (JDict [("coordinates", JList [start_coords; end_coords])])
       [ ("Authorization", ors_key w) ] 10.

(** [get_route_coords] gave up on the error [err]: it returned its
    fallback [[], 0, 0] and printed "Route error:" and the error. *)
Definition printed_fallback (start_coords end_coords : json) (w : World) (err : exn)
  : Prop :=
  fst (get_route_coords start_coords end_coords w) = Ok ([], PInt 0, PInt 0) /\
  stdout (snd (get_route_coords start_coords end_coords w))
  = stdout w ++ [("Route error:", err)].

(** The request [fetch_openweather] sends. *)
Definition forecast_request (w : World) (lat lon : float) : request :=
  GET "https://api.openweathermap.org/data/2.5/forecast"
      [ ("lat", JNum (PFloat lat)); ("lon", JNum (PFloat lon));
        ("appid", openweather_key w); ("units", JStr "metric") ] 10.

(** The request [get_weather_data] sends. *)
Definition weather_request (w : World) (lat lon : pynum) : request :=
  GET "https://api.openweathermap.org/data/2.5/weather"
      [ ("lat", JNum lat); ("lon", JNum lon);
        ("appid", openweather_key w); ("units", JStr "metric") ] 5.

(** [w'] differs from [w] at most by the number of external calls made. *)
Definition only_calls (w w' : World) : Prop :=
  env w' = env w /\ http w' = http w /\ nominatim w' = nominatim w /\
  entropy w' = entropy w /\ global_random w' = global_random w /\
  session w' = session w /\ fit_calls w' = fit_calls w /\ stdout w' = stdout w.

Definition makes_only_calls {A} (m : M A) : Prop :=
  forall w, only_calls w (snd (m w)).

(** The label of a route vertex: Profile B on the generator seeded by the
    vertex's own coordinates and its position [i] along the route. *)
Definition vertex_label (pt : json * json) (i : Z) : result bool :=
  seed <- vertex_seed (fst pt) (snd pt) i ;;
  fst (profile_b_draws (rng_of_seed seed)).

(** The labels of the vertices [rest], the first of them at position [i]. *)
Fixpoint segment_labels (rest : list (json * json)) (i : Z) : result (list bool) :=
  match rest with
  | [] => Ok []
  | pt :: rest' =>
      b <- vertex_label pt i ;;
      bs <- segment_labels rest' (i + 1) ;;
      Ok (b :: bs)
  end.

(** A vertex or an endpoint given by two floats, neither of them NaN. *)
Definition float_location (p : json * json) (lat lon : float) : Prop :=
  p = (JNum (PFloat lat), JNum (PFloat lon)) /\
  PrimFloat.is_nan lat = false /\ PrimFloat.is_nan lon = false.

(** The labels as the loop of the page gets them: after each label folium
    checks the segment that ends at the vertex. *)
Fixpoint drawn_labels (prev : json * json) (rest : list (json * json)) (i : Z)
  : result (list bool) :=
  match rest with
  | [] => Ok []
  | pt :: rest' =>
      b <- vertex_label pt i ;;
      folium_polyline [prev; pt] ;;
      bs <- drawn_labels pt rest' (i + 1) ;;
      Ok (b :: bs)
  end.

Fixpoint count_outages (labels : list bool) : Z :=
  match labels with
  | [] => 0
  | b :: labels' => (if b then 1 else 0) + count_outages labels'
  end.

(** One segment per labelled vertex, from the vertex before it, red when
    the label is an outage. *)
Fixpoint segment_lines (prev : json * json) (rest : list (json * json))
    (labels : list bool) : list PolyLine :=
  match rest, labels with
  | pt :: rest', b :: labels' =>
      {| line_from := prev; line_to := pt; line_color := if b then red else green |}
        :: segment_lines pt rest' labels'
  | _, _ => []
  end.

Definition same_color (a b : Color) : bool :=
  match a, b with
  | red, red | green, green => true
  | _, _ => false
  end.

Definition lines_of_color (c : Color) (lines : list PolyLine) : Z :=
  Z.of_nat (List.length (filter (fun l => same_color (line_color l) c) lines)).

(** The summary's entry [key] is the number [k], as an int or a float. *)
Definition summary_has (summary : json) (key : string) (k : Z) : Prop :=
  getitem summary key = Ok (JNum (PInt k)) \/
  getitem summary key = Ok (JNum (PFloat (SF2Prim (Z_to_SF k)))).

(** The answer to a directions request holds one feature with the
    polyline [geom] and the summary [summary]. *)
Definition directions_data (data : json) (geom : list json) (summary : json) : Prop :=
  exists feats f0 geometry coordinates properties,
    dict_get data "features" (JList []) = Ok feats /\
    truthy feats = true /\
    getidx feats 0 = Ok f0 /\
    getitem f0 "geometry" = Ok geometry /\
    getitem geometry "coordinates" = Ok coordinates /\
    py_iter coordinates = Ok geom /\
    getitem f0 "properties" = Ok properties /\
    getitem properties "summary" = Ok summary.

(** The state of the process-global generator when the helper draws TEC
    for the point [pt]: the one the weather lookup leaves. *)
Definition draw_state (pt : pynum * pynum) (w : World) : RandomState :=
  global_random (snd (get_weather_data (fst pt) (snd pt) w)).

Definition tec_draw (pt : pynum * pynum) (w : World) : float :=
  py_round2 (fst (random_uniform 1 35 (draw_state pt w))).

Definition kp_draw (pt : pynum * pynum) (w : World) : Z :=
  fst (random_randint 1 9 (snd (random_uniform 1 35 (draw_state pt w)))).

(** The cloud cover [get_weather_data] returns in [w] is the one fetched. *)
Definition cloud_fetched (lat lon : pynum) (w : World) (cloud : json) : Prop :=
  exists resp res clouds,
    http w (calls w) (weather_request w lat lon) = HttpResponse resp /\
    response_json resp = Ok res /\
    dict_get res "clouds" (JDict []) = Ok clouds /\
    dict_get clouds "all" (JNum (PInt 0)) = Ok cloud.

(** ... or the fallback drawn from the process-global generator. *)
Definition cloud_fallback (w : World) (cloud : json) : Prop :=
  cloud = JNum (PInt (fst (random_randint 0 100 (global_random w)))).

(** The cloud cover of every answer the weather service can give is a
    number (or a boolean, which Python compares as one). *)
Definition numeric_clouds (w : World) : Prop :=
  forall n req resp res clouds cloud,
    http w n req = HttpResponse resp ->
    response_json resp = Ok res ->
    dict_get res "clouds" (JDict []) = Ok clouds ->
    dict_get clouds "all" (JNum (PInt 0)) = Ok cloud ->
    exists c, as_num cloud = Ok c.

Definition float_point (pt : pynum * pynum) : Prop :=
  exists la lo, pt = (PFloat la, PFloat lo).

(** The answer to the call number [n] is a weather report for the point
    that carries the cloud cover [cloud]. *)
Definition fetched_at (w : World) (n : nat) (lat lon : pynum) (cloud : json) : Prop :=
  exists resp res clouds,
    http w n (weather_request w lat lon) = HttpResponse resp /\
    response_json resp = Ok res /\
    dict_get res "clouds" (JDict []) = Ok clouds /\
    dict_get clouds "all" (JNum (PInt 0)) = Ok cloud.

(** The helper's evaluation of the point [pt], when it is about to make
    its call number [n] and the process-global generator is in state [g].
    The cloud cover is the one the weather report of call [n] carries, the
    generator being left alone; or there is no such report, and the cloud
    cover is [randint(0, 100)] drawn from [g].  TEC is [uniform(1, 35)]
    rounded to two decimals and Kp is [randint(1, 9)], drawn next from the
    same generator, which is left in state [g'].  The point is an outage
    exactly when cloud > 70, TEC > 20 and Kp >= 6. *)
Definition point_evaluated (w : World) (n : nat) (g : RandomState)
    (pt : pynum * pynum) (r : RoutePointResult) (g' : RandomState) : Prop :=
  r_lat r = fst pt /\ r_lon r = snd pt /\
  (exists g1,
     ((fetched_at w n (fst pt) (snd pt) (r_cloud_cover r) /\ g1 = g) \/
      ((forall c, ~ fetched_at w n (fst pt) (snd pt) c) /\
       r_cloud_cover r = JNum (PInt (fst (random_randint 0 100 g))) /\
       g1 = snd (random_randint 0 100 g))) /\
     r_tec r = py_round2 (fst (random_uniform 1 35 g1)) /\
     r_geomagnetic r = fst (random_randint 1 9 (snd (random_uniform 1 35 g1))) /\
     g' = snd (random_randint 1 9 (snd (random_uniform 1 35 g1)))) /\
  (exists c,
     as_num (r_cloud_cover r) = Ok c /\
     (r_outage r = true <->
      exceeds c 70 /\ exceeds (PFloat (r_tec r)) 20 /\ 6 <= r_geomagnetic r)).

(** The results [rs] are the evaluations of the points [pts], one after
    the other: each point takes two calls (its weather request, then its
    reverse geocoding) and finds the generator as the point before it
    left it. *)
Fixpoint route_evaluated (w : World) (n : nat) (g : RandomState)
    (pts : list (pynum * pynum)) (rs : list RoutePointResult) : Prop :=
  match pts, rs with
  | [], [] => True
  | pt :: pts', r :: rs' =>
      exists g', point_evaluated w n g pt r g' /\
                 route_evaluated w (S (S n)) g' pts' rs'
  | _, _ => False
  end.

End Vocabulary.

(** *** Vocabulary of the further properties *)

Section MoreVocabulary.

Context `{NR : NumpyRandom} `{PR : PyRandom} `{FO : Forest} `{PD : Pandas}
        `{FM : Folium}.


(** The answer carries an HTTP error status. *)
Definition error_status (r : response) : Prop :=
  400 <= status_code r < 600.

(** What the route page draws from the route stored in the session. *)
Definition route_page (err : option SidebarError) : M RouteView :=
  fun w =>
    match ss_route_data (session w) with
    | Some (Some rd) => draw_route err rd
    | _ => ret (RouteHint err)
    end w.


(** The four seeded values of a place and time, each in its range. *)
Definition fixed_values_in_range (v : float * float * float * Z) : Prop :=
  let '(cloud, rain, tec, kp) := v in
  in_range 0 100 cloud /\ (0 <=? rain)%float = true /\
  in_range 20 80 tec /\ 0 <= kp <= 9.

Definition nan_to_int : exn := ValueError "cannot convert float NaN to integer".

(** The request [fetch_kp] sends. *)
Definition kp_request : request :=
  GET "https://services.swpc.noaa.gov/json/planetary_k_index_1m.json" [] 5.

(** The record [fetch_openweather] builds from a forecast entry: the time
    of [dt], the cloud cover [clouds.all] and the rain [rain.3h], 0.0 when
    the entry has no rain or the rain has no 3h amount. *)
Definition forecast_entry (e : json) (r : ForecastRec) : Prop :=
  (exists dt, getitem e "dt" = Ok dt /\ to_datetime_s dt = Ok (fc_time r)) /\
  (exists clouds, getitem e "clouds" = Ok clouds /\
                  getitem clouds "all" = Ok (fc_cloud r)) /\
  exists d, e = JDict d /\
    match assoc "rain" d with
    | None => fc_rain r = JNum (PFloat 0)
    | Some rain =>
        exists items, rain = JDict items /\
          fc_rain r = match assoc "3h" items with
                      | Some v => v
                      | None => JNum (PFloat 0)
                      end
    end.

(** A row of the feature matrix handed to the classifier: cloud, rain,
    tec and kp of a simulated point, each in its range. *)
Definition feature_row (r : list pynum) : Prop :=
  exists cloud rain tec kp,
    r = [PFloat cloud; PFloat rain; PFloat tec; PInt kp] /\
    fixed_values_in_range (cloud, rain, tec, kp).

(** The label of a training row is Profile A on the row's own values. *)
Definition labelled_by_profile_a (r : list pynum) (y : bool) : Prop :=
  exists cloud rain tec kp,
    r = [cloud; rain; tec; kp] /\ y = predict_outage cloud rain tec kp.

(** The time chosen in the select box of the location page. *)
Definition chosen_time (inp : LocationInputs) (df : list ForecastRec) (dt : Timestamp)
  : Prop :=
  exists r, nth_error df (selected_time inp) = Some r /\
            to_datetime (strftime_minutes (fc_time r)) = Ok dt.

(** The "Fetch Available Times" block does not run. *)
Definition no_fetch (inp : LocationInputs) : Prop :=
  negb (String.eqb (location_input inp) "") && fetch_clicked inp = false.

(** A directions answer as [get_route_coords] reads it: the polyline of
    the first feature and the two figures of its summary, already divided
    by their units. *)
Definition coords_data (data : json) (cs : list json) (dist dur : float) : Prop :=
  exists features f0 geometry coords,
    getitem data "features" = Ok features /\
    getidx features 0 = Ok f0 /\
    getitem f0 "geometry" = Ok geometry /\
    getitem geometry "coordinates" = Ok coords /\
    py_iter coords = Ok cs /\
    summary_value data "distance" 1000 = Ok dist /\
    summary_value data "duration" 60 = Ok dur.

(** A point with at least two coordinates. *)
Definition two_or_more (pt : json) : Prop :=
  exists a b rest, pt = JList (a :: b :: rest).

(** [w'] is [w] after [n] external calls and any number of draws from the
    process-global generator. *)
Definition calls_and_draws (n : nat) (w w' : World) : Prop :=
  calls w' = (n + calls w)%nat /\
  env w' = env w /\ http w' = http w /\ nominatim w' = nominatim w /\
  entropy w' = entropy w /\ session w' = session w /\
  fit_calls w' = fit_calls w /\ stdout w' = stdout w.

(** What a run of the route page leaves as it was: everything but the
    call count and the stored route. *)
Definition route_frame (w w' : World) : Prop :=
  env w' = env w /\ http w' = http w /\ nominatim w' = nominatim w /\
  entropy w' = entropy w /\ global_random w' = global_random w /\
  fit_calls w' = fit_calls w /\ stdout w' = stdout w /\
  ss_trigger (session w') = ss_trigger (session w) /\
  ss_loc (session w') = ss_loc (session w) /\
  ss_weather_df (session w') = ss_weather_df (session w) /\
  ss_kp_df (session w') = ss_kp_df (session w) /\
  ss_prediction_done (session w') = ss_prediction_done (session w) /\
  ss_prediction (session w') = ss_prediction (session w).

(** What a run of the location page leaves as it was: the environment,
    the process-global generator, the output and the stored route. *)
Definition location_frame (w w' : World) : Prop :=
  env w' = env w /\ http w' = http w /\ nominatim w' = nominatim w /\
  entropy w' = entropy w /\ global_random w' = global_random w /\
  stdout w' = stdout w /\
  ss_route_data (session w') = ss_route_data (session w).

Definition preserves {A} (R : World -> World -> Prop) (m : M A) : Prop :=
  forall w, R w (snd (m w)).

(** A relation between worlds that a sequence of steps preserves when
    each step does, and that steps which only make calls preserve. *)
Record frame (R : World -> World -> Prop) : Prop := {
  frame_refl : forall w, R w w;
  frame_trans : forall w1 w2 w3, R w1 w2 -> R w2 w3 -> R w1 w3;
  frame_calls : forall w w', only_calls w w' -> R w w'
}.


End MoreVocabulary.

(* ================================================================== *)
(** * Properties *)

(** ** The order of binary64 against integer literals *)

Lemma digits2_pos_bounds (m : positive) :
  2 ^ (Z.pos (digits2_pos m) - 1) <= Z.pos m < 2 ^ Z.pos (digits2_pos m).
Proof.
  induction m as [m IH | m IH |]; cbn [digits2_pos].
  - rewrite Pos2Z.inj_succ.
    replace (Z.succ (Z.pos (digits2_pos m)) - 1)
      with (Z.succ (Z.pos (digits2_pos m) - 1)) by lia.
    rewrite !Z.pow_succ_r by lia. lia.
  - rewrite Pos2Z.inj_succ.
    replace (Z.succ (Z.pos (digits2_pos m)) - 1)
      with (Z.succ (Z.pos (digits2_pos m) - 1)) by lia.
    rewrite !Z.pow_succ_r by lia. lia.
  - cbn. lia.
Qed.

(** A valid finite binary64 has a mantissa below [2^53], and a full
    53-bit mantissa unless it is subnormal. *)
Lemma valid_finite_bounds s m e :
  valid_binary (S754_finite s m e) = true ->
  Z.pos m < 2 ^ 53 /\ (-1074 <= e) /\ (-1074 < e -> 2 ^ 52 <= Z.pos m).
Proof.
  cbn [SpecFloat.valid_binary]. unfold bounded, canonical_mantissa, fexp.
  intros H. apply andb_true_iff in H as [H _]. apply Z.eqb_eq in H.
  pose proof (digits2_pos_bounds m) as [Hlo Hhi].
  change (SpecFloat.emin prec emax) with (-1074) in H. change prec with 53 in H.
  set (d := Z.pos (digits2_pos m)) in *.
  assert (Hd : d <= 53 /\ (-1074 < e -> d = 53)) by lia.
  destruct Hd as [Hd1 Hd2]. repeat split.
  - eapply Z.lt_le_trans; [exact Hhi|]. apply Z.pow_le_mono_r; lia.
  - lia.
  - intros He. rewrite (Hd2 He) in Hlo. exact Hlo.
Qed.

Lemma SF_exceeds_at_least x k : SF_exceeds x k -> SF_at_least x k.
Proof.
  destruct x as [s|s| |s m e]; cbn; try tauto; try lia.
  destruct (0 <=? e); lia.
Qed.

Section LiteralOrder.
(** [k] is a positive integer held exactly by the normal binary64
    [mk * 2^ek]. *)
Variables (k : Z) (mk : positive) (ek : Z).
Hypothesis Hk : 0 < k.
Hypothesis Hek : -1074 < ek <= 0.
Hypothesis Hmk : 2 ^ 52 <= Z.pos mk < 2 ^ 53.
Hypothesis Hval : Z.pos mk = k * 2 ^ (- ek).

Lemma literal_cases (m : positive) (e : Z) :
  valid_binary (S754_finite false m e) = true ->
  (ek < e -> SF_exceeds (S754_finite false m e) k) /\
  (e < ek -> ~ SF_at_least (S754_finite false m e) k) /\
  (e = ek -> (SF_exceeds (S754_finite false m e) k <-> Z.pos mk < Z.pos m) /\
             (SF_at_least (S754_finite false m e) k <-> Z.pos mk <= Z.pos m)).
Proof.
  intros Hv. apply valid_finite_bounds in Hv as (Hm & He & Hnorm).
  assert (Hp : 0 < 2 ^ (- ek)) by (apply Z.pow_pos_nonneg; lia).
  assert (Hsame : forall P : Prop, e = ek ->
            (ek = 0 -> Z.pos mk = k -> P) -> (ek < 0 -> P) -> P).
  { intros P _ H0 Hneg. destruct (Z.eq_dec ek 0) as [E|E].
    - apply H0; [exact E|]. rewrite Hval, E. cbn. lia.
    - apply Hneg. lia. }
  unfold SF_exceeds, SF_at_least, SF_signed. split; [|split].
  - intros Hlt. specialize (Hnorm ltac:(lia)).
    destruct (Z.leb_spec 0 e) as [H0|H0].
    + assert (Hcases : ek = 0 \/ ek < 0) by lia. destruct Hcases as [E|Hneg].
      * rewrite E in Hval. cbn in Hval.
        assert (2 <= 2 ^ e) by (apply (Z.pow_le_mono_r 2 1 e); lia). nia.
      * assert (1 <= 2 ^ e) by (apply (Z.pow_le_mono_r 2 0 e); lia).
        assert (2 <= 2 ^ (- ek)) by (apply (Z.pow_le_mono_r 2 1 (- ek)); lia). nia.
    + replace (- ek) with ((- e) + (e - ek)) in Hval, Hp by lia.
      rewrite Z.pow_add_r in Hval by lia.
      assert (2 <= 2 ^ (e - ek)) by (apply (Z.pow_le_mono_r 2 1 (e - ek)); lia).
      assert (0 < 2 ^ (- e)) by (apply Z.pow_pos_nonneg; lia). nia.
  - intros Hlt. destruct (Z.leb_spec 0 e) as [H0|H0]; [lia|].
    replace (- e) with ((- ek) + (ek - e)) by lia. rewrite Z.pow_add_r by lia.
    assert (2 <= 2 ^ (ek - e)) by (apply (Z.pow_le_mono_r 2 1 (ek - e)); lia). nia.
  - intros E. apply (Hsame _ E).
    + intros E0 Hmk0. rewrite E, E0. cbn. lia.
    + intros Hneg. rewrite E. destruct (Z.leb_spec 0 ek); lia.
Qed.

Lemma negative_below (m : positive) (e : Z) :
  ~ SF_at_least (S754_finite true m e) k.
Proof.
  unfold SF_at_least, SF_signed.
  destruct (Z.leb_spec 0 e).
  - assert (0 < 2 ^ e) by (apply Z.pow_pos_nonneg; lia). nia.
  - assert (0 < 2 ^ (- e)) by (apply Z.pow_pos_nonneg; lia). nia.
Qed.

Lemma SFltb_literal (x : spec_float) :
  valid_binary x = true ->
  (SFltb (S754_finite false mk ek) x = true <-> SF_exceeds x k).
Proof.
  intros Hv. destruct x as [s|s| |s m e].
  - cbn. split; [discriminate | lia].
  - cbn. destruct s; split; congruence.
  - cbn. split; [discriminate | tauto].
  - destruct s.
    + split; [discriminate|].
      intros H. exfalso. apply (negative_below m e), SF_exceeds_at_least, H.
    + destruct (literal_cases m e Hv) as (Hgt & Hlt & Heq).
      unfold SFltb, SFcompare.
      destruct (Z.compare_spec ek e) as [E|E|E].
      * destruct (Heq (eq_sym E)) as [Hx _]. rewrite Hx.
        change (PosDef.Pos.compare_cont Eq mk m) with (Pos.compare mk m).
        destruct (Pos.compare_spec mk m);
          split; intros; try discriminate; try reflexivity; lia.
      * split; [intros _; apply Hgt, E | reflexivity].
      * split; [discriminate|]. intros H. exfalso.
        apply (Hlt E), SF_exceeds_at_least, H.
Qed.

Lemma SFleb_literal (x : spec_float) :
  valid_binary x = true ->
  (SFleb (S754_finite false mk ek) x = true <-> SF_at_least x k).
Proof.
  intros Hv. destruct x as [s|s| |s m e].
  - cbn. split; [discriminate | lia].
  - cbn. destruct s; split; congruence.
  - cbn. split; [discriminate | tauto].
  - destruct s.
    + split; [discriminate|].
      intros H. exfalso. apply (negative_below m e), H.
    + destruct (literal_cases m e Hv) as (Hgt & Hlt & Heq).
      unfold SFleb, SFcompare.
      destruct (Z.compare_spec ek e) as [E|E|E].
      * destruct (Heq (eq_sym E)) as [_ Hx]. rewrite Hx.
        change (PosDef.Pos.compare_cont Eq mk m) with (Pos.compare mk m).
        destruct (Pos.compare_spec mk m);
          split; intros; try discriminate; try reflexivity; lia.
      * split; [intros _; apply SF_exceeds_at_least, Hgt, E | reflexivity].
      * split; [discriminate|]. intros H. exfalso. apply (Hlt E), H.
Qed.

Hypothesis Hlit : Z_to_SF k = S754_finite false mk ek.
Hypothesis Hvalid : valid_binary (Z_to_SF k) = true.

(** The comparisons the code makes decide the mathematical order. *)
Lemma num_gt_literal (a : pynum) : num_gt a k = true <-> exceeds a k.
Proof.
  destruct a as [z|f]; cbn [num_gt exceeds].
  - apply Z.ltb_lt.
  - rewrite ltb_spec, (Prim2SF_SF2Prim _ Hvalid), Hlit.
    apply SFltb_literal, Prim2SF_valid.
Qed.

Lemma num_ge_literal (a : pynum) : num_ge a k = true <-> at_least a k.
Proof.
  destruct a as [z|f]; cbn [num_ge at_least].
  - apply Z.leb_le.
  - rewrite leb_spec, (Prim2SF_SF2Prim _ Hvalid), Hlit.
    apply SFleb_literal, Prim2SF_valid.
Qed.
End LiteralOrder.

Ltac literal_side :=
  first [ reflexivity | lia | (vm_compute; split; congruence) ].

Lemma num_gt_70 a : num_gt a 70 = true <-> exceeds a 70.
Proof. apply (num_gt_literal 70 4925812092436480 (-46)); literal_side. Qed.

Lemma num_gt_1 a : num_gt a 1 = true <-> exceeds a 1.
Proof. apply (num_gt_literal 1 4503599627370496 (-52)); literal_side. Qed.

Lemma num_gt_25 a : num_gt a 25 = true <-> exceeds a 25.
Proof. apply (num_gt_literal 25 7036874417766400 (-48)); literal_side. Qed.

Lemma num_gt_20 a : num_gt a 20 = true <-> exceeds a 20.
Proof. apply (num_gt_literal 20 5629499534213120 (-48)); literal_side. Qed.

Lemma num_ge_5 a : num_ge a 5 = true <-> at_least a 5.
Proof. apply (num_ge_literal 5 5629499534213120 (-50)); literal_side. Qed.

Lemma num_ge_6 a : num_ge a 6 = true <-> at_least a 6.
Proof. apply (num_ge_literal 6 6755399441055744 (-50)); literal_side. Qed.

(** ** Profile A *)

(** C2. For every feature vector, [predict_outage] returns true exactly
    when cloud > 70, rain > 1, TEC > 25 and Kp >= 5, the comparisons read
    as the mathematical order on the values the numbers denote: the three
    first are strict, the one on Kp is inclusive; a vector that violates
    one of the four conditions (a NaN violates each) yields false. *)
Theorem predict_outage_iff (cloud rain tec kp : pynum) :
  (predict_outage cloud rain tec kp = true <->
     exceeds cloud 70 /\ exceeds rain 1 /\ exceeds tec 25 /\ at_least kp 5) /\
  (predict_outage cloud rain tec kp = false <->
     ~ exceeds cloud 70 \/ ~ exceeds rain 1 \/ ~ exceeds tec 25 \/ ~ at_least kp 5).
Proof.
  assert (Hiff : predict_outage cloud rain tec kp = true <->
     exceeds cloud 70 /\ exceeds rain 1 /\ exceeds tec 25 /\ at_least kp 5).
  { unfold predict_outage. rewrite !andb_true_iff.
    rewrite num_gt_70, num_gt_1, num_gt_25, num_ge_5. tauto. }
  split; [exact Hiff|].
  rewrite <- Bool.not_true_iff_false, Hiff.
  rewrite <- num_gt_70, <- num_gt_1, <- num_gt_25, <- num_ge_5.
  destruct (num_gt cloud 70), (num_gt rain 1), (num_gt tec 25), (num_ge kp 5);
    intuition congruence.
Qed.

(** The thresholds themselves: 70, 1 and 25 are excluded, 5 is included. *)
Example predict_outage_boundaries :
  predict_outage (PFloat 70.5) (PFloat 1.5) (PFloat 25.5) (PInt 5) = true /\
  predict_outage (PFloat 70) (PFloat 1.5) (PFloat 25.5) (PInt 5) = false /\
  predict_outage (PFloat 70.5) (PFloat 1) (PFloat 25.5) (PInt 5) = false /\
  predict_outage (PFloat 70.5) (PFloat 1.5) (PFloat 25) (PInt 5) = false /\
  predict_outage (PFloat 70.5) (PFloat 1.5) (PFloat 25.5) (PInt 4) = false /\
  predict_outage (PFloat 70.5) (PFloat 1.5) (PFloat 25.5) (PFloat 5) = true /\
  predict_outage (PFloat nan) (PFloat 1.5) (PFloat 25.5) (PInt 5) = false.
Proof. vm_compute. repeat split. Qed.

(* ================================================================== *)
(** ** The seeded scenario generator *)

Section Properties.

Context `{NR : NumpyRandom} `{PR : PyRandom} `{FO : Forest} `{PD : Pandas}
        `{FM : Folium}.

Lemma lift_independent {A} (r : result A) : world_independent (lift r).
Proof. exists r. reflexivity. Qed.

Lemma bind_independent {A B} (m : M A) (k : A -> M B) :
  world_independent m -> (forall a, world_independent (k a)) ->
  world_independent (bind m k).
Proof.
  intros [r Hr] Hk. destruct r as [a|e].
  - destruct (Hk a) as [rb Hb]. exists rb. intros w. cbn. rewrite Hr. apply Hb.
  - exists (Raise e). intros w. cbn. rewrite Hr. reflexivity.
Qed.

Lemma independent_fst {A} (m : M A) (w1 w2 : World) :
  world_independent m -> fst (m w1) = fst (m w2).
Proof. intros [r Hr]. rewrite !Hr. reflexivity. Qed.

Lemma independent_snd {A} (m : M A) (w : World) :
  world_independent m -> snd (m w) = w.
Proof. intros [r Hr]. rewrite Hr. reflexivity. Qed.

Lemma seeded_rng_independent lat lon dt : world_independent (seeded_rng lat lon dt).
Proof.
  apply bind_independent; [apply lift_independent|].
  intros s. exists (Ok (rng_of_seed s)). reflexivity.
Qed.

Lemma get_fixed_values_independent lat lon dt :
  world_independent (get_fixed_values lat lon dt).
Proof.
  apply bind_independent; [apply seeded_rng_independent|].
  intros g. apply lift_independent.
Qed.

Lemma simulate_points_independent n lat lon dt :
  world_independent (simulate_points n lat lon dt).
Proof.
  apply bind_independent; [apply seeded_rng_independent|].
  intros g. apply lift_independent.
Qed.

Lemma get_outage_prediction_independent lat lon i :
  world_independent (get_outage_prediction lat lon i).
Proof.
  apply bind_independent; [apply lift_independent|]. intros s.
  apply bind_independent; [exists (Ok (rng_of_seed s)); reflexivity|].
  intros g. apply lift_independent.
Qed.

Lemma location_seed_spec lat lon dt s :
  location_seed lat lon dt = Ok s <->
  exists k, py_int (lat * 1000 + lon * 1000 + timestamp dt)%float = Ok k /\
            s = k mod 100000.
Proof.
  unfold location_seed. cbn.
  destruct (py_int _) as [k|e].
  - split.
    + intros H. injection H as <-. exists k. auto.
    + intros (k' & Hk & ->). injection Hk as <-. reflexivity.
  - split; [discriminate|]. intros (k' & Hk & _). discriminate.
Qed.

Lemma seeded_rng_of_seed lat lon dt s w :
  location_seed lat lon dt = Ok s -> seeded_rng lat lon dt w = (Ok (rng_of_seed s), w).
Proof.
  intros H. unfold seeded_rng. cbn [bind SE_monad]. unfold lift. rewrite H.
  reflexivity.
Qed.

(** C1. The seed of the scenario generator is
    [int(lat*1000 + lon*1000 + timestamp) mod 100000], a number of
    [0, 100000), and the generator is the one NumPy makes of that seed.
    Two calls with identical inputs, in whatever states of the world
    (network, process-global generator, session) they are made, give the
    identical generator, the identical feature draws and the identical
    simulated population; two calls of the route's per-vertex predictor
    with identical (lat, lon, index) return the identical label.  None of
    these calls changes the world. *)
Theorem seeded_generator_reproducible
    (lat lon : float) (dt : Timestamp) (n : Z) (vlat vlon : json) (i : Z) :
  (forall s, location_seed lat lon dt = Ok s <->
     exists k, py_int (lat * 1000 + lon * 1000 + timestamp dt)%float = Ok k /\
               s = k mod 100000) /\
  (forall s, location_seed lat lon dt = Ok s ->
     0 <= s < 100000 /\
     forall w, seeded_rng lat lon dt w = (Ok (rng_of_seed s), w)) /\
  (forall w1 w2 : World,
     fst (seeded_rng lat lon dt w1) = fst (seeded_rng lat lon dt w2) /\
     fst (get_fixed_values lat lon dt w1) = fst (get_fixed_values lat lon dt w2) /\
     fst (simulate_points n lat lon dt w1) = fst (simulate_points n lat lon dt w2) /\
     fst (get_outage_prediction vlat vlon i w1)
       = fst (get_outage_prediction vlat vlon i w2)) /\
  (forall w : World,
     snd (seeded_rng lat lon dt w) = w /\
     snd (get_fixed_values lat lon dt w) = w /\
     snd (simulate_points n lat lon dt w) = w /\
     snd (get_outage_prediction vlat vlon i w) = w).
Proof.
  split; [intros s; apply location_seed_spec|].
  split.
  { intros s Hs. split.
    - apply location_seed_spec in Hs as (k & _ & ->).
      apply Z.mod_pos_bound. lia.
    - intros w. apply seeded_rng_of_seed, Hs. }
  split.
  - intros w1 w2. repeat split; apply independent_fst;
      auto using seeded_rng_independent, get_fixed_values_independent,
        simulate_points_independent, get_outage_prediction_independent.
  - intros w. repeat split; apply independent_snd;
      auto using seeded_rng_independent, get_fixed_values_independent,
        simulate_points_independent, get_outage_prediction_independent.
Qed.

(** ** The simulated population *)

Lemma samples_in {A} (draw : Gen A) (P : A -> Prop) :
  draws_in draw P ->
  forall n, draws_in (samples n draw) (fun xs => List.length xs = n /\ Forall P xs).
Proof.
  intros Hd n. induction n as [|n IH]; intros g.
  - exists []. cbn. auto.
  - cbn. destruct (Hd g) as (x & Hx & Px).
    destruct (draw g) as [r g1]. cbn in Hx. subst r.
    destruct (IH g1) as (xs & Hxs & Hlen & Hall).
    destruct (samples n draw g1) as [r g2]. cbn in Hxs. subst r.
    exists (x :: xs). cbn. auto.
Qed.

Lemma sized_in {A} (draw : Gen A) (P : A -> Prop) (n : Z) :
  0 <= n -> draws_in draw P ->
  draws_in (sized n draw) (fun xs => List.length xs = Z.to_nat n /\ Forall P xs).
Proof.
  intros Hn Hd. unfold sized.
  destruct (Z.ltb_spec n 0); [lia|]. apply samples_in, Hd.
Qed.

Lemma bind_in {A B} (m : Gen A) (k : A -> Gen B) (P : A -> Prop) (Q : B -> Prop) :
  draws_in m P -> (forall a, P a -> draws_in (k a) Q) -> draws_in (bind m k) Q.
Proof.
  intros Hm Hk g. destruct (Hm g) as (a & Ha & Pa).
  cbn. destruct (m g) as [r g1]. cbn in Ha. subst r.
  apply (Hk a Pa).
Qed.

Lemma ret_in {A} (a : A) (P : A -> Prop) : P a -> draws_in (ret a : Gen A) P.
Proof. intros Pa g. exists a. auto. Qed.

Lemma nth_error_map_some {A B} (f : A -> B) (l : list A) (i : nat) (P : A -> Prop) :
  Forall P l -> (i < List.length l)%nat ->
  exists a, nth_error (map f l) i = Some (f a) /\ P a.
Proof.
  intros Hall Hi. destruct (nth_error l i) as [a|] eqn:E.
  - exists a. split.
    + rewrite nth_error_map, E. reflexivity.
    + rewrite Forall_forall in Hall. apply Hall. eapply nth_error_In, E.
  - apply nth_error_None in E. lia.
Qed.

Section WithNumpyLaws.

Context {NL : NumpyRandomLaws}.

Lemma uniform_draws low high :
  PrimFloat.is_finite (high - low) = true -> (low <=? high)%float = true ->
  draws_in (rng_uniform low high) (in_range low high).
Proof. intros Hf Hle g. apply uniform_in_range; assumption. Qed.

Lemma exponential_draws :
  draws_in (rng_exponential 2) (fun x => (0 <=? x)%float = true).
Proof. intros g. apply exponential_nonneg. reflexivity. Qed.

Lemma integers_draws : draws_in (rng_integers 0 10) (fun k => 0 <= k <= 9).
Proof.
  intros g. destruct (integers_in_range 0 10 g) as (k & Hk & Hr); try lia.
  exists k. split; [exact Hk | lia].
Qed.

Lemma population_draws_in (n : Z) (lat lon : float) :
  0 <= n -> scatter_window_ok lat -> scatter_window_ok lon ->
  draws_in (population_draws n lat lon) (population_of n lat lon).
Proof.
  intros Hn [Hlat1 Hlat2] [Hlon1 Hlon2]. unfold population_draws.
  eapply bind_in; [eapply sized_in; [exact Hn | apply (uniform_draws _ _ Hlat1 Hlat2)]|].
  intros c_lat [L1 F1].
  eapply bind_in; [eapply sized_in; [exact Hn | apply (uniform_draws _ _ Hlon1 Hlon2)]|].
  intros c_lon [L2 F2].
  eapply bind_in; [eapply sized_in; [exact Hn | apply (uniform_draws 0 100); reflexivity]|].
  intros c_cloud [L3 F3].
  eapply bind_in; [eapply sized_in; [exact Hn | apply exponential_draws]|].
  intros c_rain [L4 F4].
  eapply bind_in; [eapply sized_in; [exact Hn | apply (uniform_draws 20 80); reflexivity]|].
  intros c_tec [L5 F5].
  eapply bind_in; [eapply sized_in; [exact Hn | apply integers_draws]|].
  intros c_kp [L6 F6].
  apply ret_in. split; [reflexivity|]. split.
  - cbn. rewrite length_map. exact L1.
  - intros i Hi. unfold row_in_range, row. cbn [map fst snd].
    destruct (nth_error_map_some PFloat c_lat i _ F1) as (la & -> & Pla); [lia|].
    destruct (nth_error_map_some PFloat c_lon i _ F2) as (lo & -> & Plo); [lia|].
    destruct (nth_error_map_some PFloat c_cloud i _ F3) as (c & -> & Pc); [lia|].
    destruct (nth_error_map_some PFloat c_rain i _ F4) as (r & -> & Pr); [lia|].
    destruct (nth_error_map_some PFloat c_tec i _ F5) as (t & -> & Pt); [lia|].
    destruct (nth_error_map_some PInt c_kp i _ F6) as (k & -> & Pk); [lia|].
    exists la, lo, c, r, t, k. auto 10.
Qed.

(** C3. For a requested size [n >= 0] and a center whose seed is defined
    (its coordinates and time are finite) and whose scatter windows are
    well formed, [simulate_points] returns a frame (it does not raise) of
    exactly [n] rows, each with the six columns lat, lon, cloud, rain,
    tec, kp: cloud in [0,100], kp an integer of [0,9], rain nonnegative,
    tec in [20,80], and lat, lon within 5 degrees of the center (between
    [c - 5] and [c + 5] as the code computes these bounds). *)
Theorem simulate_points_rows (n : Z) (lat lon : float) (dt : Timestamp) (w : World) :
  0 <= n ->
  is_ok (location_seed lat lon dt) = true ->
  scatter_window_ok lat ->
  scatter_window_ok lon ->
  exists df, simulate_points n lat lon dt w = (Ok df, w) /\ population_of n lat lon df.
Proof.
  intros Hn Hseed Hlat Hlon.
  destruct (location_seed lat lon dt) as [s|e] eqn:Hs; [|discriminate].
  unfold simulate_points. cbn [bind SE_monad].
  rewrite (seeded_rng_of_seed _ _ _ s w Hs).
  unfold with_rng, lift.
  destruct (population_draws_in n lat lon Hn Hlat Hlon (rng_of_seed s))
    as (df & Hdf & Hpop).
  exists df. rewrite Hdf. auto.
Qed.

End WithNumpyLaws.

(* ------------------------------------------------------------------ *)
(** ** Forward geocoding *)

Lemma try_except_total {S A} (body : SE S A) (handler : exn -> SE S A) (s : S) :
  (forall e s', exists a, fst (handler e s') = Ok a) ->
  exists a, fst (try_except body handler s) = Ok a.
Proof.
  intros Hh. unfold try_except. destruct (body s) as [[a|e] s'].
  - exists a. reflexivity.
  - apply Hh.
Qed.

Lemma ors_geocode_total place w : exists r, fst (ors_geocode place w) = Ok r.
Proof.
  unfold ors_geocode. cbn [bind SE_monad get_world].
  destruct (no_ors_key w); [exists None; reflexivity|].
  apply try_except_total. intros e s'. exists None. reflexivity.
Qed.


Lemma geocode_attempt_not_found query w :
  nominatim_not_found (nominatim w (calls w) (Geocode query 10)) ->
  geocode_attempt query w = (Ok None, next_call w).
Proof.
  intros H. unfold geocode_attempt, try_except_only. cbn [bind SE_monad].
  unfold nominatim_send. destruct H as [-> | [-> | ->]]; reflexivity.
Qed.


Lemma get_route_geocoding_failed start end_ w :
  fst (ors_geocode start w) = Ok None \/
  fst (ors_geocode end_ (snd (ors_geocode start w))) = Ok None ->
  fst (get_route start end_ w) = Raise (ValueError "Geocoding failed for start or end").
Proof.
  intros H. unfold get_route. cbn [bind SE_monad].
  destruct (ors_geocode_total start w) as (r1 & H1).
  destruct (ors_geocode start w) as [o1 w1]. cbn [fst snd] in *. subst o1.
  destruct (ors_geocode_total end_ w1) as (r2 & H2).
  destruct (ors_geocode end_ w1) as [o2 w2]. cbn [fst snd] in *. subst o2.
  destruct H as [H|H]; injection H as ->.
  - destruct r2 as [[[? ?] ?]|]; reflexivity.
  - destruct r1 as [[[? ?] ?]|]; reflexivity.
Qed.



(* ------------------------------------------------------------------ *)
(** ** Route directions *)

Lemma get_route_send start end_ w s_info e_info w1 w2 :
  ors_geocode start w = (Ok (Some s_info), w1) ->
  ors_geocode end_ w1 = (Ok (Some e_info), w2) ->
  get_route start end_ w =
  match http w2 (calls w2) (ors_directions w2 s_info e_info) with
  | HttpRaise e => (Raise e, next_call w2)
  | HttpResponse resp =>
      match raise_for_status resp with
      | Raise e => (Raise e, next_call w2)
      | Ok _ =>
          match response_json resp with
          | Raise e => (Raise e, next_call w2)
          | Ok data =>
              match dict_get data "features" (JList []) with
              | Raise e => (Raise e, next_call w2)
              | Ok feats =>
                  if negb (truthy feats)
                  then (Raise (ValueError "No route found"), next_call w2)
                  else
                    (f0 <- getidx feats 0 ;;
                     geometry <- getitem f0 "geometry" ;;
                     geom <- getitem geometry "coordinates" ;;
                     pts <- py_iter geom ;;
                     route <- swap_points pts ;;
                     f0' <- getidx feats 0 ;;
                     properties <- getitem f0' "properties" ;;
                     summary <- getitem properties "summary" ;;
                     Ok {| rd_route := route; rd_start := s_info;
                           rd_end := e_info; rd_summary := summary |},
                     next_call w2)
              end
          end
      end
  end.
Proof.
  intros H1 H2. unfold get_route. cbn [bind SE_monad]. rewrite H1, H2.
  destruct s_info as [[s_lat s_lon] s_label], e_info as [[e_lat e_lon] e_label].
  cbn [get_world]. unfold requests_send, ors_directions.
  destruct (http w2 (calls w2) _) as [e|resp]; [reflexivity|].
  unfold lift. destruct (raise_for_status resp) as [[]|e]; [|reflexivity].
  destruct (response_json resp) as [data|e]; [|reflexivity].
  destruct (dict_get data "features" (JList [])) as [feats|e]; [|reflexivity].
  destruct (negb (truthy feats)); reflexivity.
Qed.

Lemma falsy_has_no_first (j : json) :
  truthy j = false -> exists e, getidx j 0 = Raise e.
Proof.
  destruct j as [|b|n|s|l|d]; intros H.
  - exists TypeError. reflexivity.
  - exists TypeError. reflexivity.
  - exists TypeError. reflexivity.
  - destruct s; [exists IndexError; reflexivity | discriminate H].
  - destruct l; [exists IndexError; reflexivity | discriminate H].
  - exists KeyError. reflexivity.
Qed.

Lemma get_route_coords_total s e w : exists r, fst (get_route_coords s e w) = Ok r.
Proof.
  unfold get_route_coords. cbn [bind SE_monad get_world].
  apply try_except_total. intros ex w'. eexists. reflexivity.
Qed.

Lemma get_route_coords_fallback s e w :
  no_features (http w (calls w) (ors_directions_coords w s e)) ->
  fst (get_route_coords s e w) = Ok ([], PInt 0, PInt 0).
Proof.
  intros H. unfold get_route_coords. cbn [bind SE_monad get_world].
  unfold try_except. cbn [bind SE_monad]. unfold requests_send.
  fold (ors_directions_coords w s e).
  destruct (http w (calls w) (ors_directions_coords w s e)) as [ex|r]; [reflexivity|].
  destruct H as (j & feats & Hj & Hf & Ht).
  unfold lift. destruct (raise_for_status r); [|reflexivity].
  cbn [bind result_monad]. rewrite Hj.
  destruct j as [| | | | |d]; try discriminate.
  cbn in Hf. cbn [getitem].
  destruct (assoc "features" d) as [v|]; [|reflexivity].
  injection Hf as ->.
  destruct (falsy_has_no_first _ Ht) as (ex & ->). reflexivity.
Qed.
Lemma get_route_coords_request_fails s e w err :
  http w (calls w) (ors_directions_coords w s e) = HttpRaise err ->
  printed_fallback s e w err.
Proof.
  intros H. unfold printed_fallback, get_route_coords. cbn [bind SE_monad get_world].
  unfold try_except. cbn [bind SE_monad]. unfold requests_send.
  fold (ors_directions_coords w s e). rewrite H. split; reflexivity.
Qed.

Lemma get_route_coords_answer s e w resp :
  http w (calls w) (ors_directions_coords w s e) = HttpResponse resp ->
  (forall err, raise_for_status resp = Raise err -> printed_fallback s e w err) /\
  (forall err,
     raise_for_status resp = Ok tt -> response_json resp = Raise err ->
     printed_fallback s e w err) /\
  ((exists pts dist dur,
      fst (get_route_coords s e w) = Ok (pts, PFloat dist, PFloat dur) /\
      stdout (snd (get_route_coords s e w)) = stdout w) \/
   (exists err, printed_fallback s e w err)).
Proof.
  intros H. unfold printed_fallback, get_route_coords. cbn [bind SE_monad get_world].
  unfold try_except. cbn [bind SE_monad]. unfold requests_send.
  fold (ors_directions_coords w s e). rewrite H. unfold lift.
  split; [|split].
  - intros err ->. split; reflexivity.
  - intros err -> ->. split; reflexivity.
  - destruct (raise_for_status resp) as [[]|err];
      [|right; exists err; split; reflexivity].
    cbn [bind result_monad].
    repeat match goal with
           | |- context [match ?x with Ok _ => _ | Raise _ => _ end] =>
               lazymatch x with
               | Ok _ => fail
               | match _ with Ok _ => _ | Raise _ => _ end => fail
               | _ => destruct x as [?|err];
                      [|right; exists err; split; reflexivity]
               end
           end.
    left. do 3 eexists. split; reflexivity.
Qed.

(** C7, as the code has it.  [get_route] raises, and returns no fallback:
    ValueError "Geocoding failed for start or end" when the geocoding of
    either endpoint gives [None]; the provider's own error when the
    directions request fails; ValueError "No route found" when the answer
    carries no features.  [get_route_coords], the directions helper of
    route_utils, never raises.  A run of it either returns the points with
    a float distance and a float duration and prints nothing, or returns
    the fallback ([], 0, 0) and prints "Route error:" with the error it
    caught.  It does the latter with the error of a request that fails,
    of an answer with an error status, and of a body that is not JSON,
    and with some error when the answer carries no features. *)
Theorem route_directions_errors :
  (forall start end_ w,
     fst (ors_geocode start w) = Ok None \/
     fst (ors_geocode end_ (snd (ors_geocode start w))) = Ok None ->
     fst (get_route start end_ w)
     = Raise (ValueError "Geocoding failed for start or end")) /\
  (forall start end_ w s_info e_info w1 w2,
     ors_geocode start w = (Ok (Some s_info), w1) ->
     ors_geocode end_ w1 = (Ok (Some e_info), w2) ->
     (forall e,
        http w2 (calls w2) (ors_directions w2 s_info e_info) = HttpRaise e ->
        fst (get_route start end_ w) = Raise e) /\
     (forall resp data feats,
        http w2 (calls w2) (ors_directions w2 s_info e_info) = HttpResponse resp ->
        raise_for_status resp = Ok tt ->
        response_json resp = Ok data ->
        dict_get data "features" (JList []) = Ok feats ->
        truthy feats = false ->
        fst (get_route start end_ w) = Raise (ValueError "No route found"))) /\
  (forall start_coords end_coords w,
     exists r, fst (get_route_coords start_coords end_coords w) = Ok r) /\
  (forall start_coords end_coords w,
     (exists pts dist dur,
        fst (get_route_coords start_coords end_coords w)
        = Ok (pts, PFloat dist, PFloat dur) /\
        stdout (snd (get_route_coords start_coords end_coords w)) = stdout w) \/
     (exists err, printed_fallback start_coords end_coords w err)) /\
  (forall start_coords end_coords w err,
     http w (calls w) (ors_directions_coords w start_coords end_coords) = HttpRaise err ->
     printed_fallback start_coords end_coords w err) /\
  (forall start_coords end_coords w resp err,
     http w (calls w) (ors_directions_coords w start_coords end_coords)
       = HttpResponse resp ->
     raise_for_status resp = Raise err \/
     (raise_for_status resp = Ok tt /\ response_json resp = Raise err) ->
     printed_fallback start_coords end_coords w err) /\
  (forall start_coords end_coords w,
     no_features (http w (calls w) (ors_directions_coords w start_coords end_coords)) ->
     exists err, printed_fallback start_coords end_coords w err).
Proof.
  split; [exact get_route_geocoding_failed|].
  split.
  { intros start end_ w s_info e_info w1 w2 H1 H2.
    rewrite (get_route_send _ _ _ _ _ _ _ H1 H2). split.
    - intros e ->. reflexivity.
    - intros resp data feats -> -> -> -> ->. reflexivity. }
  split; [exact get_route_coords_total|].
  assert (Hcases : forall s e w,
    (exists pts dist dur,
       fst (get_route_coords s e w) = Ok (pts, PFloat dist, PFloat dur) /\
       stdout (snd (get_route_coords s e w)) = stdout w) \/
    (exists err, printed_fallback s e w err)).
  { intros s e w.
    destruct (http w (calls w) (ors_directions_coords w s e)) as [err|resp] eqn:H.
    - right. exists err. apply (get_route_coords_request_fails _ _ _ _ H).
    - apply (get_route_coords_answer _ _ _ _ H). }
  split; [exact Hcases|].
  split; [exact get_route_coords_request_fails|].
  split.
  { intros s e w resp err H.
    destruct (get_route_coords_answer _ _ _ _ H) as (Hstatus & Hbody & _).
    intros [Hs|[Hs Hj]]; [apply Hstatus, Hs | apply Hbody; assumption]. }
  intros s e w Hn.
  destruct (Hcases s e w) as [(pts & dist & dur & Hok & _)|Hf]; [|exact Hf].
  rewrite (get_route_coords_fallback _ _ _ Hn) in Hok. discriminate Hok.
Qed.

(* ------------------------------------------------------------------ *)
(** ** Weather failures *)

Lemma only_calls_refl w : only_calls w w.
Proof. repeat split. Qed.

Lemma only_calls_trans w1 w2 w3 : only_calls w1 w2 -> only_calls w2 w3 -> only_calls w1 w3.
Proof.
  unfold only_calls. intros (a1&a2&a3&a4&a5&a6&a7&a8) (b1&b2&b3&b4&b5&b6&b7&b8).
  repeat split; congruence.
Qed.

Lemma bind_only_calls {A B} (m : M A) (k : A -> M B) :
  makes_only_calls m -> (forall a, makes_only_calls (k a)) -> makes_only_calls (bind m k).
Proof.
  intros Hm Hk w. cbn. specialize (Hm w).
  destruct (m w) as [[a|e] w1]; cbn in *.
  - eapply only_calls_trans; [exact Hm | apply Hk].
  - exact Hm.
Qed.

Lemma lift_only_calls {A} (r : result A) : makes_only_calls (lift r : M A).
Proof. intros w. apply only_calls_refl. Qed.

Lemma ret_only_calls {A} (a : A) : makes_only_calls (ret a : M A).
Proof. intros w. apply only_calls_refl. Qed.

Lemma raise_only_calls {A} (e : exn) : makes_only_calls (raise e : M A).
Proof. intros w. apply only_calls_refl. Qed.

Lemma get_world_only_calls : makes_only_calls get_world.
Proof. intros w. apply only_calls_refl. Qed.

Lemma requests_send_only_calls r : makes_only_calls (requests_send r).
Proof.
  intros w. unfold requests_send.
  destruct (http w (calls w) r); repeat split.
Qed.

Lemma nominatim_send_only_calls c : makes_only_calls (nominatim_send c).
Proof.
  intros w. unfold nominatim_send.
  destruct (nominatim w (calls w) c); repeat split.
Qed.

Lemma try_except_only_only_calls {A} caught (body handler : M A) :
  makes_only_calls body -> makes_only_calls handler ->
  makes_only_calls (try_except_only caught body handler).
Proof.
  intros Hb Hh w. unfold try_except_only. specialize (Hb w).
  destruct (body w) as [[a|e] w1]; cbn in *; [exact Hb|].
  destruct (caught e); [|exact Hb].
  eapply only_calls_trans; [exact Hb | apply Hh].
Qed.

Lemma geocode_place_only_calls place : makes_only_calls (geocode_place place).
Proof.
  unfold geocode_place.
  generalize [place; (place ++ ", India")%string]. intros l.
  induction l as [|q l IH]; cbn [geocode_attempts].
  - apply ret_only_calls.
  - apply bind_only_calls.
    + unfold geocode_attempt. apply try_except_only_only_calls; [|apply ret_only_calls].
      apply bind_only_calls; [apply nominatim_send_only_calls|].
      intros [loc|]; [|apply ret_only_calls].
      apply bind_only_calls; [apply lift_only_calls|].
      intros [| | |s| |]; first [apply ret_only_calls | apply raise_only_calls].
    + intros [geo|]; [apply ret_only_calls | exact IH].
Qed.

Lemma fetch_openweather_only_calls lat lon : makes_only_calls (fetch_openweather lat lon).
Proof.
  unfold fetch_openweather.
  apply bind_only_calls; [apply get_world_only_calls|]. intros w0.
  apply bind_only_calls; [apply requests_send_only_calls|]. intros r.
  apply bind_only_calls; [apply lift_only_calls|]. intros _.
  apply lift_only_calls.
Qed.





Lemma get_place_name_float la lo w :
  exists s, fst (get_place_name (PFloat la) (PFloat lo) w) = Ok s.
Proof.
  unfold get_place_name. cbn [bind SE_monad].
  destruct (try_except_total
              (location <- nominatim_send (Reverse (JNum (PFloat la)) (JNum (PFloat lo)) 5) ;;
               match location with
               | Some loc => ret (Some (address loc))
               | None => ret None
               end)
              (fun _ => ret None) w) as (found & Hf).
  { intros e s'. exists None. reflexivity. }
  destruct (try_except _ _ w) as [r w1]. cbn [fst] in Hf. subst r.
  destruct found as [name|]; eexists; reflexivity.
Qed.


Section WithRandomLaws.

Context {RL : PyRandomLaws}.


End WithRandomLaws.

(* ------------------------------------------------------------------ *)
(** ** The route page *)

Lemma get_outage_prediction_label lat lon i w :
  get_outage_prediction lat lon i w = (vertex_label (lat, lon) i, w).
Proof.
  unfold get_outage_prediction, vertex_label. cbn [bind SE_monad fst snd].
  unfold lift. destruct (vertex_seed lat lon i) as [s|e]; reflexivity.
Qed.

Lemma label_segments_run rest : forall prev i w,
  label_segments prev rest i w =
  (bs <- drawn_labels prev rest i ;;
   Ok (count_outages bs, segment_lines prev rest bs), w).
Proof.
  induction rest as [|pt rest IH]; intros prev i w; [reflexivity|].
  cbn [label_segments drawn_labels bind SE_monad].
  rewrite get_outage_prediction_label. rewrite <- surjective_pairing.
  destruct (vertex_label pt i) as [b|e]; [|reflexivity].
  unfold lift at 1. cbn [bind result_monad].
  destruct (folium_polyline [prev; pt]) as [[]|e]; [|reflexivity].
  rewrite IH. cbn [bind result_monad].
  destruct (drawn_labels pt rest (i + 1)) as [bs|e]; reflexivity.
Qed.

Lemma drawn_labels_ok rest : forall prev i bs,
  drawn_labels prev rest i = Ok bs -> segment_labels rest i = Ok bs.
Proof.
  induction rest as [|pt rest IH]; intros prev i bs H; [exact H|].
  cbn [drawn_labels segment_labels bind result_monad] in *.
  destruct (vertex_label pt i) as [b|e]; [|discriminate H].
  destruct (folium_polyline [prev; pt]) as [[]|e]; [|discriminate H].
  destruct (drawn_labels pt rest (i + 1)) as [bs'|e] eqn:E; [|discriminate H].
  rewrite (IH _ _ _ E). exact H.
Qed.

Lemma segment_labels_length rest : forall i bs,
  segment_labels rest i = Ok bs -> List.length bs = List.length rest.
Proof.
  induction rest as [|pt rest IH]; intros i bs H;
    cbn [segment_labels bind result_monad] in H.
  - injection H as <-. reflexivity.
  - destruct (vertex_label pt i); [|discriminate H].
    destruct (segment_labels rest (i + 1)) as [bs'|] eqn:E; [|discriminate H].
    injection H as <-. cbn [List.length]. f_equal. eapply IH, E.
Qed.

Lemma segment_lines_count rest : forall prev bs,
  List.length bs = List.length rest ->
  List.length (segment_lines prev rest bs) = List.length rest /\
  lines_of_color red (segment_lines prev rest bs) = count_outages bs /\
  lines_of_color green (segment_lines prev rest bs)
    = Z.of_nat (List.length rest) - count_outages bs.
Proof.
  unfold lines_of_color.
  induction rest as [|pt rest IH]; intros prev [|b bs] Hlen; try discriminate.
  - cbn. repeat split.
  - injection Hlen as Hlen. destruct (IH pt bs Hlen) as (H1 & H2 & H3).
    cbn [segment_lines filter line_color count_outages List.length].
    destruct b; cbn [same_color List.length]; rewrite ?Nat2Z.inj_succ; lia.
Qed.

Lemma draw_route_ok err rd w view w' :
  draw_route err rd w = (Ok view, w') ->
  w' = w /\
  exists first rest bs distance duration,
    rd_route rd = first :: rest /\
    segment_labels rest 1 = Ok bs /\
    route_metric (rd_summary rd) "distance" 1000 = Ok distance /\
    route_metric (rd_summary rd) "duration" 60 = Ok duration /\
    view = RouteMap err first (segment_lines first rest bs) (rd_start rd) (rd_end rd)
             {| distance_km := distance; duration_min := duration;
                outage_segments := count_outages bs;
                normal_segments := Z.of_nat (List.length (rd_route rd)) - count_outages bs |}.
Proof.
  unfold draw_route. destruct (rd_route rd) as [|first rest] eqn:Hr; [discriminate|].
  cbn [bind SE_monad]. unfold lift.
  destruct (folium_map first) as [[]|e]; [|discriminate].
  rewrite label_segments_run.
  destruct (drawn_labels first rest 1) as [bs|e] eqn:Hb; [|discriminate].
  apply drawn_labels_ok in Hb.
  cbn [bind result_monad].
  destruct (folium_marker (marker_location (rd_start rd))) as [[]|e]; [|discriminate].
  destruct (folium_marker (marker_location (rd_end rd))) as [[]|e]; [|discriminate].
  destruct (route_metric (rd_summary rd) "distance" 1000) as [d|e] eqn:Hd; [|discriminate].
  destruct (route_metric (rd_summary rd) "duration" 60) as [t|e] eqn:Ht; [|discriminate].
  cbn. intros H. injection H as <- <-. split; [reflexivity|].
  exists first, rest, bs, d, t. repeat split; try assumption; try reflexivity.
Qed.

Lemma show_route_mode_map inp w err center lines sm em summary :
  fst (show_route_mode inp w) = Ok (RouteMap err center lines sm em summary) ->
  exists rd,
    ss_route_data (session (snd (show_route_mode inp w))) = Some (Some rd) /\
    draw_route err rd (snd (show_route_mode inp w))
    = (Ok (RouteMap err center lines sm em summary), snd (show_route_mode inp w)).
Proof.
  unfold show_route_mode. cbn [bind SE_monad get_world].
  destruct (no_ors_key w); [discriminate|].
  destruct (set_session init_route_data w) as [[[]|e0] w0]; [|discriminate].
  destruct (fetch_location_suggestions (start_q inp) w0) as [[so|e1] w1]; [|discriminate].
  destruct (fetch_location_suggestions (end_q inp) w1) as [[eo|e2] w2]; [|discriminate].
  match goal with |- context [match ?m w2 with _ => _ end] =>
    destruct (m w2) as [[er|e3] w3]; [|discriminate] end.
  destruct (ss_route_data (session w3)) as [[rd|]|] eqn:Hs; try discriminate.
  destruct (draw_route er rd w3) as [[view|e4] w4] eqn:Hd; [|discriminate].
  cbn [fst snd]. intros H. injection H as ->.
  destruct (draw_route_ok _ _ _ _ _ Hd) as (-> & first & rest & bs & d & t & _ & _ & _ & _ & Hv).
  injection Hv as <- _ _ _ _ _.
  exists rd. split; [exact Hs | exact Hd].
Qed.


Lemma route_metric_12000 summary :
  summary_has summary "distance" 12000 ->
  route_metric summary "distance" 1000 = Ok "12.0".
Proof.
  unfold route_metric. intros [H|H]; rewrite H; vm_compute; reflexivity.
Qed.

Lemma route_metric_900 summary :
  summary_has summary "duration" 900 ->
  route_metric summary "duration" 60 = Ok "15.0".
Proof.
  unfold route_metric. intros [H|H]; rewrite H; vm_compute; reflexivity.
Qed.

Lemma get_route_found start end_ w s_info e_info w1 w2 resp data geom summary route :
  ors_geocode start w = (Ok (Some s_info), w1) ->
  ors_geocode end_ w1 = (Ok (Some e_info), w2) ->
  http w2 (calls w2) (ors_directions w2 s_info e_info) = HttpResponse resp ->
  raise_for_status resp = Ok tt ->
  response_json resp = Ok data ->
  directions_data data geom summary ->
  swap_points geom = Ok route ->
  get_route start end_ w
  = (Ok {| rd_route := route; rd_start := s_info; rd_end := e_info;
           rd_summary := summary |}, next_call w2).
Proof.
  intros H1 H2 Hr Hs Hj (feats & f0 & geometry & coordinates & properties &
    Hf & Ht & H0 & Hg & Hc & Hi & Hp & Hsum) Hgeom.
  rewrite (get_route_send _ _ _ _ _ _ _ H1 H2), Hr, Hs, Hj, Hf, Ht.
  cbn [negb bind result_monad]. rewrite H0. cbn [bind result_monad].
  rewrite Hg, Hc, Hi, Hgeom, Hp, Hsum. reflexivity.
Qed.

Lemma float_location_ok p lat lon : float_location p lat lon -> is_location p = true.
Proof. intros (-> & H1 & H2). unfold is_location. cbn. rewrite H1, H2. reflexivity. Qed.

Lemma vertex_seed_floats lat lon i fi :
  int_to_float i = Ok fi ->
  vertex_seed (JNum (PFloat lat)) (JNum (PFloat lon)) i
  = (n <- py_int (lat * 10000 + lon * 10000 + fi)%float ;; Ok (n mod 100000)).
Proof.
  intros Hi. unfold vertex_seed.
  cbn [as_num bind result_monad num_mul num_to_float num_add].
  assert (E : int_to_float 10000 = Ok 10000%float) by (vm_compute; reflexivity).
  rewrite E. cbn [bind result_monad num_add num_to_float]. rewrite Hi. reflexivity.
Qed.

Lemma vertex_label_floats p lat lon i fi :
  float_location p lat lon ->
  int_to_float i = Ok fi ->
  vertex_label p i
  = (n <- py_int (lat * 10000 + lon * 10000 + fi)%float ;;
     fst (profile_b_draws (rng_of_seed (n mod 100000)))).
Proof.
  intros (-> & _ & _) Hi. unfold vertex_label. cbn [fst snd].
  rewrite (vertex_seed_floats _ _ _ _ Hi). cbn [bind result_monad].
  destruct (py_int _); reflexivity.
Qed.

Lemma vertex_label_floats_inv p lat lon i b :
  float_location p lat lon ->
  vertex_label p i = Ok b ->
  exists fi n,
    int_to_float i = Ok fi /\
    py_int (lat * 10000 + lon * 10000 + fi)%float = Ok n /\
    fst (profile_b_draws (rng_of_seed (n mod 100000))) = Ok b.
Proof.
  intros F H. destruct (int_to_float i) as [fi|e] eqn:Hi.
  - rewrite (vertex_label_floats _ _ _ _ _ F Hi) in H. cbn [bind result_monad] in H.
    destruct (py_int _) as [n|e] eqn:Hn; [|discriminate H].
    exists fi, n. auto.
  - destruct F as (-> & _ & _). unfold vertex_label, vertex_seed in H.
    cbn [fst snd as_num bind result_monad num_mul num_to_float num_add] in H.
    assert (E : int_to_float 10000 = Ok 10000%float) by (vm_compute; reflexivity).
    rewrite E in H. cbn [bind result_monad num_add num_to_float] in H.
    rewrite Hi in H. discriminate H.
Qed.

Section WithFoliumLaws.

Context {FL : FoliumLaws}.

Lemma draw_three_points err rd p0 p1 p2 b1 b2 w :
  rd_route rd = [p0; p1; p2] ->
  is_location p0 = true -> is_location p1 = true -> is_location p2 = true ->
  is_location (marker_location (rd_start rd)) = true ->
  is_location (marker_location (rd_end rd)) = true ->
  summary_has (rd_summary rd) "distance" 12000 ->
  summary_has (rd_summary rd) "duration" 900 ->
  vertex_label p1 1 = Ok b1 ->
  vertex_label p2 2 = Ok b2 ->
  draw_route err rd w
  = (Ok (RouteMap err p0
           [ {| line_from := p0; line_to := p1; line_color := if b1 then red else green |};
             {| line_from := p1; line_to := p2; line_color := if b2 then red else green |} ]
           (rd_start rd) (rd_end rd)
           {| distance_km := "12.0"; duration_min := "15.0";
              outage_segments := (if b1 then 1 else 0) + ((if b2 then 1 else 0) + 0);
              normal_segments := 3 - ((if b1 then 1 else 0) + ((if b2 then 1 else 0) + 0)) |}),
     w).
Proof.
  intros Hr L0 L1 L2 Ls Le Hd Ht H1 H2. unfold draw_route. rewrite Hr.
  cbn [bind SE_monad]. unfold lift. rewrite (map_accepts _ L0).
  rewrite label_segments_run.
  cbn [drawn_labels bind result_monad]. change (1 + 1) with 2.
  rewrite H1, H2, (polyline_accepts _ _ L0 L1), (polyline_accepts _ _ L1 L2).
  cbn [bind result_monad].
  rewrite (marker_accepts _ Ls), (marker_accepts _ Le).
  rewrite (route_metric_12000 _ Hd), (route_metric_900 _ Ht). reflexivity.
Qed.

Lemma show_route_mode_clicked inp w start_opts end_opts wb wc rd wd :
  no_ors_key w = false ->
  show_clicked inp = true ->
  fetch_location_suggestions (start_q inp) (snd (set_session init_route_data w))
    = (Ok start_opts, wb) ->
  fetch_location_suggestions (end_q inp) wb = (Ok end_opts, wc) ->
  truthy (selectbox (JStr "" :: start_opts) (sel_start inp)) = true ->
  truthy (selectbox (JStr "" :: end_opts) (sel_end inp)) = true ->
  get_route (selectbox (JStr "" :: start_opts) (sel_start inp))
            (selectbox (JStr "" :: end_opts) (sel_end inp)) wc = (Ok rd, wd) ->
  show_route_mode inp w
  = draw_route None rd (snd (set_session (set_route_data (Some rd)) wd)).
Proof.
  intros Hk Hc Hs He Hts Hte Hg.
  unfold show_route_mode. cbn [bind SE_monad get_world]. rewrite Hk.
  destruct (set_session init_route_data w) as [r0 w0] eqn:E0.
  unfold set_session in E0. injection E0 as <- <-.
  cbn [snd] in Hs. rewrite Hs, He, Hc, Hts, Hte. cbn [negb orb].
  unfold try_except. cbn [bind SE_monad]. rewrite Hg.
  unfold set_session. cbn [snd session ss_route_data set_route_data]. reflexivity.
Qed.

(** C4. Both endpoints are selected and resolve, and the provider answers
    with a three-point polyline and the summary {distance: 12000,
    duration: 900}; the points and the two endpoints are pairs of floats,
    none of them NaN (on a None or a NaN folium, and so the page, raises).
    The route page then shows Distance "12.0" (km), Duration "15.0" (min)
    and exactly two segments, one per vertex after the first.  The
    segment to vertex k (k = 1, 2) is coloured by the verdict of Profile B
    on the generator seeded with
    [int(lat * 10000 + lon * 10000 + k) % 100000], where lat and lon are
    the coordinates of vertex k itself. *)
Theorem route_pipeline_three_points
    inp w start_opts end_opts wb wc s_info e_info w1 w2 resp data geom summary
    p0 p1 p2 lat0 lon0 lat1 lon1 lat2 lon2 s_lat s_lon e_lat e_lon n1 n2 b1 b2 :
  no_ors_key w = false ->
  show_clicked inp = true ->
  fetch_location_suggestions (start_q inp) (snd (set_session init_route_data w))
    = (Ok start_opts, wb) ->
  fetch_location_suggestions (end_q inp) wb = (Ok end_opts, wc) ->
  truthy (selectbox (JStr "" :: start_opts) (sel_start inp)) = true ->
  truthy (selectbox (JStr "" :: end_opts) (sel_end inp)) = true ->
  ors_geocode (selectbox (JStr "" :: start_opts) (sel_start inp)) wc
    = (Ok (Some s_info), w1) ->
  ors_geocode (selectbox (JStr "" :: end_opts) (sel_end inp)) w1
    = (Ok (Some e_info), w2) ->
  http w2 (calls w2) (ors_directions w2 s_info e_info) = HttpResponse resp ->
  raise_for_status resp = Ok tt ->
  response_json resp = Ok data ->
  directions_data data geom summary ->
  swap_points geom = Ok [p0; p1; p2] ->
  summary_has summary "distance" 12000 ->
  summary_has summary "duration" 900 ->
  float_location p0 lat0 lon0 ->
  float_location p1 lat1 lon1 ->
  float_location p2 lat2 lon2 ->
  float_location (marker_location s_info) s_lat s_lon ->
  float_location (marker_location e_info) e_lat e_lon ->
  py_int (lat1 * 10000 + lon1 * 10000 + 1)%float = Ok n1 ->
  fst (profile_b_draws (rng_of_seed (n1 mod 100000))) = Ok b1 ->
  py_int (lat2 * 10000 + lon2 * 10000 + 2)%float = Ok n2 ->
  fst (profile_b_draws (rng_of_seed (n2 mod 100000))) = Ok b2 ->
  fst (show_route_mode inp w)
  = Ok (RouteMap None p0
          [ {| line_from := p0; line_to := p1; line_color := if b1 then red else green |};
            {| line_from := p1; line_to := p2; line_color := if b2 then red else green |} ]
          s_info e_info
          {| distance_km := "12.0"; duration_min := "15.0";
             outage_segments := (if b1 then 1 else 0) + ((if b2 then 1 else 0) + 0);
             normal_segments :=
               3 - ((if b1 then 1 else 0) + ((if b2 then 1 else 0) + 0)) |}).
Proof.
  intros Hk Hc Hso Heo Hts Hte Hgs Hge Hr Hst Hj Hd Hgeom Hdist Hdur
    F0 F1 F2 Fs Fe N1 B1 N2 B2.
  pose proof (get_route_found _ _ _ _ _ _ _ _ _ _ _ _ Hgs Hge Hr Hst Hj Hd Hgeom) as Hg.
  rewrite (show_route_mode_clicked _ _ _ _ _ _ _ _ Hk Hc Hso Heo Hts Hte Hg).
  rewrite (draw_three_points None _ p0 p1 p2 b1 b2);
    try assumption; try reflexivity;
    try (eapply float_location_ok; eassumption).
  - rewrite (vertex_label_floats _ _ _ 1 1%float F1); [|vm_compute; reflexivity].
    rewrite N1. exact B1.
  - rewrite (vertex_label_floats _ _ _ 2 2%float F2); [|vm_compute; reflexivity].
    rewrite N2. exact B2.
Qed.

End WithFoliumLaws.

(** C9. Whenever the route page draws a route, of [V] vertices say, the
    summary's Outage Segments and Normal Segments add up to [V], while
    only [V - 1] segments are drawn; Outage Segments is the number of red
    segments and Normal Segments is one more than the number of green
    segments. *)
Theorem route_summary_counts inp w err center lines sm em summary :
  fst (show_route_mode inp w) = Ok (RouteMap err center lines sm em summary) ->
  exists rd,
    ss_route_data (session (snd (show_route_mode inp w))) = Some (Some rd) /\
    let V := Z.of_nat (List.length (rd_route rd)) in
    outage_segments summary + normal_segments summary = V /\
    Z.of_nat (List.length lines) = V - 1 /\
    outage_segments summary = lines_of_color red lines /\
    normal_segments summary = lines_of_color green lines + 1.
Proof.
  intros H. destruct (show_route_mode_map _ _ _ _ _ _ _ _ H) as (rd & Hs & Hd).
  exists rd. split; [exact Hs|].
  destruct (draw_route_ok _ _ _ _ _ Hd)
    as (_ & first & rest & bs & d & t & Hr & Hb & _ & _ & Hv).
  injection Hv as _ Hlines _ _ Hsum. subst lines summary.
  destruct (segment_lines_count rest first bs (segment_labels_length _ _ _ Hb))
    as (Hlen & Hred & Hgreen).
  cbn zeta. cbn [outage_segments normal_segments].
  rewrite Hred, Hgreen, Hlen, Hr. cbn [List.length]. rewrite Nat2Z.inj_succ. lia.
Qed.

(* ------------------------------------------------------------------ *)
(** ** The route overview helper *)

Lemma every_third_nth {A} (l : list A) :
  forall i, nth_error (every_third l) i = nth_error l (3 * i).
Proof.
  assert (H : forall n (l : list A), (List.length l <= n)%nat ->
            forall i, nth_error (every_third l) i = nth_error l (3 * i)).
  { induction n as [|n IH]; intros l0 Hl i.
    - destruct l0; [|cbn in Hl; lia]. destruct i; reflexivity.
    - destruct l0 as [|x [|y [|z rest]]].
      + destruct i; reflexivity.
      + destruct i as [|i]; [reflexivity|]. cbn [every_third].
        replace (3 * S i)%nat with (S (S (S (3 * i)))) by lia.
        cbn. destruct i; reflexivity.
      + destruct i as [|i]; [reflexivity|]. cbn [every_third].
        replace (3 * S i)%nat with (S (S (S (3 * i)))) by lia.
        cbn. destruct i; reflexivity.
      + destruct i as [|i]; [reflexivity|]. cbn [every_third].
        replace (3 * S i)%nat with (S (S (S (3 * i)))) by lia.
        cbn [nth_error]. apply IH. cbn in Hl. lia. }
  apply (H (List.length l)). lia.
Qed.

Lemma get_weather_data_source lat lon w :
  exists cloud w',
    get_weather_data lat lon w = (Ok cloud, w') /\
    (cloud_fetched lat lon w cloud \/ cloud_fallback w cloud).
Proof.
  unfold get_weather_data. cbn [bind SE_monad get_world].
  unfold try_except. cbn [bind SE_monad]. unfold requests_send.
  fold (weather_request w lat lon). unfold cloud_fetched, cloud_fallback.
  destruct (http w (calls w) (weather_request w lat lon)) as [e|resp].
  - unfold with_global_random. cbn [global_random next_call].
    destruct (random_randint 0 100 (global_random w)) as [k g].
    eexists _, _. split; [reflexivity|]. right. reflexivity.
  - unfold lift. cbn [bind result_monad].
    destruct (response_json resp) as [res|e] eqn:Hj.
    + destruct (dict_get res "clouds" (JDict [])) as [clouds|e] eqn:Hc.
      * destruct (dict_get clouds "all" (JNum (PInt 0))) as [cloud|e] eqn:Ha.
        -- eexists _, _. split; [reflexivity|]. left. eauto 10.
        -- unfold with_global_random. cbn [global_random next_call].
           destruct (random_randint 0 100 (global_random w)) as [k g].
           eexists _, _. split; [reflexivity|]. right. reflexivity.
      * unfold with_global_random. cbn [global_random next_call].
        destruct (random_randint 0 100 (global_random w)) as [k g].
        eexists _, _. split; [reflexivity|]. right. reflexivity.
    + unfold with_global_random. cbn [global_random next_call].
      destruct (random_randint 0 100 (global_random w)) as [k g].
      eexists _, _. split; [reflexivity|]. right. reflexivity.
Qed.

Lemma get_place_name_random lat lon w :
  global_random (snd (get_place_name lat lon w)) = global_random w.
Proof.
  unfold get_place_name. cbn [bind SE_monad]. unfold try_except.
  cbn [bind SE_monad]. unfold nominatim_send.
  destruct (nominatim w (calls w) _) as [e|[loc|]]; cbn [ret SE_monad].
  - unfold lift. destruct (_ : result string); reflexivity.
  - reflexivity.
  - unfold lift. destruct (_ : result string); reflexivity.
Qed.

Lemma predict_point_ok pt w r w' :
  predict_point pt w = (Ok r, w') ->
  r_lat r = fst pt /\ r_lon r = snd pt /\
  fst (get_weather_data (fst pt) (snd pt) w) = Ok (r_cloud_cover r) /\
  r_tec r = tec_draw pt w /\
  r_geomagnetic r = kp_draw pt w /\
  outage_rule_c (r_cloud_cover r) (r_tec r) (r_geomagnetic r) = Ok (r_outage r) /\
  global_random w'
    = snd (random_randint 1 9 (snd (random_uniform 1 35 (draw_state pt w)))).
Proof.
  unfold tec_draw, kp_draw, draw_state. destruct pt as [lat lon].
  unfold predict_point. cbn [bind SE_monad fst snd].
  destruct (get_weather_data lat lon w) as [[cloud|e] w1]; [|discriminate].
  unfold with_global_random. cbn [fst snd].
  destruct (random_uniform 1 35 (global_random w1)) as [u g1]. cbn [global_random fst snd].
  destruct (random_randint 1 9 g1) as [kp g2]. cbn [fst snd].
  unfold lift.
  destruct (outage_rule_c cloud (py_round2 u) kp) as [outage|e] eqn:Ho; [|discriminate].
  match goal with |- context [get_place_name lat lon ?w2] =>
    pose proof (get_place_name_random lat lon w2) as Hp;
    destruct (get_place_name lat lon w2) as [[place|e] w3] end; [|discriminate].
  cbn [ret SE_monad]. intros H. injection H as <- <-.
  cbn [r_lat r_lon r_cloud_cover r_tec r_geomagnetic r_outage].
  cbn [snd global_random] in Hp. repeat split; try reflexivity; assumption.
Qed.

Lemma predict_points_each pts : forall w rs w',
  predict_points pts w = (Ok rs, w') ->
  Forall2 (fun pt r => exists wa wb, predict_point pt wa = (Ok r, wb)) pts rs.
Proof.
  induction pts as [|pt pts IH]; intros w rs w' H; cbn [predict_points] in H.
  - injection H as <- <-. constructor.
  - cbn [bind SE_monad] in H.
    destruct (predict_point pt w) as [[r|e] w1] eqn:Hp; [|discriminate H].
    destruct (predict_points pts w1) as [[rs1|e] w2] eqn:Hps; [|discriminate H].
    injection H as <- <-. constructor; [eauto | eapply IH, Hps].
Qed.

Lemma outage_rule_c_iff cloud tec kp outage :
  outage_rule_c cloud tec kp = Ok outage ->
  exists c, as_num cloud = Ok c /\
    (outage = true <-> exceeds c 70 /\ exceeds (PFloat tec) 20 /\ 6 <= kp).
Proof.
  unfold outage_rule_c, json_gt. cbn [bind result_monad].
  destruct (as_num cloud) as [c|e]; [|discriminate].
  intros H. injection H as <-. exists c. split; [reflexivity|].
  rewrite !andb_true_iff, num_gt_70, Z.leb_le.
  change ((20 <? tec)%float) with (num_gt (PFloat tec) 20).
  rewrite num_gt_20. tauto.
Qed.

Lemma predict_point_http pt w : http (snd (predict_point pt w)) = http w.
Proof.
  destruct pt as [lat lon]. unfold predict_point. cbn [bind SE_monad].
  assert (Hw : http (snd (get_weather_data lat lon w)) = http w).
  { unfold get_weather_data. cbn [bind SE_monad get_world]. unfold try_except.
    cbn [bind SE_monad]. unfold requests_send.
    destruct (http w (calls w) _) as [e|resp].
    - unfold with_global_random. cbn [global_random next_call].
      destruct (random_randint 0 100 (global_random w)). reflexivity.
    - unfold lift.
      destruct (_ : result json); [reflexivity|].
      unfold with_global_random. cbn [global_random next_call].
      destruct (random_randint 0 100 (global_random w)). reflexivity. }
  destruct (get_weather_data lat lon w) as [[cloud|e] w1]; [|exact Hw].
  cbn [snd] in Hw. unfold with_global_random.
  destruct (random_uniform 1 35 (global_random w1)) as [u g1]. cbn [global_random].
  destruct (random_randint 1 9 g1) as [kp g2].
  unfold lift. destruct (outage_rule_c cloud (py_round2 u) kp); [|exact Hw].
  match goal with |- context [get_place_name lat lon ?w2] =>
    assert (Hp : http (snd (get_place_name lat lon w2)) = http w);
    [| destruct (get_place_name lat lon w2) as [[place|e] w3]; exact Hp] end.
  unfold get_place_name. cbn [bind SE_monad]. unfold try_except.
  cbn [bind SE_monad]. unfold nominatim_send.
  destruct (nominatim _ _ _) as [e|[loc|]]; cbn [ret SE_monad http next_call].
  - unfold lift. destruct (_ : result string); exact Hw.
  - exact Hw.
  - unfold lift. destruct (_ : result string); exact Hw.
Qed.

Lemma predict_point_returns la lo w :
  numeric_clouds w -> exists r, fst (predict_point (PFloat la, PFloat lo) w) = Ok r.
Proof.
  intros Hn. unfold predict_point. cbn [bind SE_monad].
  destruct (get_weather_data_source (PFloat la) (PFloat lo) w)
    as (cloud & w1 & Hw & Hsrc).
  rewrite Hw. unfold with_global_random.
  destruct (random_uniform 1 35 (global_random w1)) as [u g1]. cbn [global_random].
  destruct (random_randint 1 9 g1) as [kp g2].
  assert (Hc : exists c, as_num cloud = Ok c).
  { destruct Hsrc as [(resp & res & clouds & Hr & Hj & Hcl & Ha) | Hfb].
    - eapply Hn; eassumption.
    - unfold cloud_fallback in Hfb. rewrite Hfb. eexists. reflexivity. }
  destruct Hc as (c & Hc). unfold lift, outage_rule_c, json_gt. rewrite Hc.
  cbn [bind result_monad].
  match goal with |- context [get_place_name _ _ ?w2] =>
    destruct (get_place_name_float la lo w2) as (s & Hs);
    destruct (get_place_name (PFloat la) (PFloat lo) w2) as [rp w3] end.
  cbn [fst] in Hs. subst rp. eexists. reflexivity.
Qed.

Lemma predict_points_return pts : forall w,
  numeric_clouds w -> Forall float_point pts ->
  exists rs, fst (predict_points pts w) = Ok rs.
Proof.
  induction pts as [|pt pts IH]; intros w Hn Hf; [exists []; reflexivity|].
  inversion Hf as [|? ? (la & lo & ->) Hf']; subst.
  cbn [predict_points bind SE_monad].
  destruct (predict_point_returns la lo w Hn) as (r & Hr).
  pose proof (predict_point_http (PFloat la, PFloat lo) w) as Hh.
  destruct (predict_point (PFloat la, PFloat lo) w) as [r0 w1].
  cbn [fst snd] in Hr, Hh. subst r0.
  destruct (IH w1) as (rs & Hrs); [|exact Hf'|].
  { unfold numeric_clouds. rewrite Hh. exact Hn. }
  destruct (predict_points pts w1) as [r1 w2]. cbn [fst] in Hrs. subst r1.
  eexists. reflexivity.
Qed.

Lemma every_third_Forall {A} (P : A -> Prop) (l : list A) :
  Forall P l -> Forall P (every_third l).
Proof.
  intros H. apply Forall_forall. intros x Hx.
  apply In_nth_error in Hx as [i Hi]. rewrite every_third_nth in Hi.
  rewrite Forall_forall in H. eapply H, nth_error_In, Hi.
Qed.

Section WithRandomLawsOverview.

Context {RL : PyRandomLaws}.

Lemma kp_draw_range pt w : 1 <= kp_draw pt w <= 9.
Proof. unfold kp_draw. apply random_randint_in_range. lia. Qed.

(** C10. The helper is outside the reproducibility of the seeded
    generator.  For every point it evaluates, TEC is [random.uniform(1,
    35)] rounded to two decimals and Kp is [random.randint(1, 9)], both
    drawn from the process-global generator in the state the weather
    lookup leaves (which draws the fallback cloud from it too), and the
    evaluation leaves that generator advanced.  Kp lies in [1, 9]: it is
    never 0.  Two invocations on the same route whose generator states
    make the first TEC or Kp draw differ return different results. *)
Theorem route_overview_not_reproducible :
  (forall pt w r w',
     predict_point pt w = (Ok r, w') ->
     r_tec r = tec_draw pt w /\
     (exists u, in_range 1 35 u /\ r_tec r = py_round2 u) /\
     r_geomagnetic r = kp_draw pt w /\
     1 <= r_geomagnetic r <= 9 /\
     (cloud_fetched (fst pt) (snd pt) w (r_cloud_cover r) \/
      cloud_fallback w (r_cloud_cover r)) /\
     global_random w'
       = snd (random_randint 1 9 (snd (random_uniform 1 35 (draw_state pt w))))) /\
  (forall route w rs w',
     predict_outage_along_route route w = (Ok rs, w') ->
     Forall (fun r => 1 <= r_geomagnetic r <= 9 /\ r_geomagnetic r <> 0) rs) /\
  (forall route pt rest w1 w2 rs1 rs2,
     every_third route = pt :: rest ->
     fst (predict_outage_along_route route w1) = Ok rs1 ->
     fst (predict_outage_along_route route w2) = Ok rs2 ->
     tec_draw pt w1 <> tec_draw pt w2 \/ kp_draw pt w1 <> kp_draw pt w2 ->
     rs1 <> rs2).
Proof.
  split; [|split].
  - intros pt w r w' H.
    destruct (predict_point_ok _ _ _ _ H) as (_ & _ & H3 & H4 & H5 & _ & H7).
    split; [exact H4|]. split.
    { eexists. split; [|exact H4]. apply random_uniform_in_range. reflexivity. }
    split; [exact H5|]. split; [rewrite H5; apply kp_draw_range|].
    split; [|exact H7].
    destruct (get_weather_data_source (fst pt) (snd pt) w) as (cloud & w1 & Hw & Hsrc).
    rewrite Hw in H3. cbn [fst] in H3. injection H3 as <-. exact Hsrc.
  - intros route w rs w' H. unfold predict_outage_along_route in H.
    apply predict_points_each in H.
    induction H as [|pt r pts rs0 (wa & wb & Hp) _ IH]; constructor; [|exact IH].
    destruct (predict_point_ok _ _ _ _ Hp) as (_ & _ & _ & _ & H5 & _).
    pose proof (kp_draw_range pt wa). lia.
  - intros route pt rest w1 w2 rs1 rs2 He H1 H2 Hd Heq. subst rs2.
    unfold predict_outage_along_route in H1, H2. rewrite He in H1, H2.
    cbn [predict_points bind SE_monad] in H1, H2.
    destruct (predict_point pt w1) as [[r1|e1] wa] eqn:Hp1; [|discriminate H1].
    destruct (predict_point pt w2) as [[r2|e2] wb] eqn:Hp2; [|discriminate H2].
    destruct (predict_points rest wa) as [[ra|ea] wa']; [|discriminate H1].
    destruct (predict_points rest wb) as [[rb|eb] wb']; [|discriminate H2].
    cbn [ret SE_monad fst] in H1, H2.
    injection H1 as <-. injection H2 as -> _.
    destruct (predict_point_ok _ _ _ _ Hp1) as (_ & _ & _ & T1 & K1 & _).
    destruct (predict_point_ok _ _ _ _ Hp2) as (_ & _ & _ & T2 & K2 & _).
    destruct Hd as [Hd|Hd]; apply Hd; congruence.
Qed.

End WithRandomLawsOverview.

End Properties.

(* ================================================================== *)
(** * Further properties of the code *)

Section MoreProperties.

Context `{NR : NumpyRandom} `{PR : PyRandom} `{FO : Forest} `{PD : Pandas}
        `{FM : Folium}.

(** ** Suggestions and geocoding of route mode *)

Lemma try_except_only_calls {A} (body : M A) (handler : exn -> M A) :
  makes_only_calls body -> (forall e, makes_only_calls (handler e)) ->
  makes_only_calls (try_except body handler).
Proof.
  intros Hb Hh w. unfold try_except. specialize (Hb w).
  destruct (body w) as [[a|e] w1]; cbn [snd] in *; [exact Hb|].
  eapply only_calls_trans; [exact Hb | apply Hh].
Qed.

Lemma error_status_raises r :
  error_status r -> raise_for_status r = Raise (HTTPError (status_code r)).
Proof.
  unfold error_status, raise_for_status. intros [H1 H2].
  destruct (Z.leb_spec 400 (status_code r)); [|lia].
  destruct (Z.ltb_spec (status_code r) 600); [reflexivity | lia].
Qed.




Lemma ors_geocode_sent place w :
  no_ors_key w = false ->
  ors_geocode place w =
  match http w (calls w) (ors_search w place) with
  | HttpRaise _ => (Ok None, next_call w)
  | HttpResponse resp =>
      match
        (raise_for_status resp ;;
         j <- response_json resp ;;
         feats <- dict_get j "features" (JList []) ;;
         if negb (truthy feats) then Ok None
         else
           f0 <- getidx feats 0 ;;
           geometry <- getitem f0 "geometry" ;;
           coords <- getitem geometry "coordinates" ;;
           f0' <- getidx feats 0 ;;
           properties <- getitem f0' "properties" ;;
           label <- getitem properties "label" ;;
           c1 <- getidx coords 1 ;;
           c0 <- getidx coords 0 ;;
           Ok (Some (c1, c0, label)))
      with
      | Ok found => (Ok found, next_call w)
      | Raise _ => (Ok None, next_call w)
      end
  end.
Proof.
  intros Hk. unfold ors_geocode. cbn [bind SE_monad get_world]. rewrite Hk.
  unfold try_except. cbn [bind SE_monad]. unfold requests_send.
  fold (ors_search w place).
  destruct (http w (calls w) (ors_search w place)) as [e|resp]; [reflexivity|].
  unfold lift. cbn [bind result_monad].
  destruct (raise_for_status resp) as [[]|e]; [|reflexivity].
  destruct (response_json resp) as [j|e]; [|reflexivity].
  destruct (dict_get j "features" (JList [])) as [feats|e]; [|reflexivity].
  destruct (negb (truthy feats)); [reflexivity|].
  destruct (_ : result (option GeoInfo)); reflexivity.
Qed.

(** X2. [ors_geocode], the key being set, sends exactly one request.
    From the first feature of the answer it returns (latitude, longitude,
    label), the GeoJSON pair [lon, lat] swapped; an answer with an HTTP
    error status gives [None] whatever its body, and so does a first
    feature without a geometry or without properties. *)
Theorem ors_geocode_first_feature place w :
  no_ors_key w = false ->
  snd (ors_geocode place w) = next_call w /\
  (forall resp,
     http w (calls w) (ors_search w place) = HttpResponse resp ->
     error_status resp ->
     fst (ors_geocode place w) = Ok None) /\
  (forall resp j feats f0,
     http w (calls w) (ors_search w place) = HttpResponse resp ->
     raise_for_status resp = Ok tt ->
     response_json resp = Ok j ->
     dict_get j "features" (JList []) = Ok feats ->
     truthy feats = true ->
     getidx feats 0 = Ok f0 ->
     (forall geometry coords properties label lon lat,
        getitem f0 "geometry" = Ok geometry ->
        getitem geometry "coordinates" = Ok coords ->
        getitem f0 "properties" = Ok properties ->
        getitem properties "label" = Ok label ->
        getidx coords 0 = Ok lon ->
        getidx coords 1 = Ok lat ->
        fst (ors_geocode place w) = Ok (Some (lat, lon, label))) /\
     ((exists e, getitem f0 "geometry" = Raise e) \/
      (exists e, getitem f0 "properties" = Raise e) ->
      fst (ors_geocode place w) = Ok None)).
Proof.
  intros Hk. rewrite (ors_geocode_sent place w Hk). split; [|split].
  - destruct (http w (calls w) _) as [e|resp]; [reflexivity|].
    destruct (_ : result (option GeoInfo)); reflexivity.
  - intros resp -> Hs. cbn [bind result_monad].
    rewrite (error_status_raises _ Hs). reflexivity.
  - intros resp j feats f0 -> Hs Hj Hf Ht H0. cbn [bind result_monad].
    rewrite Hs, Hj, Hf, Ht. cbn [negb]. rewrite H0. split.
    + intros geometry coords properties label lon lat Hg Hc Hp Hl Hlon Hlat.
      rewrite Hg, Hc, Hp, Hl, Hlat, Hlon. reflexivity.
    + intros [[e He] | [e He]].
      * rewrite He. reflexivity.
      * destruct (getitem f0 "geometry") as [geometry|]; [|reflexivity].
        destruct (getitem geometry "coordinates") as [coords|]; [|reflexivity].
        rewrite He. reflexivity.
Qed.

(** X3. Without an ORS key (unset or empty) route mode asks nothing of
    the network and changes nothing: the page shows the missing-key error,
    the suggestions are empty, geocoding gives [None], and [get_route]
    raises its geocoding error, each leaving the world as it was. *)
Theorem route_mode_needs_key w :
  no_ors_key w = true ->
  (forall inp, show_route_mode inp w = (Ok KeyMissing, w)) /\
  (forall query, fetch_location_suggestions query w = (Ok [], w)) /\
  (forall place, ors_geocode place w = (Ok None, w)) /\
  (forall start end_,
     get_route start end_ w
     = (Raise (ValueError "Geocoding failed for start or end"), w)).
Proof.
  intros Hk.
  assert (Hg : forall place, ors_geocode place w = (Ok None, w)).
  { intros place. unfold ors_geocode. cbn [bind SE_monad get_world].
    rewrite Hk. reflexivity. }
  split; [|split; [|split]].
  - intros inp. unfold show_route_mode. cbn [bind SE_monad get_world].
    rewrite Hk. reflexivity.
  - intros query. unfold fetch_location_suggestions. cbn [bind SE_monad get_world].
    rewrite Hk, orb_true_r. reflexivity.
  - exact Hg.
  - intros start end_. unfold get_route. cbn [bind SE_monad].
    rewrite (Hg start), (Hg end_). reflexivity.
Qed.

(** ** Routes and the route page *)

Lemma swap_points_nth geom : forall route,
  swap_points geom = Ok route ->
  List.length route = List.length geom /\
  forall k pt, nth_error geom k = Some pt ->
    exists lat lon, getidx pt 1 = Ok lat /\ getidx pt 0 = Ok lon /\
                    nth_error route k = Some (lat, lon).
Proof.
  induction geom as [|p geom IH]; intros route H; cbn [swap_points bind result_monad] in H.
  - injection H as <-. split; [reflexivity|]. intros [|k] pt Hk; discriminate Hk.
  - destruct (getidx p 1) as [p1|] eqn:E1; [|discriminate H].
    destruct (getidx p 0) as [p0|] eqn:E0; [|discriminate H].
    destruct (swap_points geom) as [ps|]; [|discriminate H].
    injection H as <-. destruct (IH ps eq_refl) as [Hlen Hnth].
    split; [cbn [List.length]; f_equal; exact Hlen|].
    intros [|k] pt Hk; cbn [nth_error] in *.
    + injection Hk as <-. exists p1, p0. auto.
    + apply Hnth, Hk.
Qed.

Lemma ors_geocode_only_calls place : makes_only_calls (ors_geocode place).
Proof.
  unfold ors_geocode.
  apply bind_only_calls; [apply get_world_only_calls|]. intros w0.
  destruct (no_ors_key w0); [apply ret_only_calls|].
  apply try_except_only_calls; [|intros e; apply ret_only_calls].
  apply bind_only_calls; [apply requests_send_only_calls|]. intros resp.
  apply bind_only_calls; [apply lift_only_calls|]. intros _.
  apply lift_only_calls.
Qed.

Lemma get_route_only_calls start end_ : makes_only_calls (get_route start end_).
Proof.
  unfold get_route.
  apply bind_only_calls; [apply ors_geocode_only_calls|]. intros s_info.
  apply bind_only_calls; [apply ors_geocode_only_calls|]. intros e_info.
  destruct s_info as [[[s_lat s_lon] s_label]|]; [|apply raise_only_calls].
  destruct e_info as [[[e_lat e_lon] e_label]|]; [|apply raise_only_calls].
  apply bind_only_calls; [apply get_world_only_calls|]. intros w0.
  apply bind_only_calls; [apply requests_send_only_calls|]. intros resp.
  apply bind_only_calls; [apply lift_only_calls|]. intros _.
  apply bind_only_calls; [apply lift_only_calls|]. intros data.
  apply bind_only_calls; [apply lift_only_calls|]. intros feats.
  destruct (negb (truthy feats)); [apply raise_only_calls | apply lift_only_calls].
Qed.

Lemma suggestions_only_calls query : makes_only_calls (fetch_location_suggestions query).
Proof.
  unfold fetch_location_suggestions.
  apply bind_only_calls; [apply get_world_only_calls|]. intros w0.
  destruct (_ || _); [apply ret_only_calls|].
  apply try_except_only_calls; [|intros e; apply ret_only_calls].
  apply bind_only_calls; [apply requests_send_only_calls|]. intros resp.
  apply bind_only_calls; [apply lift_only_calls|]. intros _.
  apply lift_only_calls.
Qed.

(** X4. On success [get_route] has sent exactly one directions request
    after the two geocoding calls, and its route is the polyline of the
    answer, vertex for vertex: as many vertices as points, the k-th being
    (pt[1], pt[0]) of the k-th point, that is (lat, lon) for a GeoJSON
    point.  A point without a second coordinate makes it raise. *)
Theorem get_route_vertices
    start end_ w s_info e_info w1 w2 resp data geom summary :
  ors_geocode start w = (Ok (Some s_info), w1) ->
  ors_geocode end_ w1 = (Ok (Some e_info), w2) ->
  http w2 (calls w2) (ors_directions w2 s_info e_info) = HttpResponse resp ->
  raise_for_status resp = Ok tt ->
  response_json resp = Ok data ->
  directions_data data geom summary ->
  (forall e, swap_points geom = Raise e -> fst (get_route start end_ w) = Raise e) /\
  (forall route,
     swap_points geom = Ok route ->
     get_route start end_ w
     = (Ok {| rd_route := route; rd_start := s_info; rd_end := e_info;
              rd_summary := summary |}, next_call w2) /\
     List.length route = List.length geom /\
     forall k pt, nth_error geom k = Some pt ->
       exists lat lon, getidx pt 1 = Ok lat /\ getidx pt 0 = Ok lon /\
                       nth_error route k = Some (lat, lon)).
Proof.
  intros H1 H2 Hr Hs Hj Hd. split.
  - intros e He.
    destruct Hd as (feats & f0 & geometry & coordinates & properties &
      Hf & Ht & H0 & Hg & Hc & Hi & Hp & Hsum).
    rewrite (get_route_send _ _ _ _ _ _ _ H1 H2), Hr, Hs, Hj, Hf, Ht.
    cbn [negb bind result_monad fst]. rewrite H0. cbn [bind result_monad].
    rewrite Hg, Hc, Hi, He. reflexivity.
  - intros route Hroute.
    split; [apply (get_route_found _ _ _ _ _ _ _ _ _ _ _ _ H1 H2 Hr Hs Hj Hd Hroute)|].
    apply swap_points_nth, Hroute.
Qed.

(** X5. When the geocoding of an endpoint fails, [get_route] sends no
    directions request: it leaves the world as the two geocoding calls
    left it. *)
Theorem get_route_stops_after_geocoding start end_ w :
  fst (ors_geocode start w) = Ok None \/
  fst (ors_geocode end_ (snd (ors_geocode start w))) = Ok None ->
  snd (get_route start end_ w) = snd (ors_geocode end_ (snd (ors_geocode start w))).
Proof.
  intros H. unfold get_route. cbn [bind SE_monad].
  destruct (ors_geocode_total start w) as (r1 & H1).
  destruct (ors_geocode start w) as [o1 w1]. cbn [fst snd] in *. subst o1.
  destruct (ors_geocode_total end_ w1) as (r2 & H2).
  destruct (ors_geocode end_ w1) as [o2 w2]. cbn [fst snd] in *. subst o2.
  destruct H as [H|H]; injection H as ->.
  - destruct r2 as [[[? ?] ?]|]; reflexivity.
  - destruct r1 as [[[? ?] ?]|]; reflexivity.
Qed.

Lemma segment_labels_nth rest : forall i bs,
  segment_labels rest i = Ok bs ->
  forall k pt, nth_error rest k = Some pt ->
    exists b, nth_error bs k = Some b /\ vertex_label pt (i + Z.of_nat k) = Ok b.
Proof.
  induction rest as [|p rest IH]; intros i bs H k pt Hk.
  - destruct k; discriminate Hk.
  - cbn [segment_labels bind result_monad] in H.
    destruct (vertex_label p i) as [b|] eqn:Eb; [|discriminate H].
    destruct (segment_labels rest (i + 1)) as [bs'|] eqn:Ebs; [|discriminate H].
    injection H as <-. destruct k as [|k]; cbn [nth_error] in *.
    + injection Hk as <-. exists b. rewrite Z.add_0_r. auto.
    + destruct (IH _ _ Ebs k pt Hk) as (b' & Hb' & Hl). exists b'.
      split; [exact Hb'|]. rewrite <- Hl. f_equal. lia.
Qed.

Lemma segment_lines_nth rest : forall prev bs k line,
  nth_error (segment_lines prev rest bs) k = Some line ->
  nth_error (prev :: rest) k = Some (line_from line) /\
  nth_error rest k = Some (line_to line) /\
  exists b, nth_error bs k = Some b /\
            line_color line = if b then red else green.
Proof.
  induction rest as [|p rest IH]; intros prev bs k line H.
  - destruct k; discriminate H.
  - destruct bs as [|b bs]; [destruct k; discriminate H|].
    cbn [segment_lines] in H. destruct k as [|k]; cbn [nth_error] in *.
    + injection H as <-. cbn. repeat split. exists b. auto.
    + apply (IH p bs k line H).
Qed.

(** X6. Whatever the length of the route the page draws, the map is
    centred on the first vertex and the k-th segment joins the vertices
    k-1 and k of the stored route; it is red exactly when
    [get_outage_prediction] says outage for vertex k at position k, green
    otherwise.  For a vertex of float coordinates that verdict is
    Profile B on the generator seeded with
    [int(lat * 10000 + lon * 10000 + k) % 100000], lat and lon being the
    coordinates of vertex k itself. *)
Theorem route_segments_follow_vertices inp w err center lines sm em summary :
  fst (show_route_mode inp w) = Ok (RouteMap err center lines sm em summary) ->
  exists rd,
    ss_route_data (session (snd (show_route_mode inp w))) = Some (Some rd) /\
    nth_error (rd_route rd) 0 = Some center /\
    sm = rd_start rd /\ em = rd_end rd /\
    forall k line,
      nth_error lines k = Some line ->
      nth_error (rd_route rd) k = Some (line_from line) /\
      nth_error (rd_route rd) (S k) = Some (line_to line) /\
      exists b, vertex_label (line_to line) (Z.of_nat (S k)) = Ok b /\
                line_color line = (if b then red else green) /\
                forall lat lon,
                  float_location (line_to line) lat lon ->
                  exists fk n,
                    int_to_float (Z.of_nat (S k)) = Ok fk /\
                    py_int (lat * 10000 + lon * 10000 + fk)%float = Ok n /\
                    fst (profile_b_draws (rng_of_seed (n mod 100000))) = Ok b.
Proof.
  intros H. destruct (show_route_mode_map _ _ _ _ _ _ _ _ H) as (rd & Hs & Hd).
  exists rd. split; [exact Hs|].
  destruct (draw_route_ok _ _ _ _ _ Hd)
    as (_ & first & rest & bs & d & t & Hr & Hb & _ & _ & Hv).
  injection Hv as Hc Hl Hsm Hem _. subst center lines sm em. rewrite Hr.
  split; [reflexivity|]. split; [reflexivity|]. split; [reflexivity|].
  intros k line Hk.
  destruct (segment_lines_nth _ _ _ _ _ Hk) as (Hfrom & Hto & b & Hbk & Hcol).
  split; [exact Hfrom|]. split; [exact Hto|].
  destruct (segment_labels_nth _ _ _ Hb k _ Hto) as (b' & Hb' & Hlab).
  rewrite Hbk in Hb'. injection Hb' as <-.
  assert (Hl : vertex_label (line_to line) (Z.of_nat (S k)) = Ok b).
  { rewrite <- Hlab. f_equal. lia. }
  exists b. split; [exact Hl|]. split; [exact Hcol|].
  intros lat lon F. apply (vertex_label_floats_inv _ _ _ _ _ F Hl).
Qed.

Lemma draw_route_independent err rd : world_independent (draw_route err rd).
Proof.
  unfold draw_route. destruct (rd_route rd) as [|first rest].
  - exists (Raise IndexError). reflexivity.
  - apply bind_independent; [apply lift_independent|]. intros _.
    apply bind_independent.
    + eexists. intros w. apply label_segments_run.
    + intros [outages lines].
      apply bind_independent; [apply lift_independent|]. intros _.
      apply bind_independent; [apply lift_independent|]. intros _.
      apply bind_independent; [apply lift_independent|]. intros distance.
      apply bind_independent; [apply lift_independent|]. intros duration.
      eexists. reflexivity.
Qed.

Lemma show_route_mode_run inp w start_opts end_opts wb wc :
  no_ors_key w = false ->
  fetch_location_suggestions (start_q inp) (snd (set_session init_route_data w))
    = (Ok start_opts, wb) ->
  fetch_location_suggestions (end_q inp) wb = (Ok end_opts, wc) ->
  show_route_mode inp w =
  if show_clicked inp then
    if negb (truthy (selectbox (JStr "" :: start_opts) (sel_start inp)))
       || negb (truthy (selectbox (JStr "" :: end_opts) (sel_end inp)))
    then route_page (Some NotSelected) wc
    else
      match get_route (selectbox (JStr "" :: start_opts) (sel_start inp))
                      (selectbox (JStr "" :: end_opts) (sel_end inp)) wc with
      | (Ok rd, wd) =>
          route_page None (snd (set_session (set_route_data (Some rd)) wd))
      | (Raise e, wd) => route_page (Some (RouteError e)) wd
      end
  else route_page None wc.
Proof.
  intros Hk Hs He. unfold show_route_mode. cbn [bind SE_monad get_world]. rewrite Hk.
  destruct (set_session init_route_data w) as [r0 w0] eqn:E0.
  unfold set_session in E0. injection E0 as <- <-.
  cbn [snd] in Hs. rewrite Hs, He. unfold route_page.
  destruct (show_clicked inp); [|cbn [bind ret SE_monad get_world]; reflexivity].
  destruct (_ || _); [cbn [bind ret SE_monad get_world]; reflexivity|].
  unfold try_except. cbn [bind SE_monad].
  destruct (get_route _ _ wc) as [[rd|e] wd]; cbn [bind ret SE_monad get_world set_session]; reflexivity.
Qed.

(** X7. A run of the route page (the key being set) that is not asked for
    a route, or is asked with an endpoint left unselected, makes the two
    suggestion lookups and redraws the stored route, which changes
    nothing; the unselected endpoint is reported in the sidebar.  A route request that raises does
    not make the page raise: the error goes to the sidebar and the page
    draws the route stored before, which the failed request leaves in
    place. *)
Theorem route_page_contains_errors inp w start_opts end_opts wb wc :
  no_ors_key w = false ->
  fetch_location_suggestions (start_q inp) (snd (set_session init_route_data w))
    = (Ok start_opts, wb) ->
  fetch_location_suggestions (end_q inp) wb = (Ok end_opts, wc) ->
  ss_route_data (session wc) = ss_route_data (init_route_data (session w)) /\
  (forall err w', snd (route_page err w') = w') /\
  (show_clicked inp = false -> show_route_mode inp w = route_page None wc) /\
  (show_clicked inp = true ->
   truthy (selectbox (JStr "" :: start_opts) (sel_start inp)) = false \/
   truthy (selectbox (JStr "" :: end_opts) (sel_end inp)) = false ->
   show_route_mode inp w = route_page (Some NotSelected) wc) /\
  (forall e wd,
     show_clicked inp = true ->
     truthy (selectbox (JStr "" :: start_opts) (sel_start inp)) = true ->
     truthy (selectbox (JStr "" :: end_opts) (sel_end inp)) = true ->
     get_route (selectbox (JStr "" :: start_opts) (sel_start inp))
               (selectbox (JStr "" :: end_opts) (sel_end inp)) wc = (Raise e, wd) ->
     show_route_mode inp w = route_page (Some (RouteError e)) wd /\
     ss_route_data (session wd) = ss_route_data (session wc)).
Proof.
  intros Hk Hs He. rewrite (show_route_mode_run _ _ _ _ _ _ Hk Hs He).
  split; [|split; [|split; [|split]]].
  - pose proof (suggestions_only_calls (start_q inp)
                  (snd (set_session init_route_data w))) as H1.
    pose proof (suggestions_only_calls (end_q inp) wb) as H2.
    rewrite Hs in H1. rewrite He in H2. cbn [snd] in H1, H2.
    destruct H1 as (_&_&_&_&_&S1&_). destruct H2 as (_&_&_&_&_&S2&_).
    rewrite S2, S1. reflexivity.
  - intros err w'. unfold route_page.
    destruct (ss_route_data (session w')) as [[rd|]|]; try reflexivity.
    apply independent_snd, draw_route_independent.
  - intros ->. reflexivity.
  - intros -> [H|H]; rewrite H; cbn [negb orb]; [reflexivity|].
    rewrite orb_true_r. reflexivity.
  - intros e wd -> Hts Hte Hg. rewrite Hts, Hte, Hg. cbn [negb orb].
    split; [reflexivity|].
    pose proof (get_route_only_calls
                  (selectbox (JStr "" :: start_opts) (sel_start inp))
                  (selectbox (JStr "" :: end_opts) (sel_end inp)) wc) as H.
    rewrite Hg in H. cbn [snd] in H.
    destruct H as (_&_&_&_&_&S&_). rewrite S. reflexivity.
Qed.

(** X8. [get_route] may return an empty route (the polyline of the
    answer is not checked); the page then stores it, and drawing it
    raises IndexError.  So does every later run of the page in which the
    button is not clicked: the empty route stays stored. *)
Theorem empty_route_breaks_page inp w start_opts end_opts wb wc rd :
  no_ors_key w = false ->
  fetch_location_suggestions (start_q inp) (snd (set_session init_route_data w))
    = (Ok start_opts, wb) ->
  fetch_location_suggestions (end_q inp) wb = (Ok end_opts, wc) ->
  rd_route rd = [] ->
  (show_clicked inp = false ->
   ss_route_data (session w) = Some (Some rd) ->
   fst (show_route_mode inp w) = Raise IndexError) /\
  (forall wd,
     show_clicked inp = true ->
     truthy (selectbox (JStr "" :: start_opts) (sel_start inp)) = true ->
     truthy (selectbox (JStr "" :: end_opts) (sel_end inp)) = true ->
     get_route (selectbox (JStr "" :: start_opts) (sel_start inp))
               (selectbox (JStr "" :: end_opts) (sel_end inp)) wc = (Ok rd, wd) ->
     fst (show_route_mode inp w) = Raise IndexError /\
     ss_route_data (session (snd (show_route_mode inp w))) = Some (Some rd)).
Proof.
  intros Hk Hs He Hr. rewrite (show_route_mode_run _ _ _ _ _ _ Hk Hs He).
  split.
  - intros -> Hst. unfold route_page.
    pose proof (suggestions_only_calls (start_q inp)
                  (snd (set_session init_route_data w))) as H1.
    pose proof (suggestions_only_calls (end_q inp) wb) as H2.
    rewrite Hs in H1. rewrite He in H2. cbn [snd] in H1, H2.
    destruct H1 as (_&_&_&_&_&S1&_). destruct H2 as (_&_&_&_&_&S2&_).
    rewrite S2, S1. cbn [set_session snd session]. unfold init_route_data.
    rewrite Hst, Hst. unfold draw_route. rewrite Hr. reflexivity.
  - intros wd -> Hts Hte Hg. rewrite Hts, Hte, Hg. cbn [negb orb].
    unfold route_page, set_session. cbn [snd session ss_route_data set_route_data].
    unfold draw_route. rewrite Hr. split; reflexivity.
Qed.

(** X25. folium checks the centre of the map before anything is drawn: a
    stored route whose first vertex holds a None or a NaN coordinate
    makes the drawing raise ValueError, whatever the rest of the route
    and the summary are, and leaves the state as it was. *)
Theorem route_page_refuses_bad_center `{FL : !FoliumLaws} err rd first rest w :
  rd_route rd = first :: rest ->
  no_coordinate (fst first) = true \/
  (is_coordinate (fst first) = true /\ no_coordinate (snd first) = true) ->
  (exists msg, draw_route err rd w = (Raise (ValueError msg), w)) /\
  (ss_route_data (session w) = Some (Some rd) ->
   exists msg, route_page err w = (Raise (ValueError msg), w)).
Proof.
  intros Hr Hbad.
  assert (H : exists msg, draw_route err rd w = (Raise (ValueError msg), w)).
  { destruct (map_refuses first Hbad) as (msg & Hm). exists msg.
    unfold draw_route. rewrite Hr. cbn [bind SE_monad]. unfold lift. rewrite Hm.
    reflexivity. }
  split; [exact H|]. intros Hs. unfold route_page. rewrite Hs. exact H.
Qed.

(** ** Seeded draws *)

Lemma literal_floats :
  SF2Prim (Z_to_SF 70) = 70%float /\ SF2Prim (Z_to_SF 1) = 1%float /\
  SF2Prim (Z_to_SF 25) = 25%float.
Proof. repeat split; vm_compute; reflexivity. Qed.

(** X9. The label [get_outage_prediction] gives a route vertex is the
    Profile A rule of [predict_outage] applied to the four values
    [get_fixed_values] would draw from the vertex's generator: the order
    of the draws is the same, and stopping at the first false operand
    does not change the verdict.  The world is left as it was. *)
Theorem route_label_is_profile_a lat lon i seed cloud rain tec kp g' w :
  vertex_seed lat lon i = Ok seed ->
  feature_draws (rng_of_seed seed) = (Ok (cloud, rain, tec, kp), g') ->
  get_outage_prediction lat lon i w
  = (Ok (predict_outage (PFloat cloud) (PFloat rain) (PFloat tec) (PInt kp)), w).
Proof.
  intros Hs Hd. rewrite get_outage_prediction_label. f_equal.
  unfold vertex_label. cbn [fst snd]. rewrite Hs. cbn [bind result_monad].
  unfold feature_draws in Hd. unfold profile_b_draws.
  cbn [bind ret SE_monad] in *.
  destruct (rng_uniform 0 100 (rng_of_seed seed)) as [[c0|e] g1]; [|discriminate Hd].
  destruct (rng_exponential 2 g1) as [[r0|e] g2] eqn:D2; [|discriminate Hd].
  destruct (rng_uniform 20 80 g2) as [[t0|e] g3] eqn:D3; [|discriminate Hd].
  destruct (rng_integers 0 10 g3) as [[k0|e] g4] eqn:D4; [|discriminate Hd].
  injection Hd as -> -> -> -> _.
  destruct literal_floats as (E70 & E1 & E25).
  unfold predict_outage, num_gt, num_ge. rewrite E70, E1, E25.
  destruct (70 <? cloud)%float; [|reflexivity]. cbn [negb]. rewrite D2.
  destruct (1 <? rain)%float; [|reflexivity]. cbn [negb]. rewrite D3.
  destruct (25 <? tec)%float; [|reflexivity]. cbn [negb]. rewrite D4.
  reflexivity.
Qed.

Lemma feature_draws_in `{NL : !NumpyRandomLaws} :
  draws_in feature_draws fixed_values_in_range.
Proof.
  unfold feature_draws.
  eapply bind_in; [apply (uniform_draws 0 100); reflexivity|]. intros c Hc.
  eapply bind_in; [apply exponential_draws|]. intros r Hr.
  eapply bind_in; [apply (uniform_draws 20 80); reflexivity|]. intros t Ht.
  eapply bind_in; [apply integers_draws|]. intros k Hk.
  apply ret_in. repeat split; try apply Hc; try apply Ht; try apply Hk; exact Hr.
Qed.

(** X10. For a place and time whose seed is defined, [get_fixed_values]
    returns, whatever the generator NumPy provides, a cloud cover in
    [0, 100], a nonnegative rain, a TEC in [20, 80] and a Kp among
    0, ..., 9; it does not touch the world. *)
Theorem get_fixed_values_in_range `{NL : !NumpyRandomLaws} lat lon dt w :
  is_ok (location_seed lat lon dt) = true ->
  exists v, get_fixed_values lat lon dt w = (Ok v, w) /\ fixed_values_in_range v.
Proof.
  intros Hok. destruct (location_seed lat lon dt) as [s|] eqn:Hs; [|discriminate Hok].
  destruct (feature_draws_in (rng_of_seed s)) as (v & Hv & HP).
  exists v. split; [|exact HP].
  unfold get_fixed_values. cbn [bind SE_monad].
  rewrite (seeded_rng_of_seed _ _ _ _ _ Hs). unfold with_rng, lift. rewrite Hv.
  reflexivity.
Qed.

Lemma nan_mul_l x y : Prim2SF x = S754_nan -> Prim2SF (x * y)%float = S754_nan.
Proof. intros H. rewrite mul_spec, H. reflexivity. Qed.

Lemma nan_add_l x y : Prim2SF x = S754_nan -> Prim2SF (x + y)%float = S754_nan.
Proof. intros H. rewrite add_spec, H. reflexivity. Qed.

Lemma nan_add_r x y : Prim2SF y = S754_nan -> Prim2SF (x + y)%float = S754_nan.
Proof. intros H. rewrite add_spec, H. destruct (Prim2SF x); reflexivity. Qed.

Lemma location_seed_nan lat lon dt :
  Prim2SF lat = S754_nan \/ Prim2SF lon = S754_nan ->
  location_seed lat lon dt = Raise nan_to_int.
Proof.
  intros H. unfold location_seed, py_int.
  assert (E : Prim2SF (lat * 1000 + lon * 1000 + timestamp dt)%float = S754_nan).
  { apply nan_add_l. destruct H as [H|H].
    - apply nan_add_l, nan_mul_l, H.
    - apply nan_add_r, nan_mul_l, H. }
  rewrite E. reflexivity.
Qed.

(** X11. A NaN latitude or longitude makes the seed computation raise
    ValueError ([int] of a NaN): [get_fixed_values] and [simulate_points]
    raise it whatever the time and the size, before any draw, and so does
    a run of the Predict block on a stored location with such a
    coordinate, which then trains no model. *)
Theorem nan_coordinate_raises lat lon :
  Prim2SF lat = S754_nan \/ Prim2SF lon = S754_nan ->
  (forall dt w, get_fixed_values lat lon dt w = (Raise nan_to_int, w)) /\
  (forall n dt w, simulate_points n lat lon dt w = (Raise nan_to_int, w)) /\
  (forall inp dt name w,
     ss_loc (session w) = Some (lat, lon, name) ->
     predict_gnss_outage inp (Some dt) w = (Raise nan_to_int, w)).
Proof.
  intros H.
  assert (G : forall dt w, get_fixed_values lat lon dt w = (Raise nan_to_int, w)).
  { intros dt w. unfold get_fixed_values, seeded_rng. cbn [bind SE_monad]. unfold lift.
    rewrite (location_seed_nan _ _ dt H). reflexivity. }
  split; [exact G|]. split.
  - intros n dt w. unfold simulate_points, seeded_rng. cbn [bind SE_monad]. unfold lift.
    rewrite (location_seed_nan _ _ dt H). reflexivity.
  - intros inp dt name w Hloc. unfold predict_gnss_outage.
    cbn [bind SE_monad get_world]. rewrite Hloc.
    cbn [bind SE_monad]. rewrite G. reflexivity.
Qed.

(** X12. With a defined seed, [simulate_points] raises ValueError for a
    negative size, on its first column, and returns the frame of six
    empty columns for the size 0; neither needs anything of the
    generator. *)
Theorem simulate_points_small_sizes n lat lon dt w :
  is_ok (location_seed lat lon dt) = true ->
  (n < 0 ->
   simulate_points n lat lon dt w
   = (Raise (ValueError "negative dimensions are not allowed"), w)) /\
  (n = 0 ->
   simulate_points n lat lon dt w
   = (Ok [ ("lat", []); ("lon", []); ("cloud", []); ("rain", []);
           ("tec", []); ("kp", []) ], w)).
Proof.
  intros Hok. destruct (location_seed lat lon dt) as [s|] eqn:Hs; [|discriminate Hok].
  unfold simulate_points. cbn [bind SE_monad].
  rewrite (seeded_rng_of_seed _ _ _ _ _ Hs). unfold with_rng, lift, population_draws.
  split.
  - intros Hn. unfold sized. apply Z.ltb_lt in Hn. rewrite Hn. reflexivity.
  - intros ->. reflexivity.
Qed.

(** ** Geocoding and forecasts of the location page *)




Lemma geocode_attempt_raises query w e :
  nominatim w (calls w) (Geocode query 10) = GeoRaise e ->
  caught_by_geocode_place e = false ->
  geocode_attempt query w = (Raise e, next_call w).
Proof.
  intros Hn Hc. unfold geocode_attempt, try_except_only. cbn [bind SE_monad].
  unfold nominatim_send. rewrite Hn, Hc. reflexivity.
Qed.


(** X14. An exception of the geocoder other than GeocoderTimedOut and
    GeocoderUnavailable (a GeocoderServiceError, for instance) is not
    caught by [geocode_place]: raised by the first attempt it ends the
    lookup after one call, without the ", India" retry; raised by the
    retry it ends it after two. *)
Theorem geocode_place_propagates place w e :
  caught_by_geocode_place e = false ->
  (nominatim w (calls w) (Geocode place 10) = GeoRaise e ->
   geocode_place place w = (Raise e, next_call w)) /\
  (nominatim_not_found (nominatim w (calls w) (Geocode place 10)) ->
   nominatim w (S (calls w)) (Geocode (place ++ ", India")%string 10) = GeoRaise e ->
   geocode_place place w = (Raise e, next_call (next_call w))).
Proof.
  intros Hc. split.
  - intros Hn. unfold geocode_place. cbn [geocode_attempts bind SE_monad].
    rewrite (geocode_attempt_raises _ _ _ Hn Hc). reflexivity.
  - intros H1 H2. unfold geocode_place. cbn [geocode_attempts bind SE_monad].
    rewrite (geocode_attempt_not_found _ _ H1).
    rewrite (geocode_attempt_raises _ (next_call w) e H2 Hc). reflexivity.
Qed.

Lemma forecast_rec_entry e r : forecast_rec e = Ok r -> forecast_entry e r.
Proof.
  unfold forecast_rec. cbn [bind result_monad]. intros H.
  destruct (getitem e "dt") as [dt|] eqn:E1; [|discriminate H].
  destruct (to_datetime_s dt) as [time|] eqn:E2; [|discriminate H].
  destruct (getitem e "clouds") as [clouds|] eqn:E3; [|discriminate H].
  destruct (getitem clouds "all") as [cloud|] eqn:E4; [|discriminate H].
  destruct (dict_get e "rain" (JDict [])) as [rain|] eqn:E5; [|discriminate H].
  destruct (dict_get rain "3h" (JNum (PFloat 0))) as [rain3h|] eqn:E6; [|discriminate H].
  injection H as <-. cbn [fc_time fc_cloud fc_rain].
  split; [exists dt; auto|]. split; [exists clouds; auto|].
  destruct e as [| | | | |d]; try discriminate E5. exists d. split; [reflexivity|].
  cbn [dict_get] in E5. injection E5 as E5.
  destruct (assoc "rain" d) as [v|].
  - subst v. destruct rain as [| | | | |items]; try discriminate E6.
    exists items. split; [reflexivity|]. cbn [dict_get] in E6. injection E6 as <-.
    reflexivity.
  - subst rain. cbn in E6. injection E6 as <-. reflexivity.
Qed.

Lemma forecast_recs_nth es : forall recs,
  forecast_recs es = Ok recs ->
  List.length recs = List.length es /\
  forall k e, nth_error es k = Some e ->
    exists r, nth_error recs k = Some r /\ forecast_entry e r.
Proof.
  induction es as [|e0 es IH]; intros recs H; cbn [forecast_recs bind result_monad] in H.
  - injection H as <-. split; [reflexivity|]. intros [|k] e Hk; discriminate Hk.
  - destruct (forecast_rec e0) as [r0|] eqn:E0; [|discriminate H].
    destruct (forecast_recs es) as [rs|]; [|discriminate H].
    injection H as <-. destruct (IH rs eq_refl) as [Hlen Hnth].
    split; [cbn [List.length]; f_equal; exact Hlen|].
    intros [|k] e Hk; cbn [nth_error] in *.
    + injection Hk as <-. exists r0. split; [reflexivity|].
      apply forecast_rec_entry, E0.
    + apply Hnth, Hk.
Qed.

Lemma forecast_recs_raise es : forall k e err,
  nth_error es k = Some e -> forecast_rec e = Raise err ->
  exists err', forecast_recs es = Raise err'.
Proof.
  induction es as [|e0 es IH]; intros [|k] e err Hk He; try discriminate Hk;
    cbn [nth_error] in Hk; cbn [forecast_recs bind result_monad].
  - injection Hk as ->. rewrite He. eauto.
  - destruct (forecast_rec e0); [|eauto].
    destruct (IH _ _ _ Hk He) as (err' & ->). eauto.
Qed.

(** X15. [fetch_openweather] sends one forecast request.  An answer with
    an error status raises HTTPError and is not parsed.  Otherwise the
    table has one record per entry of the answer's list, in the same
    order, each holding the entry's time, its cloud cover and its 3-hour
    rain, 0.0 when the entry reports none; one malformed entry makes the
    whole fetch raise. *)
Theorem fetch_openweather_records lat lon w resp :
  http w (calls w) (forecast_request w lat lon) = HttpResponse resp ->
  snd (fetch_openweather lat lon w) = next_call w /\
  (error_status resp ->
   fst (fetch_openweather lat lon w) = Raise (HTTPError (status_code resp))) /\
  (forall j l es,
     raise_for_status resp = Ok tt ->
     response_json resp = Ok j -> getitem j "list" = Ok l -> py_iter l = Ok es ->
     fst (fetch_openweather lat lon w) = forecast_recs es /\
     (forall recs, forecast_recs es = Ok recs ->
        List.length recs = List.length es /\
        forall k e, nth_error es k = Some e ->
          exists r, nth_error recs k = Some r /\ forecast_entry e r) /\
     (forall k e err, nth_error es k = Some e -> forecast_rec e = Raise err ->
        exists err', fst (fetch_openweather lat lon w) = Raise err')).
Proof.
  intros Hh.
  assert (E : fetch_openweather lat lon w
              = (match raise_for_status resp with
                 | Ok _ => (j <- response_json resp ;; l <- getitem j "list" ;;
                            es <- py_iter l ;; forecast_recs es)
                 | Raise e => Raise e
                 end, next_call w)).
  { unfold fetch_openweather. cbn [bind SE_monad get_world].
    unfold requests_send. fold (forecast_request w lat lon). rewrite Hh.
    unfold lift. destruct (raise_for_status resp); reflexivity. }
  rewrite E. cbn [fst snd]. split; [reflexivity|]. split.
  - intros Hs. rewrite (error_status_raises _ Hs). reflexivity.
  - intros j l es Hs Hj Hl He. rewrite Hs, Hj. cbn [bind result_monad].
    rewrite Hl. cbn [bind result_monad]. rewrite He. cbn [bind result_monad].
    split; [reflexivity|]. split; [apply forecast_recs_nth|].
    intros k e err Hk Hr. apply (forecast_recs_raise _ _ _ _ Hk Hr).
Qed.

(** ** The location page *)

Lemma fetch_kp_only_calls : makes_only_calls fetch_kp.
Proof.
  unfold fetch_kp.
  apply bind_only_calls; [apply requests_send_only_calls|]. intros r.
  apply bind_only_calls; [apply lift_only_calls|]. intros _.
  apply lift_only_calls.
Qed.

(** X16. When the Kp download fails after the place was geocoded and its
    forecast fetched, the page raises the error with the session half
    updated: the new location and the new forecast are stored, while the
    Kp table, the stored prediction and the flag [prediction_done] are
    those of before; the flag is not reset, so a prediction made for the
    previous place stays marked as done. *)
Theorem kp_failure_leaves_session_half_updated inp w lat lon name w1 df w2 e :
  negb (String.eqb (location_input inp) "") && fetch_clicked inp = true ->
  geocode_place (location_input inp) (snd (set_session init_trigger w))
    = (Ok (Some (lat, lon, name)), w1) ->
  fetch_openweather lat lon (snd (set_session (set_loc (lat, lon, name)) w1))
    = (Ok df, w2) ->
  fst (fetch_kp (snd (set_session (set_weather_df df) w2))) = Raise e ->
  fst (show_location_mode inp w) = Raise e /\
  ss_loc (session (snd (show_location_mode inp w))) = Some (lat, lon, name) /\
  ss_weather_df (session (snd (show_location_mode inp w))) = Some df /\
  ss_kp_df (session (snd (show_location_mode inp w))) = ss_kp_df (session w) /\
  ss_prediction_done (session (snd (show_location_mode inp w)))
    = ss_prediction_done (session w) /\
  ss_prediction (session (snd (show_location_mode inp w))) = ss_prediction (session w) /\
  fit_calls (snd (show_location_mode inp w)) = fit_calls w.
Proof.
  intros Hc Hg Hf Hk.
  pose proof (geocode_place_only_calls (location_input inp)
                (snd (set_session init_trigger w))) as G.
  rewrite Hg in G. cbn [snd] in G. destruct G as (_&_&_&_&_&G1&G2&_).
  pose proof (fetch_openweather_only_calls lat lon
                (snd (set_session (set_loc (lat, lon, name)) w1))) as F.
  rewrite Hf in F. cbn [snd] in F. destruct F as (_&_&_&_&_&F1&F2&_).
  pose proof (fetch_kp_only_calls (snd (set_session (set_weather_df df) w2))) as K.
  destruct K as (_&_&_&_&_&K1&K2&_).
  unfold show_location_mode, fetch_available_times. rewrite Hc.
  cbn [bind SE_monad]. 
  destruct (set_session init_trigger w) as [r0 w0] eqn:E0.
  unfold set_session in E0. injection E0 as <- <-.
  cbn [snd] in Hg. rewrite Hg.
  destruct (set_session (set_loc (lat, lon, name)) w1) as [ra wa] eqn:Ea.
  unfold set_session in Ea. injection Ea as <- <-.
  cbn [snd] in Hf. rewrite Hf.
  destruct (set_session (set_weather_df df) w2) as [rb wb] eqn:Eb.
  unfold set_session in Eb. injection Eb as <- <-.
  cbn [snd fst] in Hk, K1, K2.
  destruct (fetch_kp _) as [rk wk]. cbn [fst snd] in *. subst rk.
  cbn [fst snd]. rewrite K1, K2. cbn [session fit_calls].
  rewrite F1, F2. cbn [session fit_calls]. rewrite G1, G2. cbn [session fit_calls].
  repeat split; reflexivity.
Qed.

Lemma fetch_available_times_idle inp w :
  no_fetch inp -> fetch_available_times inp w = (Ok tt, w).
Proof. intros H. unfold fetch_available_times. rewrite H. reflexivity. Qed.

(** X17. A run of the location page in which the fetch block does not run
    (no text, or the button not clicked).  Without a stored forecast it
    asks for a location, also when Predict is clicked: nothing is
    computed.  With a stored, nonempty forecast and Predict not clicked
    it shows what the session holds: the stored prediction when
    [prediction_done] is true, the prompt otherwise.  Either way the run
    only initialises [trigger]. *)
Theorem location_page_idle_run inp w :
  no_fetch inp ->
  (ss_weather_df (session w) = None ->
   show_location_mode inp w = (Ok AskForLocation, snd (set_session init_trigger w))) /\
  (forall df dt,
     ss_weather_df (session w) = Some df -> chosen_time inp df dt ->
     predict_clicked inp = false ->
     show_location_mode inp w
     = (match ss_prediction_done (session w), ss_prediction (session w) with
        | Some true, Some p => Ok (ShowPrediction p)
        | Some true, None => Raise AttributeError
        | _, _ => Ok AskForPrediction
        end, snd (set_session init_trigger w))).
Proof.
  intros Hn. split.
  - intros Hw. unfold show_location_mode. cbn [bind SE_monad].
    destruct (set_session init_trigger w) as [r0 w0] eqn:E0.
    unfold set_session in E0. injection E0 as <- <-.
    rewrite (fetch_available_times_idle _ _ Hn).
    cbn [get_world session init_trigger ss_weather_df snd]. rewrite Hw. reflexivity.
  - intros df dt Hw (r & Hr & Ht) Hp. unfold show_location_mode. cbn [bind SE_monad].
    destruct (set_session init_trigger w) as [r0 w0] eqn:E0.
    unfold set_session in E0. injection E0 as <- <-.
    rewrite (fetch_available_times_idle _ _ Hn).
    cbn [get_world session init_trigger ss_weather_df snd]. rewrite Hw.
    destruct df as [|d0 df']; [destruct (selected_time inp); discriminate Hr|].
    unfold lift. rewrite nth_error_map, Hr. cbn [option_map bind result_monad].
    rewrite Ht, Hp. cbn [ret SE_monad session].
    change (ss_prediction_done (init_trigger (session w)))
      with (ss_prediction_done (session w)).
    change (ss_prediction (init_trigger (session w))) with (ss_prediction (session w)).
    destruct (ss_prediction_done (session w)) as [[|]|]; try reflexivity.
    destruct (ss_prediction (session w)); reflexivity.
Qed.

Lemma get_fixed_values_draws lat lon dt s w :
  location_seed lat lon dt = Ok s ->
  get_fixed_values lat lon dt w = (fst (feature_draws (rng_of_seed s)), w).
Proof.
  intros Hs. unfold get_fixed_values. cbn [bind SE_monad].
  rewrite (seeded_rng_of_seed _ _ _ _ _ Hs). reflexivity.
Qed.

Lemma simulate_points_draws n lat lon dt s w :
  location_seed lat lon dt = Ok s ->
  simulate_points n lat lon dt w = (fst (population_draws n lat lon (rng_of_seed s)), w).
Proof.
  intros Hs. unfold simulate_points. cbn [bind SE_monad].
  rewrite (seeded_rng_of_seed _ _ _ _ _ Hs). reflexivity.
Qed.

Lemma features_of_rows (n : nat) : forall cs rs ts ks,
  List.length cs = n -> List.length rs = n -> List.length ts = n -> List.length ks = n ->
  Forall (in_range 0 100) cs -> Forall (fun x => (0 <=? x)%float = true) rs ->
  Forall (in_range 20 80) ts -> Forall (fun k => 0 <= k <= 9) ks ->
  List.length (features_of (map PFloat cs) (map PFloat rs) (map PFloat ts) (map PInt ks)) = n /\
  Forall feature_row
    (features_of (map PFloat cs) (map PFloat rs) (map PFloat ts) (map PInt ks)).
Proof.
  induction n as [|n IH]; intros cs rs ts ks L1 L2 L3 L4 F1 F2 F3 F4.
  - destruct cs; [|discriminate L1]. split; [reflexivity | constructor].
  - destruct cs as [|c cs]; [discriminate L1|]. destruct rs as [|r rs]; [discriminate L2|].
    destruct ts as [|t ts]; [discriminate L3|]. destruct ks as [|k ks]; [discriminate L4|].
    injection L1 as L1. injection L2 as L2. injection L3 as L3. injection L4 as L4.
    inversion F1; subst. inversion F2; subst. inversion F3; subst. inversion F4; subst.
    destruct (IH cs rs ts ks) as [Hlen Hall]; auto.
    cbn [map features_of]. split; [cbn [List.length]; f_equal; exact Hlen|].
    constructor; [|exact Hall].
    exists c, r, t, k. split; [reflexivity|]. unfold fixed_values_in_range. auto.
Qed.

Lemma population_draws_features `{NL : !NumpyRandomLaws} (n : Z) (lat lon : float) :
  0 <= n -> scatter_window_ok lat -> scatter_window_ok lon ->
  draws_in (population_draws n lat lon)
    (fun df => List.length (features df) = Z.to_nat n /\ Forall feature_row (features df)).
Proof.
  intros Hn [Hlat1 Hlat2] [Hlon1 Hlon2]. unfold population_draws.
  eapply bind_in; [eapply sized_in; [exact Hn | apply (uniform_draws _ _ Hlat1 Hlat2)]|].
  intros c_lat [L1 F1].
  eapply bind_in; [eapply sized_in; [exact Hn | apply (uniform_draws _ _ Hlon1 Hlon2)]|].
  intros c_lon [L2 F2].
  eapply bind_in; [eapply sized_in; [exact Hn | apply (uniform_draws 0 100); reflexivity]|].
  intros c_cloud [L3 F3].
  eapply bind_in; [eapply sized_in; [exact Hn | apply exponential_draws]|].
  intros c_rain [L4 F4].
  eapply bind_in; [eapply sized_in; [exact Hn | apply (uniform_draws 20 80); reflexivity]|].
  intros c_tec [L5 F5].
  eapply bind_in; [eapply sized_in; [exact Hn | apply integers_draws]|].
  intros c_kp [L6 F6].
  apply ret_in.
  change (features _) with
    (features_of (map PFloat c_cloud) (map PFloat c_rain) (map PFloat c_tec) (map PInt c_kp)).
  apply features_of_rows; assumption.
Qed.

Lemma upcast_kp k :
  0 <= k <= 9 -> num_ge (upcast (PInt k)) 5 = num_ge (PInt k) 5.
Proof.
  intros Hk.
  assert (E : k = 0 \/ k = 1 \/ k = 2 \/ k = 3 \/ k = 4 \/
              k = 5 \/ k = 6 \/ k = 7 \/ k = 8 \/ k = 9) by lia.
  repeat (destruct E as [->|E]; [vm_compute; reflexivity|]).
  subst k. vm_compute. reflexivity.
Qed.

Lemma label_rows_profile_a (rows : list (list pynum)) :
  Forall feature_row rows ->
  Forall2 labelled_by_profile_a rows
    (map (fun r =>
            match r with
            | [c; r; t; k] => predict_outage (upcast c) (upcast r) (upcast t) (upcast k)
            | _ => false
            end) rows).
Proof.
  induction 1 as [|row rows Hrow _ IH]; cbn [map]; constructor; [|exact IH].
  destruct Hrow as (c & r & t & k & -> & _ & _ & _ & Hk).
  exists (PFloat c), (PFloat r), (PFloat t), (PInt k). split; [reflexivity|].
  unfold predict_outage. rewrite (upcast_kp _ Hk). reflexivity.
Qed.

Lemma predict_gnss_outage_run inp w lat lon name dt s cloud rain tec kp train sim :
  ss_loc (session w) = Some (lat, lon, name) ->
  location_seed lat lon dt = Ok s ->
  fst (feature_draws (rng_of_seed s)) = Ok (cloud, rain, tec, kp) ->
  fst (population_draws 3000 lat lon (rng_of_seed s)) = Ok train ->
  fst (population_draws (n_pts inp) lat lon (rng_of_seed s)) = Ok sim ->
  predict_gnss_outage inp (Some dt) w
  = (Ok tt,
     snd (set_session (set_prediction_done true)
       (snd (set_session (set_prediction
          {| p_lat := lat; p_lon := lon; p_place := name; p_dt := dt;
             p_cloud := cloud; p_rain := rain; p_tec := tec; p_kp := kp;
             p_outage := predict_outage (PFloat cloud) (PFloat rain) (PFloat tec) (PInt kp);
             p_sim := sim;
             p_out_ml := forest_predict (forest_fit (features train) (label_rows train))
                           (features sim);
             p_model_report :=
               classification_report (label_rows train)
                 (forest_predict (forest_fit (features train) (label_rows train))
                    (features train)) |})
          (snd (record_fit (features train) (label_rows train) w)))))).
Proof.
  intros Hloc Hs Hv Ht Hm. unfold predict_gnss_outage.
  cbn [bind SE_monad get_world]. rewrite Hloc.
  cbn [bind SE_monad]. rewrite (get_fixed_values_draws _ _ _ _ _ Hs), Hv.
  rewrite (simulate_points_draws _ _ _ _ _ _ Hs), Ht.
  unfold record_fit at 1. 
  rewrite (simulate_points_draws _ _ _ _ _ _ Hs), Hm.
  reflexivity.
Qed.

(** X18. The Predict button on a stored location and forecast, with a
    chosen time whose seed is defined.  The page shows a prediction for
    the stored place and the chosen time: its four values are in their
    ranges and its status is Profile A on them; its simulated population
    has the requested number of rows, each in range.  The classifier is
    trained once, on the features of 3000 simulated points, each labelled
    by Profile A on its own values, and the predicted column is that
    model's output on the features of the simulated population.  No
    external call is made. *)
Theorem prediction_pipeline `{NL : !NumpyRandomLaws} inp w lat lon name df dt :
  no_fetch inp ->
  predict_clicked inp = true ->
  ss_loc (session w) = Some (lat, lon, name) ->
  ss_weather_df (session w) = Some df ->
  chosen_time inp df dt ->
  is_ok (location_seed lat lon dt) = true ->
  scatter_window_ok lat -> scatter_window_ok lon ->
  0 <= n_pts inp ->
  exists p X y,
    fst (show_location_mode inp w) = Ok (ShowPrediction p) /\
    ss_prediction (session (snd (show_location_mode inp w))) = Some p /\
    ss_prediction_done (session (snd (show_location_mode inp w))) = Some true /\
    calls (snd (show_location_mode inp w)) = calls w /\
    fit_calls (snd (show_location_mode inp w)) = fit_calls w ++ [(X, y)] /\
    List.length X = 3000%nat /\ Forall feature_row X /\
    Forall2 labelled_by_profile_a X y /\
    p_lat p = lat /\ p_lon p = lon /\ p_place p = name /\ p_dt p = dt /\
    fixed_values_in_range (p_cloud p, p_rain p, p_tec p, p_kp p) /\
    p_outage p = predict_outage (PFloat (p_cloud p)) (PFloat (p_rain p))
                   (PFloat (p_tec p)) (PInt (p_kp p)) /\
    population_of (n_pts inp) lat lon (p_sim p) /\
    p_out_ml p = forest_predict (forest_fit X y) (features (p_sim p)).
Proof.
  intros Hn Hp Hloc Hw (r & Hr & Ht) Hok Hlat Hlon Hpts.
  destruct (location_seed lat lon dt) as [s|] eqn:Hs; [|discriminate Hok].
  destruct (feature_draws_in (rng_of_seed s)) as ([[[c ra] t] k] & Hv & Pv).
  destruct (population_draws_features 3000 lat lon ltac:(lia) Hlat Hlon (rng_of_seed s))
    as (train & Htrain & Ltrain & Ftrain).
  destruct (population_draws_in (n_pts inp) lat lon Hpts Hlat Hlon (rng_of_seed s))
    as (sim & Hsim & Psim).
  eexists _, (features train), (label_rows train).
  unfold show_location_mode. cbn [bind SE_monad].
  destruct (set_session init_trigger w) as [r0 w0] eqn:E0.
  unfold set_session in E0. injection E0 as <- <-.
  rewrite (fetch_available_times_idle _ _ Hn).
  cbn [get_world session init_trigger ss_weather_df snd]. rewrite Hw.
  destruct df as [|d0 df']; [destruct (selected_time inp); discriminate Hr|].
  unfold lift. rewrite nth_error_map, Hr. cbn [option_map bind result_monad].
  rewrite Ht, Hp.
  erewrite predict_gnss_outage_run; [|exact Hloc|exact Hs|exact Hv|exact Htrain|exact Hsim].
  cbn [set_session record_fit snd fst session ss_prediction_done ss_prediction
       set_prediction_done set_prediction calls fit_calls
       p_lat p_lon p_place p_dt p_cloud p_rain p_tec p_kp p_outage p_sim p_out_ml].
  repeat split; try reflexivity; try assumption; try apply Pv; try apply Psim.
  apply label_rows_profile_a, Ftrain.
Qed.

(** ** The helpers of route_utils and gnss_model *)

Lemma latlon_points_nth cs : forall pts,
  latlon_points cs = Ok pts ->
  List.length pts = List.length cs /\
  forall k c, nth_error cs k = Some c ->
    exists lon lat, py_iter c = Ok [lon; lat] /\ nth_error pts k = Some (lat, lon).
Proof.
  induction cs as [|c0 cs IH]; intros pts H; cbn [latlon_points bind result_monad] in H.
  - injection H as <-. split; [reflexivity|]. intros [|k] c Hk; discriminate Hk.
  - destruct (py_iter c0) as [[|lon [|lat [|x l]]]|] eqn:E0; try discriminate H.
    destruct (latlon_points cs) as [ps|]; [|discriminate H].
    injection H as <-. destruct (IH ps eq_refl) as [Hlen Hnth].
    split; [cbn [List.length]; f_equal; exact Hlen|].
    intros [|k] c Hk; cbn [nth_error] in *.
    + injection Hk as <-. exists lon, lat. auto.
    + apply Hnth, Hk.
Qed.

Lemma latlon_points_raise cs : forall k c,
  nth_error cs k = Some c -> (forall lon lat, py_iter c <> Ok [lon; lat]) ->
  exists err, latlon_points cs = Raise err.
Proof.
  induction cs as [|c0 cs IH]; intros [|k] c Hk Hc; try discriminate Hk;
    cbn [nth_error] in Hk; cbn [latlon_points bind result_monad].
  - injection Hk as ->.
    destruct (py_iter c) as [[|lon [|lat [|x l]]]|] eqn:E0; eauto.
    exfalso. apply (Hc lon lat). reflexivity.
  - destruct (py_iter c0) as [[|lon [|lat [|x l]]]|]; eauto.
    destruct (IH _ _ Hk Hc) as (err & ->). eauto.
Qed.

Lemma swap_points_two_or_more geom :
  Forall two_or_more geom ->
  exists route, swap_points geom = Ok route /\ List.length route = List.length geom.
Proof.
  induction 1 as [|pt geom (a & b & rest & ->) _ (route & Hr & Hl)].
  - exists []. auto.
  - exists ((b, a) :: route). cbn [swap_points getidx nth_error bind result_monad].
    rewrite Hr. cbn [List.length]. auto.
Qed.

(** X19. On a directions answer it can read, [get_route_coords] sends one
    request and returns one [lat, lon] pair per polyline point, in order,
    each point's two coordinates swapped, with the distance and duration
    rounded to two decimals.  A single point that does not unpack into
    exactly two values makes it print the error and return the fallback
    [[], 0, 0], whereas the route built by [get_route] reads only the first
    two coordinates of each point and accepts longer ones. *)
Theorem get_route_coords_points s e w resp data cs dist dur :
  http w (calls w) (ors_directions_coords w s e) = HttpResponse resp ->
  raise_for_status resp = Ok tt ->
  response_json resp = Ok data ->
  coords_data data cs dist dur ->
  (forall pts,
     latlon_points cs = Ok pts ->
     get_route_coords s e w
     = (Ok (pts, PFloat (py_round2 dist), PFloat (py_round2 dur)), next_call w) /\
     List.length pts = List.length cs /\
     forall k c, nth_error cs k = Some c ->
       exists lon lat, py_iter c = Ok [lon; lat] /\ nth_error pts k = Some (lat, lon)) /\
  (forall k c,
     nth_error cs k = Some c -> (forall lon lat, py_iter c <> Ok [lon; lat]) ->
     exists err,
       get_route_coords s e w
       = (Ok ([], PInt 0, PInt 0), snd (print_route_error err (next_call w)))) /\
  (Forall two_or_more cs ->
   exists route, swap_points cs = Ok route /\ List.length route = List.length cs).
Proof.
  intros Hh Hs Hj (features & f0 & geometry & coords & H1 & H2 & H3 & H4 & H5 & H6 & H7).
  assert (E : get_route_coords s e w
              = match latlon_points cs with
                | Ok pts => (Ok (pts, PFloat (py_round2 dist), PFloat (py_round2 dur)),
                             next_call w)
                | Raise err => (Ok ([], PInt 0, PInt 0),
                                snd (print_route_error err (next_call w)))
                end).
  { unfold get_route_coords. cbn [bind SE_monad get_world].
    unfold try_except. cbn [bind SE_monad]. unfold requests_send.
    fold (ors_directions_coords w s e). rewrite Hh. unfold lift. rewrite Hs, Hj.
    cbn [bind result_monad]. rewrite H1. cbn [bind result_monad].
    rewrite H2. cbn [bind result_monad]. rewrite H3. cbn [bind result_monad].
    rewrite H4. cbn [bind result_monad]. rewrite H6. cbn [bind result_monad].
    rewrite H7. cbn [bind result_monad]. rewrite H5. cbn [bind result_monad].
    destruct (latlon_points cs); reflexivity. }
  split; [|split].
  - intros pts Hp. rewrite E, Hp. split; [reflexivity|]. apply latlon_points_nth, Hp.
  - intros k c Hk Hc. destruct (latlon_points_raise _ _ _ Hk Hc) as (err & Hr).
    exists err. rewrite E, Hr. reflexivity.
  - apply swap_points_two_or_more.
Qed.

Lemma get_place_name_calls lat lon w : snd (get_place_name lat lon w) = next_call w.
Proof.
  unfold get_place_name. cbn [bind SE_monad]. unfold try_except.
  cbn [bind SE_monad]. unfold nominatim_send.
  destruct (nominatim w (calls w) _) as [e|[loc|]]; cbn [ret SE_monad];
    try reflexivity; unfold lift; destruct (_ : result string); reflexivity.
Qed.

(** X20. [get_place_name] makes exactly one reverse-geocoding call and
    never lets the geocoder's failure out: it returns the address found,
    and for float coordinates, when nothing is found or the geocoder
    raises (any exception), the two coordinates printed with four
    decimals. *)
Theorem get_place_name_result lat lon w :
  snd (get_place_name lat lon w) = next_call w /\
  (forall loc,
     nominatim w (calls w) (Reverse (JNum lat) (JNum lon) 5) = GeoResult (Some loc) ->
     fst (get_place_name lat lon w) = Ok (address loc)) /\
  (forall la lo,
     lat = PFloat la -> lon = PFloat lo ->
     nominatim w (calls w) (Reverse (JNum lat) (JNum lon) 5) = GeoResult None \/
     (exists e, nominatim w (calls w) (Reverse (JNum lat) (JNum lon) 5) = GeoRaise e) ->
     fst (get_place_name lat lon w) = Ok (format_f 4 la ++ ", " ++ format_f 4 lo)%string).
Proof.
  split; [apply get_place_name_calls|].
  unfold get_place_name. cbn [bind SE_monad]. unfold try_except.
  cbn [bind SE_monad]. unfold nominatim_send.
  split.
  - intros loc ->. reflexivity.
  - intros la lo -> -> [H|(e & H)]; rewrite H; reflexivity.
Qed.

Lemma every_third_length {A} : forall l : list A,
  List.length (every_third l) = ((List.length l + 2) / 3)%nat.
Proof.
  fix IH 1. intros [|x [|y [|z rest]]]; try reflexivity.
  cbn [every_third List.length]. rewrite IH.
  replace (S (S (S (List.length rest))) + 2)%nat
    with (List.length rest + 2 + 1 * 3)%nat by lia.
  rewrite Nat.div_add by lia. lia.
Qed.

Lemma get_weather_data_calls lat lon w :
  calls_and_draws 1 w (snd (get_weather_data lat lon w)).
Proof.
  unfold get_weather_data. cbn [bind SE_monad get_world].
  unfold try_except. cbn [bind SE_monad]. unfold requests_send.
  destruct (http w (calls w) _) as [e|resp].
  - unfold with_global_random. cbn [global_random next_call].
    destruct (random_randint 0 100 (global_random w)) as [k g].
    repeat split.
  - unfold lift. destruct (_ : result json).
    + repeat split.
    + cbn [bind SE_monad]. unfold with_global_random. cbn [global_random next_call].
      destruct (random_randint 0 100 (global_random w)) as [k g].
      repeat split.
Qed.

Lemma predict_point_calls pt w r w' :
  predict_point pt w = (Ok r, w') -> calls_and_draws 2 w w'.
Proof.
  destruct pt as [lat lon]. unfold predict_point. cbn [bind SE_monad].
  pose proof (get_weather_data_calls lat lon w) as Hw.
  destruct (get_weather_data lat lon w) as [[cloud|e] w1]; [|discriminate].
  cbn [snd] in Hw. unfold with_global_random.
  destruct (random_uniform 1 35 (global_random w1)) as [u g1]. cbn [global_random].
  destruct (random_randint 1 9 g1) as [kp g2].
  unfold lift. destruct (outage_rule_c cloud (py_round2 u) kp) as [outage|e]; [|discriminate].
  match goal with |- context [get_place_name lat lon ?w2] =>
    pose proof (get_place_name_calls lat lon w2) as Hp;
    destruct (get_place_name lat lon w2) as [[place|e] w3] end; [|discriminate].
  cbn [ret SE_monad snd] in *. intros H. injection H as _ <-. subst w3.
  destruct Hw as (C & E1 & E2 & E3 & E4 & E5 & E6 & E7).
  unfold calls_and_draws. cbn [next_call calls env http nominatim entropy session
                               fit_calls stdout].
  rewrite C. repeat split; assumption.
Qed.

Lemma predict_points_calls pts : forall w rs w',
  predict_points pts w = (Ok rs, w') ->
  List.length rs = List.length pts /\ calls_and_draws (2 * List.length rs) w w'.
Proof.
  induction pts as [|pt pts IH]; intros w rs w' H; cbn [predict_points bind SE_monad] in H.
  - cbn [ret SE_monad] in H. injection H as <- <-. split; [reflexivity|].
    repeat split.
  - destruct (predict_point pt w) as [[r|e] w1] eqn:Hp; [|discriminate H].
    destruct (predict_points pts w1) as [[rs1|e] w2] eqn:Hps; [|discriminate H].
    cbn [ret SE_monad] in H. injection H as <- <-.
    destruct (IH _ _ _ Hps) as (Hl & C2 & A2 & B2 & D2 & E2 & F2 & G2 & I2).
    destruct (predict_point_calls _ _ _ _ Hp) as (C1 & A1 & B1 & D1 & E1 & F1 & G1 & I1).
    split; [cbn [List.length]; f_equal; exact Hl|].
    unfold calls_and_draws. cbn [List.length]. rewrite C2, C1.
    repeat split; try congruence. lia.
Qed.

(** X21. A run of [predict_outage_along_route] that returns has
    evaluated one point in three, rounded up: it returns
    (len(route) + 2) // 3 results, and has made exactly two external calls
    for each, the weather request and the reverse geocoding.  Besides the
    call count and the process-global generator it changes nothing: not
    the session, not the training log, not the output. *)
Theorem route_overview_counts route w rs :
  fst (predict_outage_along_route route w) = Ok rs ->
  List.length rs = ((List.length route + 2) / 3)%nat /\
  calls_and_draws (2 * List.length rs) w (snd (predict_outage_along_route route w)).
Proof.
  intros H. unfold predict_outage_along_route in *.
  destruct (predict_points (every_third route) w) as [r w'] eqn:E.
  cbn [fst snd] in *. subst r.
  destruct (predict_points_calls _ _ _ _ E) as (Hl & Hc).
  split; [|exact Hc]. rewrite Hl. apply every_third_length.
Qed.

Lemma get_weather_data_cases lat lon w :
  exists cloud w1,
    get_weather_data lat lon w = (Ok cloud, w1) /\
    ((fetched_at w (calls w) lat lon cloud /\ global_random w1 = global_random w) \/
     ((forall c, ~ fetched_at w (calls w) lat lon c) /\
      cloud = JNum (PInt (fst (random_randint 0 100 (global_random w)))) /\
      global_random w1 = snd (random_randint 0 100 (global_random w)))).
Proof.
  unfold get_weather_data. cbn [bind SE_monad get_world].
  unfold try_except. cbn [bind SE_monad]. unfold requests_send.
  fold (weather_request w lat lon).
  assert (Hfall : forall w0,
    global_random w0 = global_random w ->
    (forall c, ~ fetched_at w (calls w) lat lon c) ->
    exists cloud w1,
      (k <- with_global_random (random_randint 0 100) ;; ret (JNum (PInt k))) w0
      = (Ok cloud, w1) /\
      ((fetched_at w (calls w) lat lon cloud /\ global_random w1 = global_random w) \/
       ((forall c, ~ fetched_at w (calls w) lat lon c) /\
        cloud = JNum (PInt (fst (random_randint 0 100 (global_random w)))) /\
        global_random w1 = snd (random_randint 0 100 (global_random w))))).
  { intros w0 Hg Hno. cbn [bind SE_monad]. unfold with_global_random. rewrite Hg.
    destruct (random_randint 0 100 (global_random w)) as [k g].
    eexists _, _. split; [reflexivity|]. right. repeat split. exact Hno. }
  destruct (http w (calls w) (weather_request w lat lon)) as [e|resp] eqn:Hh.
  - apply Hfall; [reflexivity|].
    intros c (resp & res & clouds & H & _). rewrite Hh in H. discriminate H.
  - unfold lift. cbn [bind result_monad].
    destruct (response_json resp) as [res|e] eqn:Hj.
    2:{ apply Hfall; [reflexivity|].
        intros c (resp' & res & clouds & H & Hj' & _).
        rewrite Hh in H. injection H as <-. rewrite Hj in Hj'. discriminate Hj'. }
    destruct (dict_get res "clouds" (JDict [])) as [clouds|e] eqn:Hc.
    2:{ apply Hfall; [reflexivity|].
        intros c (resp' & res' & clouds & H & Hj' & Hc' & _).
        rewrite Hh in H. injection H as <-. rewrite Hj in Hj'. injection Hj' as <-.
        rewrite Hc in Hc'. discriminate Hc'. }
    destruct (dict_get clouds "all" (JNum (PInt 0))) as [cloud|e] eqn:Ha.
    2:{ apply Hfall; [reflexivity|].
        intros c (resp' & res' & clouds' & H & Hj' & Hc' & Ha').
        rewrite Hh in H. injection H as <-. rewrite Hj in Hj'. injection Hj' as <-.
        rewrite Hc in Hc'. injection Hc' as <-. rewrite Ha in Ha'. discriminate Ha'. }
    exists cloud, (next_call w). split; [reflexivity|]. left.
    split; [|reflexivity]. exists resp, res, clouds. auto.
Qed.

Lemma predict_point_evaluated pt w r w1 :
  predict_point pt w = (Ok r, w1) ->
  point_evaluated w (calls w) (global_random w) pt r (global_random w1).
Proof.
  destruct pt as [lat lon]. unfold predict_point. cbn [bind SE_monad].
  destruct (get_weather_data_cases lat lon w) as (cloud & wa & Hw & Hsrc).
  rewrite Hw. unfold with_global_random.
  destruct (random_uniform 1 35 (global_random wa)) as [u g1] eqn:Hu.
  cbn [global_random].
  destruct (random_randint 1 9 g1) as [kp g2] eqn:Hk.
  unfold lift.
  destruct (outage_rule_c cloud (py_round2 u) kp) as [outage|e] eqn:Ho; [|discriminate].
  match goal with |- context [get_place_name lat lon ?w2] =>
    pose proof (get_place_name_random lat lon w2) as Hp;
    destruct (get_place_name lat lon w2) as [[place|e] w3] end; [|discriminate].
  cbn [ret SE_monad]. intros H. injection H as <- <-.
  cbn [snd global_random] in Hp. rewrite Hp.
  unfold point_evaluated.
  cbn [r_lat r_lon r_cloud_cover r_tec r_geomagnetic r_outage fst snd].
  split; [reflexivity|]. split; [reflexivity|]. split.
  - exists (global_random wa). split.
    + destruct Hsrc as [(Hf & ->)|(Hno & -> & ->)]; [left | right]; auto.
    + rewrite Hu. cbn [fst snd]. rewrite Hk. auto.
  - apply (outage_rule_c_iff _ _ _ _ Ho).
Qed.

Lemma fetched_at_ext w w' n lat lon c :
  env w' = env w -> http w' = http w ->
  fetched_at w' n lat lon c <-> fetched_at w n lat lon c.
Proof.
  intros He Hh. unfold fetched_at, weather_request, openweather_key.
  rewrite He, Hh. reflexivity.
Qed.

Lemma point_evaluated_ext w w' n g pt r g' :
  env w' = env w -> http w' = http w ->
  point_evaluated w' n g pt r g' -> point_evaluated w n g pt r g'.
Proof.
  intros He Hh (H1 & H2 & (g1 & Hsrc & Hrest) & Hrule).
  split; [exact H1|]. split; [exact H2|]. split; [|exact Hrule].
  exists g1. split; [|exact Hrest].
  destruct Hsrc as [(Hf & Hg)|(Hno & Hc & Hg)]; [left | right].
  - split; [apply (fetched_at_ext _ _ _ _ _ _ He Hh), Hf | exact Hg].
  - split; [|auto]. intros c Hf. apply (Hno c).
    apply (fetched_at_ext _ _ _ _ _ _ He Hh), Hf.
Qed.

Lemma route_evaluated_ext w w' pts : forall n g rs,
  env w' = env w -> http w' = http w ->
  route_evaluated w' n g pts rs -> route_evaluated w n g pts rs.
Proof.
  induction pts as [|pt pts IH]; intros n g [|r rs] He Hh H; try exact H.
  destruct H as (g' & Hp & Hrest). exists g'. split.
  - apply (point_evaluated_ext _ _ _ _ _ _ _ He Hh Hp).
  - apply (IH _ _ _ He Hh Hrest).
Qed.

Lemma predict_points_evaluated pts : forall w rs w',
  predict_points pts w = (Ok rs, w') ->
  route_evaluated w (calls w) (global_random w) pts rs.
Proof.
  induction pts as [|pt pts IH]; intros w rs w' H; cbn [predict_points bind SE_monad] in H.
  - cbn [ret SE_monad] in H. injection H as <- _. exact I.
  - destruct (predict_point pt w) as [[r|e] w1] eqn:Hp; [|discriminate H].
    destruct (predict_points pts w1) as [[rs1|e] w2] eqn:Hps; [|discriminate H].
    cbn [ret SE_monad] in H. injection H as <- _.
    destruct (predict_point_calls _ _ _ _ Hp) as (C & E & Hh & _).
    exists (global_random w1). split; [apply (predict_point_evaluated _ _ _ _ Hp)|].
    apply (route_evaluated_ext w w1); [exact E | exact Hh |].
    change (S (S (calls w))) with (2 + calls w)%nat. rewrite <- C.
    apply (IH _ _ _ Hps).
Qed.

(** C8. The helper evaluates the route points at positions 0, 3, 6, ...
    and no others, in order.  It evaluates them one after the other, each
    with two calls, on the process-global generator as the point before
    left it.  For each point the cloud cover is the one carried by the
    weather report the point's request is answered with; when there is no
    such report it is the fallback [randint(0, 100)].  TEC is
    [uniform(1, 35)] rounded to two decimals and Kp is [randint(1, 9)],
    drawn after the cloud cover from the same generator; and the point is
    reported as an outage exactly when cloud > 70 and TEC > 20 and
    Kp >= 6.  On a route of float coordinates, with a weather service
    whose cloud covers are numbers, the helper returns. *)
Theorem route_overview_rule :
  (forall (route : list (pynum * pynum)) i,
     nth_error (every_third route) i = nth_error route (3 * i)) /\
  (forall route w rs w',
     predict_outage_along_route route w = (Ok rs, w') ->
     route_evaluated w (calls w) (global_random w) (every_third route) rs) /\
  (forall route w,
     numeric_clouds w -> Forall float_point route ->
     exists rs, fst (predict_outage_along_route route w) = Ok rs).
Proof.
  split; [intros route i; apply every_third_nth|]. split.
  - intros route w rs w' H. apply (predict_points_evaluated _ _ _ _ H).
  - intros route w Hn Hf. apply predict_points_return; [exact Hn|].
    apply every_third_Forall, Hf.
Qed.

(** ** The two pages of the application *)

Lemma route_frame_frame : frame route_frame.
Proof.
  split.
  - intros w. repeat split.
  - intros w1 w2 w3 H1 H2. unfold route_frame in *.
    repeat match goal with H : _ /\ _ |- _ => destruct H end.
    repeat split; congruence.
  - intros w w' (E1&E2&E3&E4&E5&E6&E7&E8). unfold route_frame.
    rewrite E6. repeat split; assumption.
Qed.

Lemma location_frame_frame : frame location_frame.
Proof.
  split.
  - intros w. repeat split.
  - intros w1 w2 w3 H1 H2. unfold location_frame in *.
    repeat match goal with H : _ /\ _ |- _ => destruct H end.
    repeat split; congruence.
  - intros w w' (E1&E2&E3&E4&E5&E6&E7&E8). unfold location_frame.
    rewrite E6. repeat split; assumption.
Qed.

Section Frames.

Variable R : World -> World -> Prop.
Hypothesis HR : frame R.

Lemma bind_preserves {A B} (m : M A) (k : A -> M B) :
  preserves R m -> (forall a, preserves R (k a)) -> preserves R (bind m k).
Proof.
  intros Hm Hk w. cbn [bind SE_monad]. specialize (Hm w).
  destruct (m w) as [[a|e] w1]; cbn [snd] in *; [|exact Hm].
  eapply (frame_trans R HR); [exact Hm | apply Hk].
Qed.

Lemma try_except_preserves {A} (body : M A) (handler : exn -> M A) :
  preserves R body -> (forall e, preserves R (handler e)) ->
  preserves R (try_except body handler).
Proof.
  intros Hb Hh w. unfold try_except. specialize (Hb w).
  destruct (body w) as [[a|e] w1]; cbn [snd] in *; [exact Hb|].
  eapply (frame_trans R HR); [exact Hb | apply Hh].
Qed.

Lemma only_calls_preserves {A} (m : M A) : makes_only_calls m -> preserves R m.
Proof. intros H w. apply (frame_calls R HR), H. Qed.

Lemma independent_preserves {A} (m : M A) : world_independent m -> preserves R m.
Proof. intros H w. rewrite (independent_snd m w H). apply (frame_refl R HR). Qed.

Lemma ret_preserves {A} (a : A) : preserves R (ret a : M A).
Proof. intros w. apply (frame_refl R HR). Qed.

Lemma raise_preserves {A} (e : exn) : preserves R (raise e : M A).
Proof. intros w. apply (frame_refl R HR). Qed.

Lemma lift_preserves {A} (r : result A) : preserves R (lift r : M A).
Proof. intros w. apply (frame_refl R HR). Qed.

Lemma get_world_preserves : preserves R get_world.
Proof. intros w. apply (frame_refl R HR). Qed.

End Frames.

Lemma show_route_mode_frame inp : preserves route_frame (show_route_mode inp).
Proof.
  pose proof route_frame_frame as HR. unfold show_route_mode.
  apply bind_preserves; [exact HR | apply get_world_preserves, HR |]. intros w0.
  destruct (no_ors_key w0); [apply ret_preserves, HR|].
  apply bind_preserves; [exact HR | |].
  { intros w. unfold set_session, init_route_data. cbn [snd].
    destruct (ss_route_data (session w)); repeat split. }
  intros _.
  apply bind_preserves;
    [exact HR | apply only_calls_preserves, suggestions_only_calls; exact HR |].
  intros start_opts.
  apply bind_preserves;
    [exact HR | apply only_calls_preserves, suggestions_only_calls; exact HR |].
  intros end_opts.
  apply bind_preserves; [exact HR | |].
  { destruct (show_clicked inp); [|apply ret_preserves, HR].
    destruct (_ || _); [apply ret_preserves, HR|].
    apply try_except_preserves; [exact HR | | intros e; apply ret_preserves, HR].
    apply bind_preserves;
      [exact HR | apply only_calls_preserves, get_route_only_calls; exact HR |].
    intros rd.
    apply bind_preserves; [exact HR | | intros _; apply ret_preserves, HR].
    intros w. repeat split. }
  intros err.
  apply bind_preserves; [exact HR | apply get_world_preserves, HR |]. intros w1.
  destruct (ss_route_data (session w1)) as [[rd|]|]; try apply ret_preserves, HR.
  apply independent_preserves, draw_route_independent. exact HR.
Qed.

Lemma set_session_location_frame f :
  (forall s, ss_route_data (f s) = ss_route_data s) ->
  preserves location_frame (set_session f).
Proof. intros H w. unfold set_session. cbn [snd]. repeat split. apply H. Qed.

Lemma predict_gnss_outage_frame inp dt_sel :
  preserves location_frame (predict_gnss_outage inp dt_sel).
Proof.
  pose proof location_frame_frame as HR. unfold predict_gnss_outage.
  apply bind_preserves; [exact HR | apply get_world_preserves, HR |]. intros w0.
  destruct (ss_loc (session w0)) as [[[lat lon] name]|]; [|apply raise_preserves, HR].
  destruct dt_sel as [dt|]; [|apply raise_preserves, HR].
  apply bind_preserves;
    [exact HR | apply independent_preserves, get_fixed_values_independent; exact HR |].
  intros [[[cloud rain] tec] kp].
  apply bind_preserves;
    [exact HR | apply independent_preserves, simulate_points_independent; exact HR |].
  intros train.
  apply bind_preserves; [exact HR | intros w; repeat split |]. intros _.
  apply bind_preserves;
    [exact HR | apply independent_preserves, simulate_points_independent; exact HR |].
  intros sim.
  apply bind_preserves; [exact HR | apply set_session_location_frame; reflexivity |].
  intros _. apply set_session_location_frame. reflexivity.
Qed.

Lemma show_location_mode_frame inp : preserves location_frame (show_location_mode inp).
Proof.
  pose proof location_frame_frame as HR. unfold show_location_mode.
  apply bind_preserves; [exact HR | |].
  { apply set_session_location_frame. reflexivity. }
  intros _.
  apply bind_preserves; [exact HR | |].
  { unfold fetch_available_times. destruct (_ && _); [|apply ret_preserves, HR].
    apply bind_preserves;
      [exact HR | apply only_calls_preserves, geocode_place_only_calls; exact HR |].
    intros [[[lat lon] name]|]; [|apply ret_preserves, HR].
    apply bind_preserves; [exact HR | apply set_session_location_frame; reflexivity |].
    intros _.
    apply bind_preserves;
      [exact HR | apply only_calls_preserves, fetch_openweather_only_calls; exact HR |].
    intros df.
    apply bind_preserves; [exact HR | apply set_session_location_frame; reflexivity |].
    intros _.
    apply bind_preserves;
      [exact HR | apply only_calls_preserves, fetch_kp_only_calls; exact HR |].
    intros kp.
    apply bind_preserves; [exact HR | apply set_session_location_frame; reflexivity |].
    intros _. apply set_session_location_frame. reflexivity. }
  intros _.
  apply bind_preserves; [exact HR | apply get_world_preserves, HR |]. intros w0.
  destruct (ss_weather_df (session w0)) as [weather_df|]; [|apply ret_preserves, HR].
  apply bind_preserves; [exact HR | apply lift_preserves, HR |]. intros times.
  apply bind_preserves; [exact HR | apply lift_preserves, HR |]. intros dt_sel.
  apply bind_preserves; [exact HR | |].
  { destruct (predict_clicked inp);
      [apply predict_gnss_outage_frame | apply ret_preserves, HR]. }
  intros _.
  apply bind_preserves; [exact HR | apply get_world_preserves, HR |]. intros w1.
  destruct (ss_prediction_done (session w1)) as [[|]|]; try apply ret_preserves, HR.
  destruct (ss_prediction (session w1)); [apply ret_preserves, HR | apply raise_preserves, HR].
Qed.

Lemma idle_location_view inp w w' :
  no_fetch inp -> predict_clicked inp = false ->
  ss_weather_df (session w') = ss_weather_df (session w) ->
  ss_prediction_done (session w') = ss_prediction_done (session w) ->
  ss_prediction (session w') = ss_prediction (session w) ->
  fst (show_location_mode inp w') = fst (show_location_mode inp w).
Proof.
  intros Hn Hp E1 E2 E3. unfold show_location_mode. cbn [bind SE_monad].
  unfold set_session. rewrite !(fetch_available_times_idle _ _ Hn).
  cbn [get_world session init_trigger ss_weather_df]. rewrite E1.
  destruct (ss_weather_df (session w)) as [df|]; [|reflexivity].
  unfold lift. destruct (match df with [] => _ | _ => _ end) as [times|]; [|reflexivity].
  destruct (match nth_error times _ with Some _ => _ | None => _ end) as [dt_sel|];
    [|reflexivity].
  rewrite Hp. cbn [ret SE_monad session].
  change (ss_prediction_done (init_trigger (session w')))
    with (ss_prediction_done (session w')).
  change (ss_prediction_done (init_trigger (session w)))
    with (ss_prediction_done (session w)).
  change (ss_prediction (init_trigger (session w'))) with (ss_prediction (session w')).
  change (ss_prediction (init_trigger (session w))) with (ss_prediction (session w)).
  rewrite E2, E3.
  destruct (ss_prediction_done (session w)) as [[|]|]; try reflexivity.
  destruct (ss_prediction (session w)); reflexivity.
Qed.

(** X22. The two pages do not disturb each other.  A run of the
    application in route mode leaves the location, the forecast, the Kp
    table, the prediction and its flag as they were, and trains nothing;
    a run in location mode leaves the stored route as it was.  Neither
    draws from the process-global generator, prints, or changes the
    environment.  So a visit to the route page does not change what the
    location page shows on a run that fetches and predicts nothing. *)
Theorem modes_are_isolated :
  (forall loc route w, route_frame w (snd (app RouteOutage loc route w))) /\
  (forall loc route w, location_frame w (snd (app LocationOutage loc route w))) /\
  (forall loc route w,
     no_fetch loc -> predict_clicked loc = false ->
     fst (show_location_mode loc (snd (app RouteOutage loc route w)))
     = fst (show_location_mode loc w)).
Proof.
  assert (HR : forall loc route w, route_frame w (snd (app RouteOutage loc route w))).
  { intros loc route w. unfold app.
    apply (bind_preserves _ route_frame_frame);
      [apply show_route_mode_frame | intros v; apply ret_preserves, route_frame_frame]. }
  split; [exact HR|]. split.
  - intros loc route w. unfold app.
    apply (bind_preserves _ location_frame_frame);
      [apply show_location_mode_frame
      | intros v; apply ret_preserves, location_frame_frame].
  - intros loc route w Hn Hp.
    destruct (HR loc route w) as (_&_&_&_&_&_&_&_&_&E1&_&E2&E3).
    apply idle_location_view; assumption.
Qed.


(** ** What the fetched data is used for *)

(** X23. [get_weather_data] does not look at the status of the answer: a
    JSON object without a "clouds" entry (the body of an error answer,
    for instance that of an unknown API key) reads as a cloud cover of 0,
    whatever the status code, and the random fallback is not drawn.  The
    point is then never reported as an outage. *)
Theorem weather_error_answer_reads_as_clear lat lon w resp d :
  http w (calls w) (weather_request w lat lon) = HttpResponse resp ->
  body resp = Some (JDict d) ->
  assoc "clouds" d = None ->
  get_weather_data lat lon w = (Ok (JNum (PInt 0)), next_call w) /\
  forall r w',
    predict_point (lat, lon) w = (Ok r, w') ->
    r_cloud_cover r = JNum (PInt 0) /\ r_outage r = false.
Proof.
  intros Hh Hb Hc.
  assert (E : get_weather_data lat lon w = (Ok (JNum (PInt 0)), next_call w)).
  { unfold get_weather_data. cbn [bind SE_monad get_world].
    unfold try_except. cbn [bind SE_monad]. unfold requests_send.
    fold (weather_request w lat lon). rewrite Hh.
    unfold lift, response_json. rewrite Hb. cbn [bind result_monad dict_get].
    rewrite Hc. reflexivity. }
  split; [exact E|]. intros r w' Hp.
  destruct (predict_point_ok _ _ _ _ Hp) as (_ & _ & Hcloud & _ & _ & Hrule & _).
  cbn [fst snd] in Hcloud. rewrite E in Hcloud. cbn [fst] in Hcloud.
  injection Hcloud as Hcloud. split; [symmetry; exact Hcloud|].
  rewrite <- Hcloud in Hrule. cbn in Hrule. injection Hrule as <-. reflexivity.
Qed.

Lemma predict_gnss_outage_loc inp dt_sel w1 w2 :
  ss_loc (session w1) = ss_loc (session w2) ->
  fst (predict_gnss_outage inp dt_sel w1) = fst (predict_gnss_outage inp dt_sel w2) /\
  (is_ok (fst (predict_gnss_outage inp dt_sel w1)) = true ->
   ss_prediction_done (session (snd (predict_gnss_outage inp dt_sel w1))) = Some true /\
   ss_prediction_done (session (snd (predict_gnss_outage inp dt_sel w2))) = Some true /\
   ss_prediction (session (snd (predict_gnss_outage inp dt_sel w1)))
   = ss_prediction (session (snd (predict_gnss_outage inp dt_sel w2))) /\
   ss_prediction (session (snd (predict_gnss_outage inp dt_sel w1))) <> None).
Proof.
  intros Hloc. unfold predict_gnss_outage. cbn [bind SE_monad get_world]. rewrite Hloc.
  destruct (ss_loc (session w2)) as [[[lat lon] name]|];
    [|split; [reflexivity | discriminate]].
  destruct dt_sel as [dt|]; [|split; [reflexivity | discriminate]].
  cbn [bind SE_monad].
  destruct (get_fixed_values_independent lat lon dt) as (rv & Hv). rewrite !Hv.
  destruct rv as [[[[cloud rain] tec] kp]|e]; [|split; [reflexivity | discriminate]].
  destruct (simulate_points_independent 3000 lat lon dt) as (rt & Ht). rewrite !Ht.
  destruct rt as [train|e]; [|split; [reflexivity | discriminate]].
  unfold record_fit.
  destruct (simulate_points_independent (n_pts inp) lat lon dt) as (rs & Hs). rewrite !Hs.
  destruct rs as [sim|e]; [|split; [reflexivity | discriminate]].
  cbn [set_session fst snd session ss_prediction_done ss_prediction
       set_prediction_done set_prediction].
  split; [reflexivity|]. intros _. repeat split. discriminate.
Qed.

(** X24. The prediction uses none of the fetched data.  Two sessions
    that hold the same location, and forecasts in which the same time is
    chosen, get the same page from the Predict button, whatever cloud
    cover and rain the two forecasts report and whatever the Kp tables
    hold (and whatever else differs between the two worlds): only the
    place, the chosen time and the requested size enter the prediction. *)
Theorem prediction_ignores_fetched_data inp w1 w2 df1 df2 dt :
  no_fetch inp ->
  predict_clicked inp = true ->
  ss_loc (session w1) = ss_loc (session w2) ->
  ss_weather_df (session w1) = Some df1 ->
  ss_weather_df (session w2) = Some df2 ->
  chosen_time inp df1 dt ->
  chosen_time inp df2 dt ->
  fst (show_location_mode inp w1) = fst (show_location_mode inp w2).
Proof.
  intros Hn Hp Hloc H1 H2 (r1 & Hr1 & Ht1) (r2 & Hr2 & Ht2).
  unfold show_location_mode. cbn [bind SE_monad]. unfold set_session.
  rewrite !(fetch_available_times_idle _ _ Hn).
  cbn [get_world session init_trigger ss_weather_df]. rewrite H1, H2.
  destruct df1 as [|a1 df1]; [destruct (selected_time inp); discriminate Hr1|].
  destruct df2 as [|a2 df2]; [destruct (selected_time inp); discriminate Hr2|].
  unfold lift. rewrite !nth_error_map, Hr1, Hr2. cbn [option_map bind result_monad].
  rewrite Ht1, Ht2, Hp.
  match goal with
  | |- fst (match predict_gnss_outage _ _ ?a with _ => _ end)
       = fst (match predict_gnss_outage _ _ ?b with _ => _ end) =>
      destruct (predict_gnss_outage_loc inp (Some dt) a b Hloc) as (Hfst & Hsnd);
      destruct (predict_gnss_outage inp (Some dt) a) as [[[]|e1] wa];
      destruct (predict_gnss_outage inp (Some dt) b) as [[[]|e2] wb];
      cbn [fst snd] in *; try discriminate Hfst
  end.
  - destruct (Hsnd eq_refl) as (Da & Db & Pab & Pa).
    cbn [get_world]. rewrite Da, Db, <- Pab.
    destruct (ss_prediction (session wa)); [reflexivity | contradiction].
  - injection Hfst as ->. reflexivity.
Qed.


End MoreProperties.

(* ================================================================== *)
(** ** Runs on the reference runtime *)

Lemma SFleb_refl (x : spec_float) : x <> S754_nan -> SFleb x x = true.
Proof.
  unfold SFleb, SFcompare. destruct x as [s|s| |s m e]; try reflexivity.
  - destruct s; reflexivity.
  - congruence.
  - intros _. rewrite Z.compare_refl.
    change (PosDef.Pos.compare_cont Eq m m) with (Pos.compare m m).
    rewrite Pos.compare_refl. destruct s; reflexivity.
Qed.

Lemma leb_true_refl (a b : float) :
  (a <=? b)%float = true -> (a <=? a)%float = true /\ (b <=? b)%float = true.
Proof.
  rewrite !leb_spec. intros H.
  split; apply SFleb_refl; intros E; rewrite E in H; cbn in H.
  - discriminate.
  - destruct (Prim2SF a); discriminate.
Qed.

Section ReferenceRuns.

#[local] Existing Instance ref_numpy.
#[local] Existing Instance ref_random.
#[local] Existing Instance ref_forest.
#[local] Existing Instance ref_pandas.
#[local] Existing Instance ref_folium.

Lemma ref_numpy_laws : NumpyRandomLaws.
Proof.
  constructor.
  - intros low high g Hf Hle. cbn. unfold ref_uniform. rewrite Hf.
    destruct (leb_true_refl _ _ Hle) as [Hl Hh].
    destruct (Z.even g); eexists; (split; [reflexivity|]); split; assumption.
  - intros scale g Hs. cbn. unfold ref_exponential.
    destruct (g mod 3 =? 0); eexists; (split; [reflexivity|]);
      [reflexivity | exact Hs].
  - intros low high g _ Hlt _. cbn. unfold ref_integers.
    eexists; split; [reflexivity|].
    pose proof (Z.mod_pos_bound g (high - low)). lia.
Qed.

Lemma ref_random_laws : PyRandomLaws.
Proof.
  constructor.
  - intros a b g Hle. cbn. destruct (leb_true_refl _ _ Hle) as [Ha Hb].
    destruct (g mod 4 <? 2); split; assumption.
  - intros a b g Hle. cbn. pose proof (Z.mod_pos_bound g (b - a + 1)). lia.
Qed.

Lemma ref_coordinate_ok j : is_coordinate j = true -> ref_coordinate j = Ok tt.
Proof.
  destruct j as [| |[z|f]| | |]; try discriminate; cbn [is_coordinate ref_coordinate].
  - destruct (int_to_float z); [reflexivity | discriminate].
  - destruct (PrimFloat.is_nan f); [discriminate | reflexivity].
Qed.

Lemma ref_location_ok p : is_location p = true -> ref_location p = Ok tt.
Proof.
  unfold is_location, ref_location. intros H. apply andb_prop in H as [H1 H2].
  rewrite (ref_coordinate_ok _ H1). cbn [bind result_monad].
  apply ref_coordinate_ok, H2.
Qed.

Lemma ref_coordinate_refuses j :
  no_coordinate j = true -> exists msg, ref_coordinate j = Raise (ValueError msg).
Proof.
  destruct j as [| |[z|f]| | |]; try discriminate; cbn [no_coordinate ref_coordinate].
  - eexists. reflexivity.
  - intros H. rewrite H. eexists. reflexivity.
Qed.

Lemma ref_folium_laws : FoliumLaws.
Proof.
  constructor.
  - intros p H. apply ref_location_ok, H.
  - intros p q Hp Hq. cbn [folium_polyline ref_folium ref_locations].
    rewrite (ref_location_ok _ Hp). cbn [bind result_monad].
    rewrite (ref_location_ok _ Hq). reflexivity.
  - intros p H. apply ref_location_ok, H.
  - intros p [H|[H1 H2]]; cbn [folium_map ref_folium]; unfold ref_location.
    + destruct (ref_coordinate_refuses _ H) as (msg & ->). eexists. reflexivity.
    + rewrite (ref_coordinate_ok _ H1). cbn [bind result_monad].
      apply ref_coordinate_refuses, H2.
Qed.

Lemma simulate_points_rows_witness :
  exists df,
    simulate_points 3 (fst bangalore) (snd bangalore) forecast_time
      (ref_world offline no_geocoder 0)
    = (Ok df, ref_world offline no_geocoder 0) /\
    population_of 3 (fst bangalore) (snd bangalore) df.
Proof.
  apply (simulate_points_rows (NL := ref_numpy_laws));
    [lia | reflexivity | split; reflexivity | split; reflexivity].
Defined.

(** The directions helper of route_utils, asked for a route the provider
    does not have: it returns its fallback, it does not raise. *)
Lemma route_directions_fallback_counterexample :
  no_features
    (http (ref_world empty_features_web no_geocoder 0) 0
       (ors_directions_coords (ref_world empty_features_web no_geocoder 0)
          (lonlat (77.5946, 12.9716)%float) (lonlat (77.1025, 28.7041)%float))) /\
  fst (get_route_coords (lonlat (77.5946, 12.9716)%float) (lonlat (77.1025, 28.7041)%float)
         (ref_world empty_features_web no_geocoder 0))
  = Ok ([], PInt 0, PInt 0) /\
  ~ (exists e,
       fst (get_route_coords (lonlat (77.5946, 12.9716)%float)
              (lonlat (77.1025, 28.7041)%float)
              (ref_world empty_features_web no_geocoder 0))
       = Raise e).
Proof.
  split; [|split].
  - exists (JDict [("features", JList [])]), (JList []). repeat split.
  - reflexivity.
  - intros [e H]. discriminate H.
Qed.


Lemma route_directions_errors_witness :
  fst (get_route (JStr "Bengaluru") (JStr "Delhi")
         (ref_world (route_web no_route_answer) no_geocoder 0))
  = Raise (ValueError "No route found") /\
  fst (get_route_coords (lonlat (77.5946, 12.9716)%float) (lonlat (77.1025, 28.7041)%float)
         (ref_world offline no_geocoder 0))
  = Ok ([], PInt 0, PInt 0) /\
  stdout (snd (get_route_coords (lonlat (77.5946, 12.9716)%float)
                 (lonlat (77.1025, 28.7041)%float) (ref_world offline no_geocoder 0)))
  = [("Route error:", Timeout)].
Proof.
  destruct (route_directions_errors (PR := ref_random) (FO := ref_forest) (PD := ref_pandas))
    as (_ & Hroute & _ & _ & Hfails & _).
  split.
  - eapply Hroute; reflexivity.
  - apply (Hfails (lonlat (77.5946, 12.9716)%float) (lonlat (77.1025, 28.7041)%float)
             (ref_world offline no_geocoder 0) Timeout).
    reflexivity.
Defined.



Lemma route_pipeline_three_points_witness :
  fst (show_route_mode drive
         (ref_world (route_web (directions_answer three_points 12000 900)) no_geocoder 0))
  = Ok (RouteMap None (vertex (77.5946, 12.9716)%float)
          [ {| line_from := vertex (77.5946, 12.9716)%float;
               line_to := vertex (77.4375, 13.5)%float; line_color := red |};
            {| line_from := vertex (77.4375, 13.5)%float;
               line_to := vertex (77.1025, 28.7041)%float; line_color := green |} ]
          bengaluru_info bengaluru_info
          {| distance_km := "12.0"; duration_min := "15.0";
             outage_segments := 1; normal_segments := 2 |}).
Proof.
  eapply (route_pipeline_three_points (NR := ref_numpy) (FL := ref_folium_laws) drive
            (ref_world (route_web (directions_answer three_points 12000 900)) no_geocoder 0)
            _ _ _ _ bengaluru_info bengaluru_info _ _ _ _ _ _
            (vertex (77.5946, 12.9716)%float) (vertex (77.4375, 13.5)%float)
            (vertex (77.1025, 28.7041)%float)
            12.9716 77.5946 13.5 77.4375 28.7041 77.1025
            12.9716 77.5946 12.9716 77.5946 909376 1058068 true false);
    try reflexivity.
  - do 5 eexists. repeat (split; [reflexivity|]). reflexivity.
  - reflexivity.
  - left. reflexivity.
  - left. reflexivity.
  - repeat split.
  - repeat split.
  - repeat split.
  - repeat split.
  - repeat split.
Defined.

Lemma route_summary_counts_witness :
  exists rd,
    ss_route_data
      (session (snd (show_route_mode drive
         (ref_world (route_web (directions_answer four_points 5400 420)) no_geocoder 0))))
    = Some (Some rd) /\
    2 + 2 = Z.of_nat (List.length (rd_route rd)) /\
    2 = lines_of_color green
          [ {| line_from := vertex (77.5946, 12.9716)%float;
               line_to := vertex (77.4375, 13.5)%float; line_color := red |};
            {| line_from := vertex (77.4375, 13.5)%float;
               line_to := vertex (77.25, 20.5)%float; line_color := red |};
            {| line_from := vertex (77.25, 20.5)%float;
               line_to := vertex (77.1025, 28.7041)%float; line_color := green |} ] + 1.
Proof.
  destruct (route_summary_counts (NR := ref_numpy) (FM := ref_folium) drive
              (ref_world (route_web (directions_answer four_points 5400 420)) no_geocoder 0)
              None (vertex (77.5946, 12.9716)%float)
              [ {| line_from := vertex (77.5946, 12.9716)%float;
                   line_to := vertex (77.4375, 13.5)%float; line_color := red |};
                {| line_from := vertex (77.4375, 13.5)%float;
                   line_to := vertex (77.25, 20.5)%float; line_color := red |};
                {| line_from := vertex (77.25, 20.5)%float;
                   line_to := vertex (77.1025, 28.7041)%float; line_color := green |} ]
              bengaluru_info bengaluru_info
              {| distance_km := "5.4"; duration_min := "7.0";
                 outage_segments := 2; normal_segments := 2 |}
              eq_refl) as (rd & Hs & Hsum & _ & _ & Hgreen).
  exists rd. split; [exact Hs|]. split; [exact Hsum | exact Hgreen].
Defined.

Lemma cloudy_web_numeric g : numeric_clouds (ref_world cloudy_web no_geocoder g).
Proof.
  intros n req resp res clouds cloud Hh Hj Hc Ha.
  cbn in Hh. unfold cloudy_web in Hh. injection Hh as <-.
  cbn in Hj. injection Hj as <-.
  cbn in Hc. injection Hc as <-.
  cbn in Ha. injection Ha as <-.
  eexists. reflexivity.
Qed.

Lemma seven_points_float : Forall float_point seven_points.
Proof. repeat constructor; eexists _, _; reflexivity. Qed.

Lemma route_overview_rule_witness :
  exists rs,
    fst (predict_outage_along_route seven_points (ref_world cloudy_web no_geocoder 0))
    = Ok rs /\
    route_evaluated (ref_world cloudy_web no_geocoder 0) 0 0
      [ waypoint 12.9716 77.5946; waypoint 15.25 77.375; waypoint 28.7041 77.1025 ] rs.
Proof.
  destruct (route_overview_rule (PR := ref_random) (FO := ref_forest) (PD := ref_pandas))
    as (_ & Hrule & Hreturns).
  destruct (Hreturns seven_points (ref_world cloudy_web no_geocoder 0)
              (cloudy_web_numeric 0) seven_points_float) as (rs & Hrs).
  exists rs. split; [exact Hrs|].
  apply (Hrule seven_points (ref_world cloudy_web no_geocoder 0) rs
           (snd (predict_outage_along_route seven_points
                   (ref_world cloudy_web no_geocoder 0)))).
  rewrite <- Hrs. apply surjective_pairing.
Defined.

(** The helper called twice in a row on the same route, with the same
    answers from the network: the second call finds the process-global
    generator where the first left it, and reports other TEC, Kp and
    outage values. *)
Lemma route_overview_not_reproducible_witness :
  exists rs1 rs2,
    fst (predict_outage_along_route seven_points (ref_world cloudy_web no_geocoder 0))
      = Ok rs1 /\
    fst (predict_outage_along_route seven_points
           (snd (predict_outage_along_route seven_points
                   (ref_world cloudy_web no_geocoder 0))))
      = Ok rs2 /\
    rs1 <> rs2 /\
    map r_tec rs1 = [1; 35; 1]%float /\ map r_tec rs2 = [35; 1; 35]%float /\
    map r_geomagnetic rs1 = [2; 4; 6] /\ map r_geomagnetic rs2 = [8; 1; 3] /\
    map r_outage rs1 = [false; false; false] /\
    map r_outage rs2 = [true; false; false].
Proof.
  destruct (route_overview_not_reproducible
              (PR := ref_random) (FO := ref_forest) (PD := ref_pandas)
              (RL := ref_random_laws)) as (_ & _ & Hdiffer).
  exists (returned (fst (predict_outage_along_route seven_points
                           (ref_world cloudy_web no_geocoder 0)))).
  exists (returned (fst (predict_outage_along_route seven_points
                           (snd (predict_outage_along_route seven_points
                                   (ref_world cloudy_web no_geocoder 0)))))).
  split; [vm_compute; reflexivity|]. split; [vm_compute; reflexivity|].
  split; [|vm_compute; repeat split].
  apply (Hdiffer seven_points (waypoint 12.9716 77.5946)
           [waypoint 15.25 77.375; waypoint 28.7041 77.1025]
           (ref_world cloudy_web no_geocoder 0)
           (snd (predict_outage_along_route seven_points
                   (ref_world cloudy_web no_geocoder 0)))).
  - reflexivity.
  - vm_compute. reflexivity.
  - vm_compute. reflexivity.
  - right. vm_compute. discriminate.
Defined.

End ReferenceRuns.

(* ================================================================== *)
(** ** Further runs on the reference runtime *)

Section MoreReferenceRuns.

#[local] Existing Instance ref_numpy.
#[local] Existing Instance ref_random.
#[local] Existing Instance ref_forest.
#[local] Existing Instance ref_pandas.
#[local] Existing Instance ref_folium.

Lemma ors_geocode_first_feature_witness :
  snd (ors_geocode (JStr "Bengaluru") (ref_world (route_web no_route_answer) no_geocoder 0))
  = next_call (ref_world (route_web no_route_answer) no_geocoder 0) /\
  fst (ors_geocode (JStr "Bengaluru") (ref_world (route_web no_route_answer) no_geocoder 0))
  = Ok (Some bengaluru_info).
Proof.
  destruct (ors_geocode_first_feature (JStr "Bengaluru")
              (ref_world (route_web no_route_answer) no_geocoder 0) eq_refl)
    as (Hsnd & _ & Hfirst).
  split; [exact Hsnd|].
  destruct (Hfirst _ _ _ _ eq_refl eq_refl eq_refl eq_refl eq_refl eq_refl) as [Hfound _].
  apply (Hfound _ _ _ _ _ _ eq_refl eq_refl eq_refl eq_refl eq_refl eq_refl).
Defined.

Lemma route_mode_needs_key_witness :
  show_route_mode drive keyless_world = (Ok KeyMissing, keyless_world) /\
  get_route (JStr "Bengaluru") (JStr "Delhi") keyless_world
  = (Raise (ValueError "Geocoding failed for start or end"), keyless_world).
Proof.
  destruct (route_mode_needs_key keyless_world eq_refl) as (Hpage & _ & _ & Hroute).
  split; [apply Hpage | apply Hroute].
Defined.

Lemma get_route_vertices_witness :
  get_route (JStr "Bengaluru") (JStr "Delhi")
    (ref_world (route_web (directions_answer three_points 12000 900)) no_geocoder 0)
  = (Ok {| rd_route := map vertex three_points;
           rd_start := bengaluru_info; rd_end := bengaluru_info;
           rd_summary := JDict [ ("distance", JNum (PInt 12000));
                                 ("duration", JNum (PInt 900)) ] |},
     next_call (next_call (next_call
       (ref_world (route_web (directions_answer three_points 12000 900)) no_geocoder 0)))) /\
  List.length (map vertex three_points) = List.length (map lonlat three_points).
Proof.
  destruct (get_route_vertices (JStr "Bengaluru") (JStr "Delhi")
              (ref_world (route_web (directions_answer three_points 12000 900))
                 no_geocoder 0)
              bengaluru_info bengaluru_info _ _
              {| status_code := 200;
                 body := Some (directions_answer three_points 12000 900) |}
              (directions_answer three_points 12000 900)
              (map lonlat three_points)
              (JDict [ ("distance", JNum (PInt 12000)); ("duration", JNum (PInt 900)) ])
              eq_refl eq_refl eq_refl eq_refl eq_refl) as (_ & Hok).
  { do 5 eexists. repeat (split; [reflexivity|]). reflexivity. }
  destruct (Hok (map vertex three_points) eq_refl) as (Hrun & Hlen & _).
  split; [exact Hrun | exact Hlen].
Defined.

Lemma get_route_stops_after_geocoding_witness :
  snd (get_route (JStr "Atlantis") (JStr "Bengaluru")
         (ref_world empty_features_web no_geocoder 0))
  = snd (ors_geocode (JStr "Bengaluru")
           (snd (ors_geocode (JStr "Atlantis")
                   (ref_world empty_features_web no_geocoder 0)))).
Proof.
  apply get_route_stops_after_geocoding. left. reflexivity.
Defined.

Lemma route_segments_follow_vertices_witness :
  exists rd,
    ss_route_data
      (session (snd (show_route_mode drive
         (ref_world (route_web (directions_answer three_points 12000 900)) no_geocoder 0))))
    = Some (Some rd) /\
    nth_error (rd_route rd) 0 = Some (vertex (77.5946, 12.9716)%float) /\
    nth_error (rd_route rd) 2 = Some (vertex (77.1025, 28.7041)%float) /\
    vertex_label (vertex (77.1025, 28.7041)%float) 2 = Ok false /\
    exists n,
      py_int (28.7041 * 10000 + 77.1025 * 10000 + 2)%float = Ok n /\
      fst (profile_b_draws (rng_of_seed (n mod 100000))) = Ok false.
Proof.
  destruct (route_segments_follow_vertices
              (NR := ref_numpy) (PR := ref_random) (FO := ref_forest) (PD := ref_pandas)
              (FM := ref_folium)
              drive
              (ref_world (route_web (directions_answer three_points 12000 900))
                 no_geocoder 0)
              None (vertex (77.5946, 12.9716)%float)
              [ {| line_from := vertex (77.5946, 12.9716)%float;
                   line_to := vertex (77.4375, 13.5)%float; line_color := red |};
                {| line_from := vertex (77.4375, 13.5)%float;
                   line_to := vertex (77.1025, 28.7041)%float; line_color := green |} ]
              bengaluru_info bengaluru_info
              {| distance_km := "12.0"; duration_min := "15.0";
                 outage_segments := 1; normal_segments := 2 |}
              eq_refl) as (rd & Hs & Hc & _ & _ & Hlines).
  exists rd. split; [exact Hs|]. split; [exact Hc|].
  destruct (Hlines 1%nat _ eq_refl) as (_ & Hto & b & Hb & Hcol & Hseed).
  split; [exact Hto|]. cbn [line_to line_color] in Hb, Hcol, Hseed.
  destruct b; [discriminate Hcol|]. split; [exact Hb|].
  destruct (Hseed 28.7041%float 77.1025%float) as (fk & n & Hfk & Hn & Hdraw).
  { repeat split. }
  vm_compute in Hfk. injection Hfk as <-.
  exists n. split; [exact Hn | exact Hdraw].
Defined.

Lemma route_page_contains_errors_witness :
  fst (show_route_mode drive (ref_world (route_web no_route_answer) no_geocoder 0))
  = Ok (RouteHint (Some (RouteError (ValueError "No route found")))) /\
  fst (show_route_mode look (ref_world (route_web no_route_answer) no_geocoder 0))
  = Ok (RouteHint None).
Proof.
  split.
  - destruct (route_page_contains_errors (FM := ref_folium) drive
                (ref_world (route_web no_route_answer) no_geocoder 0)
                _ _ _ _ eq_refl eq_refl eq_refl) as (_ & _ & _ & _ & Hraise).
    destruct (Hraise (ValueError "No route found") _ eq_refl eq_refl eq_refl eq_refl)
      as [Hpage _].
    rewrite Hpage. reflexivity.
  - destruct (route_page_contains_errors (FM := ref_folium) look
                (ref_world (route_web no_route_answer) no_geocoder 0)
                _ _ _ _ eq_refl eq_refl eq_refl) as (_ & _ & Hidle & _).
    rewrite (Hidle eq_refl). reflexivity.
Defined.

Lemma empty_route_breaks_page_witness :
  fst (show_route_mode drive
         (ref_world (route_web (directions_answer [] 0 0)) no_geocoder 0))
  = Raise IndexError /\
  ss_route_data
    (session (snd (show_route_mode drive
                     (ref_world (route_web (directions_answer [] 0 0)) no_geocoder 0))))
  = Some (Some empty_route) /\
  fst (show_route_mode look stranded_world) = Raise IndexError.
Proof.
  split; [|split].
  - destruct (empty_route_breaks_page (FM := ref_folium) drive
                (ref_world (route_web (directions_answer [] 0 0)) no_geocoder 0)
                _ _ _ _ empty_route eq_refl eq_refl eq_refl eq_refl) as (_ & Hclick).
    apply (Hclick _ eq_refl eq_refl eq_refl eq_refl).
  - destruct (empty_route_breaks_page (FM := ref_folium) drive
                (ref_world (route_web (directions_answer [] 0 0)) no_geocoder 0)
                _ _ _ _ empty_route eq_refl eq_refl eq_refl eq_refl) as (_ & Hclick).
    apply (Hclick _ eq_refl eq_refl eq_refl eq_refl).
  - destruct (empty_route_breaks_page (FM := ref_folium) look stranded_world
                [JStr "Bengaluru, KA, India"] [JStr "Bengaluru, KA, India"]
                (next_call stranded_world) (next_call (next_call stranded_world))
                empty_route eq_refl eq_refl eq_refl eq_refl) as (Hidle & _).
    apply (Hidle eq_refl eq_refl).
Defined.

Lemma route_label_is_profile_a_witness :
  get_outage_prediction (JNum (PFloat 13.5)) (JNum (PFloat 77.4375)) 1
    (ref_world offline no_geocoder 0)
  = (Ok (predict_outage (PFloat 100) (PFloat 2) (PFloat 80) (PInt 9)),
     ref_world offline no_geocoder 0) /\
  predict_outage (PFloat 100) (PFloat 2) (PFloat 80) (PInt 9) = true.
Proof.
  split; [|reflexivity].
  apply (route_label_is_profile_a
           (NR := ref_numpy) (PR := ref_random) (FO := ref_forest) (PD := ref_pandas)
           (JNum (PFloat 13.5)) (JNum (PFloat 77.4375)) 1
           9376 100 2 80 9 9380); reflexivity.
Defined.

Lemma get_fixed_values_in_range_witness :
  exists v,
    get_fixed_values (fst bangalore) (snd bangalore) forecast_time
      (ref_world offline no_geocoder 0)
    = (Ok v, ref_world offline no_geocoder 0) /\
    fixed_values_in_range v.
Proof.
  apply (get_fixed_values_in_range (NL := ref_numpy_laws)). reflexivity.
Defined.

Lemma nan_coordinate_raises_witness :
  get_fixed_values nan (snd bangalore) forecast_time (ref_world offline no_geocoder 0)
  = (Raise nan_to_int, ref_world offline no_geocoder 0) /\
  simulate_points 500 (fst bangalore) nan forecast_time (ref_world offline no_geocoder 0)
  = (Raise nan_to_int, ref_world offline no_geocoder 0).
Proof.
  split.
  - destruct (nan_coordinate_raises nan (snd bangalore) (or_introl eq_refl)) as (H & _).
    apply H.
  - destruct (nan_coordinate_raises (fst bangalore) nan (or_intror eq_refl)) as (_ & H & _).
    apply H.
Defined.

Lemma simulate_points_small_sizes_witness :
  simulate_points (-1) (fst bangalore) (snd bangalore) forecast_time
    (ref_world offline no_geocoder 0)
  = (Raise (ValueError "negative dimensions are not allowed"),
     ref_world offline no_geocoder 0) /\
  n_rows (returned_frame (fst (simulate_points 0 (fst bangalore) (snd bangalore)
                                 forecast_time (ref_world offline no_geocoder 0)))) = 0%nat.
Proof.
  split.
  - destruct (simulate_points_small_sizes (-1) (fst bangalore) (snd bangalore)
                forecast_time (ref_world offline no_geocoder 0) eq_refl) as (H & _).
    apply H. lia.
  - destruct (simulate_points_small_sizes 0 (fst bangalore) (snd bangalore)
                forecast_time (ref_world offline no_geocoder 0) eq_refl) as (_ & H).
    rewrite (H eq_refl). reflexivity.
Defined.


Lemma geocode_place_propagates_witness :
  geocode_place "Bengaluru" (ref_world offline broken_geocoder 0)
  = (Raise GeocoderServiceError, next_call (ref_world offline broken_geocoder 0)).
Proof.
  destruct (geocode_place_propagates "Bengaluru" (ref_world offline broken_geocoder 0)
              GeocoderServiceError eq_refl) as (H & _).
  apply H. reflexivity.
Defined.

Lemma fetch_openweather_records_witness :
  snd (fetch_openweather 12.9716 77.5946 (ref_world forecast_web no_geocoder 0))
  = next_call (ref_world forecast_web no_geocoder 0) /\
  fst (fetch_openweather 12.9716 77.5946 (ref_world forecast_web no_geocoder 0))
  = Ok forecast_table /\
  List.length forecast_table = List.length forecast_entries.
Proof.
  destruct (fetch_openweather_records 12.9716 77.5946
              (ref_world forecast_web no_geocoder 0) forecast_answer eq_refl)
    as (Hsnd & _ & Hparse).
  destruct (Hparse _ _ forecast_entries eq_refl eq_refl eq_refl eq_refl)
    as (Hfst & Hrecs & _).
  split; [exact Hsnd|]. split; [rewrite Hfst; reflexivity|].
  apply (Hrecs forecast_table eq_refl).
Defined.

Lemma kp_failure_leaves_session_half_updated_witness :
  fst (show_location_mode fetch_bengaluru (ref_world kp_down_web bengaluru_geocoder 0))
  = Raise Timeout /\
  ss_weather_df (session (snd (show_location_mode fetch_bengaluru
                                 (ref_world kp_down_web bengaluru_geocoder 0))))
  = Some forecast_table /\
  ss_prediction_done (session (snd (show_location_mode fetch_bengaluru
                                      (ref_world kp_down_web bengaluru_geocoder 0))))
  = None.
Proof.
  destruct (kp_failure_leaves_session_half_updated fetch_bengaluru
              (ref_world kp_down_web bengaluru_geocoder 0)
              12.9716%float 77.5946%float "Bengaluru" _ forecast_table _ Timeout
              eq_refl eq_refl eq_refl eq_refl) as (Hr & _ & Hw & _ & Hd & _).
  split; [exact Hr|]. split; [exact Hw | exact Hd].
Defined.

Lemma location_page_idle_run_witness :
  fst (show_location_mode predict_now (ref_world offline no_geocoder 0))
  = Ok AskForLocation /\
  fst (show_location_mode look_at_location located_world) = Ok AskForPrediction.
Proof.
  split.
  - destruct (location_page_idle_run predict_now (ref_world offline no_geocoder 0) eq_refl)
      as (H & _).
    rewrite (H eq_refl). reflexivity.
  - destruct (location_page_idle_run look_at_location located_world eq_refl) as (_ & H).
    rewrite (H forecast_table forecast_time eq_refl); [reflexivity | | reflexivity].
    eexists. split; reflexivity.
Defined.

Lemma prediction_pipeline_witness :
  exists p,
    fst (show_location_mode predict_now located_world) = Ok (ShowPrediction p) /\
    p_place p = "Bengaluru" /\
    p_dt p = forecast_time /\
    fixed_values_in_range (p_cloud p, p_rain p, p_tec p, p_kp p) /\
    population_of 500 12.9716 77.5946 (p_sim p) /\
    List.length (fit_calls (snd (show_location_mode predict_now located_world))) = 1%nat.
Proof.
  destruct (prediction_pipeline (NL := ref_numpy_laws) predict_now located_world
              12.9716%float 77.5946%float "Bengaluru" forecast_table forecast_time)
    as (p & X & y & Hv & _ & _ & _ & Hfit & _ & _ & _ & _ & _ & Hplace & Hdt & Hr & _ & Hsim & _).
  - reflexivity.
  - reflexivity.
  - reflexivity.
  - reflexivity.
  - eexists. split; reflexivity.
  - reflexivity.
  - split; reflexivity.
  - split; reflexivity.
  - cbn. lia.
  - exists p. split; [exact Hv|]. split; [exact Hplace|]. split; [exact Hdt|].
    split; [exact Hr|]. split; [exact Hsim|]. rewrite Hfit. reflexivity.
Defined.

Lemma get_route_coords_points_witness :
  fst (get_route_coords (lonlat (77.5946, 12.9716)%float)
         (lonlat (77.1025, 28.7041)%float)
         (ref_world (route_web (directions_answer three_points 12000 900)) no_geocoder 0))
  = Ok (map vertex three_points, PFloat 12, PFloat 15) /\
  fst (get_route_coords (lonlat (77.5946, 12.9716)%float)
         (lonlat (77.1025, 28.7041)%float)
         (ref_world (route_web elevated_answer) no_geocoder 0))
  = Ok ([], PInt 0, PInt 0).
Proof.
  split.
  - destruct (get_route_coords_points (lonlat (77.5946, 12.9716)%float)
                (lonlat (77.1025, 28.7041)%float)
                (ref_world (route_web (directions_answer three_points 12000 900))
                   no_geocoder 0)
                _ (directions_answer three_points 12000 900)
                (map lonlat three_points) 12 15 eq_refl eq_refl eq_refl) as (Hok & _).
    { do 4 eexists. repeat (split; [reflexivity|]). reflexivity. }
    destruct (Hok (map vertex three_points) eq_refl) as (Hrun & _).
    rewrite Hrun. reflexivity.
  - destruct (get_route_coords_points (lonlat (77.5946, 12.9716)%float)
                (lonlat (77.1025, 28.7041)%float)
                (ref_world (route_web elevated_answer) no_geocoder 0)
                _ elevated_answer
                [ lonlat (77.5946, 12.9716)%float;
                  JList [ JNum (PFloat 77.4375); JNum (PFloat 13.5);
                          JNum (PFloat 920) ] ]
                12 15 eq_refl eq_refl eq_refl) as (_ & Hbad & _).
    { do 4 eexists. repeat (split; [reflexivity|]). reflexivity. }
    destruct (Hbad 1%nat _ eq_refl) as (err & Hrun).
    { intros lon lat H. discriminate H. }
    rewrite Hrun. reflexivity.
Defined.

Lemma route_overview_counts_witness :
  List.length (returned (fst (predict_outage_along_route seven_points
                                (ref_world cloudy_web no_geocoder 0)))) = 3%nat /\
  calls (snd (predict_outage_along_route seven_points
                (ref_world cloudy_web no_geocoder 0))) = 6%nat.
Proof.
  destruct (route_overview_counts seven_points (ref_world cloudy_web no_geocoder 0)
              (returned (fst (predict_outage_along_route seven_points
                                (ref_world cloudy_web no_geocoder 0)))))
    as (Hlen & Hcalls & _).
  - vm_compute. reflexivity.
  - split; [exact Hlen|]. rewrite Hcalls, Hlen. reflexivity.
Defined.


Lemma get_place_name_result_witness :
  fst (get_place_name (PFloat 12.9716) (PFloat 77.5946)
         (ref_world offline bengaluru_geocoder 0))
  = Ok "Bengaluru, Karnataka, India" /\
  fst (get_place_name (PFloat 12.9716) (PFloat 77.5946)
         (ref_world offline broken_geocoder 0))
  = Ok "12.9716, 77.5946".
Proof.
  split.
  - destruct (get_place_name_result (PR := ref_random) (FO := ref_forest) (PD := ref_pandas)
                (PFloat 12.9716) (PFloat 77.5946)
                (ref_world offline bengaluru_geocoder 0)) as (_ & Hfound & _).
    apply (Hfound bengaluru_location). reflexivity.
  - destruct (get_place_name_result (PR := ref_random) (FO := ref_forest) (PD := ref_pandas)
                (PFloat 12.9716) (PFloat 77.5946)
                (ref_world offline broken_geocoder 0)) as (_ & _ & Hfallback).
    rewrite (Hfallback 12.9716%float 77.5946%float eq_refl eq_refl).
    + vm_compute. reflexivity.
    + right. exists GeocoderServiceError. reflexivity.
Defined.

Lemma modes_are_isolated_witness :
  ss_prediction
    (session (snd (app RouteOutage look_at_location drive
                     (snd (show_location_mode predict_now located_world)))))
  = ss_prediction (session (snd (show_location_mode predict_now located_world))) /\
  ss_route_data
    (session (snd (app LocationOutage predict_now drive stranded_world)))
  = Some (Some empty_route).
Proof.
  destruct (modes_are_isolated
              (NR := ref_numpy) (PR := ref_random) (FO := ref_forest) (PD := ref_pandas)
              (FM := ref_folium))
    as (Hroute & Hlocation & _).
  split.
  - apply (Hroute look_at_location drive
             (snd (show_location_mode predict_now located_world))).
  - destruct (Hlocation predict_now drive stranded_world) as (_&_&_&_&_&_&H).
    exact H.
Defined.

Lemma weather_error_answer_reads_as_clear_witness :
  get_weather_data (PFloat 12.9716) (PFloat 77.5946)
    (ref_world invalid_key_web no_geocoder 0)
  = (Ok (JNum (PInt 0)), next_call (ref_world invalid_key_web no_geocoder 0)).
Proof.
  destruct (weather_error_answer_reads_as_clear
              (PR := ref_random) (FO := ref_forest) (PD := ref_pandas)
              (PFloat 12.9716) (PFloat 77.5946)
              (ref_world invalid_key_web no_geocoder 0) _ _ eq_refl eq_refl eq_refl)
    as (H & _).
  exact H.
Defined.

Lemma prediction_ignores_fetched_data_witness :
  fst (show_location_mode predict_now located_world)
  = fst (show_location_mode predict_now clear_world).
Proof.
  apply (prediction_ignores_fetched_data
           (NR := ref_numpy) (PR := ref_random) (FO := ref_forest) (PD := ref_pandas)
           predict_now located_world clear_world forecast_table clear_table
           forecast_time eq_refl eq_refl eq_refl eq_refl eq_refl).
  - eexists. split; reflexivity.
  - eexists. split; reflexivity.
Defined.

Lemma route_page_refuses_bad_center_witness :
  exists msg,
    draw_route None headless_route (ref_world offline no_geocoder 0)
    = (Raise (ValueError msg), ref_world offline no_geocoder 0).
Proof.
  destruct (route_page_refuses_bad_center (FL := ref_folium_laws) None headless_route
              (JNull, JNum (PFloat 77.5946)) [vertex (77.4375, 13.5)%float]
              (ref_world offline no_geocoder 0) eq_refl (or_introl eq_refl)) as (H & _).
  exact H.
Defined.

End MoreReferenceRuns.
